(** * ohpm-awesome: the package crawler and the keyword classifier

    A shallow embedding of [crawler.py] (the paginated collector and the
    record normaliser) and of [analyzer.py] (the text-feature extraction
    and the keyword-weighted categorisation), with the properties the
    specification states about them.

    Layout:
    - [Py]: the fragment of the Python runtime the two files rely on --
      JSON-shaped values, exceptions, [str] operations, the two regular
      expressions of [analyzer.py];
    - [Analyzer]: [PackageAnalyzer] of [analyzer.py];
    - [Crawler]: [OHPMCrawler] of [crawler.py];
    - [CrawlerOutput]: [save_to_json] and [main] of [crawler.py];
    - [AnalyzerInput], [AnalyzerReports], [AnalyzerStats]: [load_packages],
      the two rankings and [get_category_stats] of [analyzer.py], over the
      [sorted] and slice of [Builtins];
    - [PackageUrl]: [_get_package_url] of [analyzer.py] and [search.py];
    - [Search]: [PackageSearcher.search] of [search.py].

    Each module of definitions has a module of facts after it. *)

From Stdlib Require Import List String Ascii ZArith NArith Bool Lia Permutation.
From Stdlib Require Import Sorted.
Import ListNotations.

(* ===================================================================== *)
(** * The Python layer *)
(* ===================================================================== *)

Module Py.

(** A Python [str] is a sequence of Unicode code points. *)
Definition pystr := list N.

(** String literals of the sources are ASCII. *)
Definition str (s : string) : pystr :=
  map N_of_ascii (list_ascii_of_string s).

Fixpoint str_eqb (a b : pystr) : bool :=
  match a, b with
  | [], [] => true
  | x :: a', y :: b' => N.eqb x y && str_eqb a' b'
  | _, _ => false
  end.

(** The values [json.loads] produces (and [json.dump] consumes).  A float
    keeps its literal text and whether it is zero: the code never computes
    with one, it can at most test it. *)
#[warnings="-register-all"]
Inductive pyval : Type :=
| PNone
| PBool (b : bool)
| PInt (z : Z)
| PFloat (is_zero : bool) (literal : string)
| PStr (s : pystr)
| PList (l : list pyval)
| PDict (d : list (pystr * pyval)).

(** The exceptions that can arise in the modelled code. *)
Inductive exn : Type :=
| AttributeError
| TypeError
| KeyError
| JSONDecodeError
| IndexError
| RecursionError
| ClientError
| TimeoutError.

Inductive res (A : Type) : Type :=
| Ok (a : A)
| Raise (e : exn).
Arguments Ok {A} a.
Arguments Raise {A} e.

Definition rbind {A B} (m : res A) (k : A -> res B) : res B :=
  match m with
  | Ok a => k a
  | Raise e => Raise e
  end.

Declare Scope res_scope.
Delimit Scope res_scope with res.
Notation "x <- m ;; k" := (rbind m (fun x => k))
  (at level 61, m at next level, right associativity) : res_scope.

Fixpoint rmap {A B} (f : A -> res B) (l : list A) : res (list B) :=
  match l with
  | [] => Ok []
  | a :: l' =>
      (b <- f a ;;
       bs <- rmap f l' ;;
       Ok (b :: bs))%res
  end.

(** ** Dictionaries

    A [dict] keeps insertion order; a key occurs once. *)

Fixpoint lookup (k : pystr) (d : list (pystr * pyval)) : option pyval :=
  match d with
  | [] => None
  | (k', v) :: d' => if str_eqb k k' then Some v else lookup k d'
  end.

(** [bool(v)] *)
Definition truthy (v : pyval) : bool :=
  match v with
  | PNone => false
  | PBool b => b
  | PInt z => negb (Z.eqb z 0)
  | PFloat is_zero _ => negb is_zero
  | PStr s => negb (Nat.eqb (List.length s) 0)
  | PList l => negb (Nat.eqb (List.length l) 0)
  | PDict d => negb (Nat.eqb (List.length d) 0)
  end.

(** [v.get(k, dflt)]: only a [dict] has the method. *)
Definition get (v : pyval) (k : string) (dflt : pyval) : res pyval :=
  match v with
  | PDict d =>
      match lookup (str k) d with
      | Some x => Ok x
      | None => Ok dflt
      end
  | _ => Raise AttributeError
  end.

(** [v[k]] for a string key [k]. *)
Definition getitem (v : pyval) (k : string) : res pyval :=
  match v with
  | PDict d =>
      match lookup (str k) d with
      | Some x => Ok x
      | None => Raise KeyError
      end
  | _ => Raise TypeError
  end.

(** [len(v)] *)
Definition len (v : pyval) : res nat :=
  match v with
  | PStr s => Ok (List.length s)
  | PList l => Ok (List.length l)
  | PDict d => Ok (List.length d)
  | _ => Raise TypeError
  end.

(** ** Text *)

Fixpoint prefix (k t : pystr) : bool :=
  match k with
  | [] => true
  | a :: k' =>
      match t with
      | [] => false
      | c :: t' => N.eqb a c && prefix k' t'
      end
  end.

(** [k in t] for two strings. *)
Fixpoint contains (k t : pystr) : bool :=
  prefix k t ||
  match t with
  | [] => false
  | _ :: t' => contains k t'
  end.

(** [k in v] for a string [k] *)
Definition contains_key (k : string) (v : pyval) : res bool :=
  match v with
  | PDict d => Ok (match lookup (str k) d with Some _ => true | None => false end)
  | PList l =>
      Ok (existsb (fun x => match x with PStr s => str_eqb s (str k) | _ => false end) l)
  | PStr s => Ok (contains (str k) s)
  | _ => Raise TypeError
  end.

(** [sep.join(parts)] *)
Fixpoint join (sep : pystr) (parts : list pystr) : pystr :=
  match parts with
  | [] => []
  | [p] => p
  | p :: rest => p ++ sep ++ join sep rest
  end.

Definition is_ascii (c : N) : bool := N.ltb c 128.

Definition ascii_alnum (c : N) : bool :=
  (N.leb 48 c && N.leb c 57) || (N.leb 65 c && N.leb c 90)
  || (N.leb 97 c && N.leb c 122).

Definition ascii_lower (c : N) : N :=
  if N.leb 65 c && N.leb c 90 then (c + 32)%N else c.

Definition c_at : N := 64.
Definition c_slash : N := 47.
Definition c_underscore : N := 95.

Section Unicode.

(** The Unicode tables of the interpreter are not part of the repository:
    [unicode_alnum] is [str.isalnum] on a code point above 127, and
    [unicode_lower] is [str.lower] on a string that has such a code
    point.  On ASCII text both are given explicitly. *)
Variable unicode_alnum : N -> bool.
Variable unicode_lower : pystr -> pystr.

(** [s.lower()] *)
Definition lower (s : pystr) : pystr :=
  if forallb is_ascii s then map ascii_lower s else unicode_lower s.

(** [v.lower()]: only a [str] has the method. *)
Definition lower_method (v : pyval) : res pystr :=
  match v with
  | PStr s => Ok (lower s)
  | _ => Raise AttributeError
  end.

(** The class [\w] of [re] on a [str] pattern. *)
Definition is_word (c : N) : bool :=
  if is_ascii c then ascii_alnum c || N.eqb c c_underscore
  else unicode_alnum c.

Definition word_at (c : option N) : bool :=
  match c with
  | Some x => is_word x
  | None => false
  end.

(** [\b] between [prev] and [next] ([None] at either end of the text). *)
Definition boundary (prev next : option N) : bool :=
  xorb (word_at prev) (word_at next).

(** The literal [k] then [\b], tried at the head of [t]. *)
Fixpoint literal_then_boundary (k : pystr) (prev : option N) (t : pystr) : bool :=
  match k with
  | [] => boundary prev (hd_error t)
  | a :: k' =>
      match t with
      | [] => false
      | c :: t' => N.eqb a c && literal_then_boundary k' (Some c) t'
      end
  end.

(** [re.search(r'\b' + re.escape(k) + r'\b', t)] as a truth value, with
    [prev] the character before [t]. *)
Fixpoint search_word_from (k : pystr) (prev : option N) (t : pystr) : bool :=
  (boundary prev (hd_error t) && literal_then_boundary k prev t) ||
  match t with
  | [] => false
  | c :: t' => search_word_from k (Some c) t'
  end.

Definition search_word (k t : pystr) : bool := search_word_from k None t.

End Unicode.

(** ** [re.sub(r'^@[^/]+/', '', s)] *)

(** [[^/]*] is greedy: it stops at the first slash or at the end. *)
Fixpoint skip_non_slash (s : pystr) : pystr :=
  match s with
  | [] => []
  | c :: s' => if N.eqb c c_slash then s else skip_non_slash s'
  end.

(** The text after a match of [^@[^/]+/] at the start of [s]. *)
Definition match_org_prefix (s : pystr) : option pystr :=
  match s with
  | c :: s1 =>
      if N.eqb c c_at then
        match s1 with
        | [] => None
        | c1 :: _ =>
            if N.eqb c1 c_slash then None
            else
              match skip_non_slash s1 with
              | _ :: rest => Some rest
              | [] => None
              end
        end
      else None
  | [] => None
  end.

Definition sub_org_prefix (s : pystr) : pystr :=
  match match_org_prefix s with
  | Some rest => rest
  | None => s
  end.

(** ** Auxiliary notions *)

(** The last character of [s], if any; [prev] if [s] is empty. *)
Definition last_or (prev : option N) (s : pystr) : option N :=
  fold_left (fun _ c => Some c) s prev.

Definition last_error (s : pystr) : option N := last_or None s.

(** A keyword that begins and ends with a word character. *)
Definition word_edged (is_word : N -> bool) (k : pystr) : bool :=
  match hd_error k, last_error k with
  | Some a, Some b => is_word a && is_word b
  | _, _ => false
  end.

(** No string occurs twice in [l]. *)
Fixpoint distinct (l : list pystr) : bool :=
  match l with
  | [] => true
  | x :: l' => negb (existsb (str_eqb x) l') && distinct l'
  end.

(** An interpreter for text that is ASCII throughout: no code point above
    127 is alphanumeric, [str.lower] leaves such code points alone. *)
Definition ascii_only_alnum (c : N) : bool := false.
Definition ascii_only_lower (s : pystr) : pystr := map ascii_lower s.

(** ** The vocabulary of the specification

    These three notions follow the wording of the specification, not the
    code; the theorems below relate them to [contains], [search_word] and
    [sub_org_prefix]. *)

(** [k] occurs in [t] as a bare substring. *)
Definition spec_occurs (k t : pystr) : Prop :=
  exists pre post, t = pre ++ k ++ post.

(** [k] occurs in [t] as a whole word: the occurrence is bounded on each
    side by a non-word character or by an edge of the string. *)
Definition spec_whole_word (is_word : N -> bool) (k t : pystr) : Prop :=
  exists pre post,
    t = pre ++ k ++ post /\
    (forall c, last_error pre = Some c -> is_word c = false) /\
    (forall c, hd_error post = Some c -> is_word c = false).

(** [clean] is [s] without a leading organization prefix [@org/]. *)
Inductive spec_org_stripped : pystr -> pystr -> Prop :=
| stripped_prefix (org rest : pystr) :
    org <> [] -> ~ In c_slash org ->
    spec_org_stripped (c_at :: org ++ c_slash :: rest) rest
| stripped_nothing (s : pystr) :
    (forall org rest, org <> [] -> ~ In c_slash org ->
                      s <> c_at :: org ++ c_slash :: rest) ->
    spec_org_stripped s s.

End Py.

(* ===================================================================== *)
(** * analyzer.py *)
(* ===================================================================== *)

Module Analyzer.
Import Py.
Local Open Scope string_scope.
Local Open Scope list_scope.

(** The dataclass [CategoryInfo].  [keywords] is a [set] of strings: it is
    kept as the list of its elements, in the order of the literal (the
    score below is a sum, [category_score_perm] shows the order is
    immaterial).  The three display fields hold the UTF-8 text of the
    source. *)
Record CategoryInfo : Type := {
  name : string;
  emoji : string;
  description : string;
  keywords : list pystr;
  packages : list pyval
}.

(** The constructor call of the source: [packages] is left to
    [__post_init__], which makes it a fresh empty list. *)
Definition CategoryInfo_init (n e d : string) (ks : list string) : CategoryInfo :=
  {| name := n; emoji := e; description := d;
     keywords := map str ks; packages := [] |}.

(** A [dict] from category id to [CategoryInfo], in insertion order. *)
Definition catalog := list (string * CategoryInfo).

Definition _define_categories : catalog :=
[
  ("testing",
   CategoryInfo_init
     "🧪 Testing & Quality Assurance"
     "🧪"
     "Testing frameworks, unit testing, automation testing, and quality assurance tools"
     [
        "test"; "testing"; "unit"; "automation"; "qa"; "quality"; "mock";
        "assertion"; "hypium"; "spec"; "suite" ]);
  ("ui_components",
   CategoryInfo_init
     "🎨 UI Components & Design"
     "🎨"
     "UI components, design systems, layout tools, and visual elements"
     [
        "ui"; "component"; "design"; "layout"; "button"; "dialog"; "picker";
        "navigation"; "tab"; "grid"; "list"; "card"; "menu"; "banner";
        "toast"; "loading"; "refresh"; "swipe"; "slider"; "input"; "form";
        "calendar"; "chart"; "graph"; "visual"; "theme"; "style";
        "animation"; "transition"; "gesture" ]);
  ("utilities",
   CategoryInfo_init
     "🛠️ Utilities & Tools"
     "🛠️"
     "Utility libraries, helper functions, and development tools"
     [
        "util"; "tool"; "helper"; "library"; "common"; "encrypt"; "decrypt";
        "hash"; "string"; "date"; "time"; "regex"; "validation"; "format";
        "convert"; "parse"; "math"; "algorithm"; "collection"; "array";
        "object"; "json"; "xml"; "csv"; "log"; "debug"; "performance";
        "cache"; "storage"; "file"; "io" ]);
  ("networking",
   CategoryInfo_init
     "🌐 Networking & APIs"
     "🌐"
     "HTTP clients, API wrappers, networking libraries, and communication tools"
     [
        "http"; "api"; "request"; "axios"; "fetch"; "network"; "rest";
        "graphql"; "websocket"; "rpc"; "grpc"; "client"; "server";
        "protocol"; "communication"; "socket"; "tcp"; "udp"; "url";
        "endpoint"; "oauth"; "auth"; "jwt" ]);
  ("data_persistence",
   CategoryInfo_init
     "💾 Data & Storage"
     "💾"
     "Database libraries, data persistence, storage solutions, and data management"
     [
        "database"; "db"; "storage"; "persistence"; "sqlite"; "sql"; "orm";
        "model"; "schema"; "migration"; "backup"; "sync"; "crud"; "query";
        "transaction"; "cache"; "memory"; "local"; "cloud"; "preference";
        "setting"; "config" ]);
  ("media",
   CategoryInfo_init
     "🎵 Media & Multimedia"
     "🎵"
     "Audio, video, image processing, camera, and multimedia handling"
     [
        "media"; "audio"; "video"; "image"; "photo"; "camera"; "player";
        "recorder"; "music"; "sound"; "voice"; "multimedia"; "codec";
        "format"; "stream"; "play"; "capture"; "edit"; "filter"; "effect";
        "compress"; "decode"; "encode" ]);
  ("location_maps",
   CategoryInfo_init
     "📍 Location & Maps"
     "📍"
     "GPS, location services, maps, navigation, and geolocation features"
     [
        "location"; "gps"; "map"; "navigation"; "geo"; "latitude";
        "longitude"; "position"; "coordinate"; "route"; "direction";
        "distance"; "address"; "place"; "marker"; "pin" ]);
  ("sensors_hardware",
   CategoryInfo_init
     "📱 Sensors & Hardware"
     "📱"
     "Device sensors, hardware interfaces, and system capabilities"
     [
        "sensor"; "hardware"; "accelerometer"; "gyroscope"; "compass";
        "barometer"; "fingerprint"; "biometric"; "nfc"; "bluetooth"; "wifi";
        "cellular"; "battery"; "vibration"; "light"; "proximity";
        "temperature"; "pressure"; "device"; "system"; "capability" ]);
  ("security",
   CategoryInfo_init
     "🔒 Security & Encryption"
     "🔒"
     "Security libraries, encryption, authentication, and privacy tools"
     [
        "security"; "encrypt"; "decrypt"; "cipher"; "crypto"; "hash";
        "hmac"; "sha"; "md5"; "aes"; "rsa"; "ssl"; "tls"; "certificate";
        "key"; "auth"; "authentication"; "authorization"; "oauth"; "jwt";
        "token"; "password"; "biometric"; "privacy"; "secure" ]);
  ("navigation_routing",
   CategoryInfo_init
     "🧭 Navigation & Routing"
     "🧭"
     "App navigation, routing, page transitions, and navigation patterns"
     [
        "navigation"; "router"; "route"; "nav"; "page"; "screen";
        "transition"; "stack"; "tab"; "drawer"; "bottom"; "sidebar";
        "breadcrumb"; "history"; "back"; "forward"; "deep"; "link" ]);
  ("state_management",
   CategoryInfo_init
     "🔄 State Management"
     "🔄"
     "State management solutions, data flow, and application state handling"
     [
        "state"; "store"; "redux"; "flux"; "observable"; "reactive";
        "model"; "data"; "flow"; "context"; "provider"; "inject";
        "dependency"; "service"; "singleton"; "manager" ]);
  ("internationalization",
   CategoryInfo_init
     "🌍 Internationalization & Localization"
     "🌍"
     "i18n, l10n, multi-language support, and localization tools"
     [
        "i18n"; "l10n"; "international"; "localization"; "locale";
        "language"; "translation"; "translate"; "multilingual"; "region";
        "country"; "currency"; "timezone"; "format"; "culture" ]);
  ("animation",
   CategoryInfo_init
     "✨ Animation & Effects"
     "✨"
     "Animation libraries, visual effects, transitions, and motion design"
     [
        "animation"; "animate"; "transition"; "effect"; "motion"; "tween";
        "spring"; "easing"; "interpolation"; "keyframe"; "timeline";
        "transform"; "scale"; "rotate"; "fade"; "slide"; "bounce";
        "elastic"; "cubic"; "bezier" ]);
  ("game_graphics",
   CategoryInfo_init
     "🎮 Gaming & Graphics"
     "🎮"
     "Game development, 3D graphics, rendering, and interactive experiences"
     [
        "game"; "gaming"; "3d"; "2d"; "graphics"; "render"; "canvas";
        "webgl"; "opengl"; "shader"; "texture"; "mesh"; "scene"; "physics";
        "collision"; "engine"; "sprite"; "particle"; "lighting"; "material" ]);
  ("social_sharing",
   CategoryInfo_init
     "📤 Social & Sharing"
     "📤"
     "Social media integration, sharing capabilities, and social features"
     [
        "social"; "share"; "sharing"; "wechat"; "weibo"; "qq"; "facebook";
        "twitter"; "instagram"; "linkedin"; "whatsapp"; "telegram";
        "discord"; "chat"; "message"; "comment"; "like"; "follow"; "friend" ]);
  ("ecommerce_payment",
   CategoryInfo_init
     "💰 E-commerce & Payment"
     "💰"
     "Payment processing, e-commerce features, and financial integrations"
     [
        "payment"; "pay"; "alipay"; "wechatpay"; "bank"; "card"; "wallet";
        "money"; "currency"; "price"; "order"; "cart"; "shop"; "store";
        "product"; "checkout"; "invoice"; "receipt"; "transaction";
        "finance"; "billing" ]);
  ("ar_vr",
   CategoryInfo_init
     "🥽 AR/VR & Immersive"
     "🥽"
     "Augmented reality, virtual reality, and immersive technologies"
     [
        "ar"; "vr"; "augmented"; "virtual"; "reality"; "immersive"; "360";
        "panorama"; "spatial"; "tracking"; "marker"; "recognition";
        "overlay"; "hologram"; "mixed" ]);
  ("ai_ml",
   CategoryInfo_init
     "🤖 AI & Machine Learning"
     "🤖"
     "Artificial intelligence, machine learning, and smart features"
     [
        "ai"; "ml"; "machine"; "learning"; "neural"; "network"; "deep";
        "model"; "prediction"; "classification"; "recognition"; "detection";
        "ocr"; "nlp"; "computer"; "vision"; "tensorflow"; "pytorch";
        "opencv"; "intelligent"; "smart"; "algorithm" ]);
  ("iot",
   CategoryInfo_init
     "🏠 IoT & Smart Devices"
     "🏠"
     "Internet of Things, smart home, and connected device integration"
     [
        "iot"; "smart"; "home"; "device"; "connected"; "sensor";
        "automation"; "control"; "monitor"; "remote"; "wireless";
        "protocol"; "gateway"; "hub"; "cloud"; "edge"; "mesh"; "zigbee";
        "mqtt" ]);
  ("productivity",
   CategoryInfo_init
     "📊 Productivity & Business"
     "📊"
     "Productivity tools, business applications, and enterprise solutions"
     [
        "productivity"; "business"; "enterprise"; "office"; "document";
        "pdf"; "excel"; "word"; "presentation"; "calendar"; "schedule";
        "task"; "project"; "workflow"; "crm"; "erp"; "report"; "analytics";
        "dashboard"; "chart"; "graph"; "statistics" ]);
  ("education",
   CategoryInfo_init
     "📚 Education & Learning"
     "📚"
     "Educational apps, learning platforms, and academic tools"
     [
        "education"; "learning"; "study"; "course"; "lesson"; "tutorial";
        "quiz"; "exam"; "test"; "grade"; "student"; "teacher"; "school";
        "university"; "academic"; "knowledge"; "skill"; "training";
        "certification" ]);
  ("health_fitness",
   CategoryInfo_init
     "💪 Health & Fitness"
     "💪"
     "Health monitoring, fitness tracking, and wellness applications"
     [
        "health"; "fitness"; "medical"; "wellness"; "exercise"; "workout";
        "sport"; "heart"; "rate"; "step"; "calorie"; "sleep"; "weight";
        "bmi"; "nutrition"; "diet"; "medicine"; "hospital"; "doctor";
        "patient"; "therapy" ]);
  ("communication",
   CategoryInfo_init
     "💬 Communication & Messaging"
     "💬"
     "Chat, messaging, voice/video calls, and communication tools"
     [
        "chat"; "message"; "messaging"; "communication"; "call"; "voice";
        "video"; "conference"; "meeting"; "talk"; "conversation";
        "notification"; "push"; "email"; "sms"; "im"; "instant" ])
].

(** The attributes of [PackageAnalyzer] that the categorisation touches. *)
Record PackageAnalyzer : Type := {
  self_packages : list pyval;
  self_categories : catalog;
  self_uncategorized : list pyval
}.

(** [__init__] followed by [load_packages] on a file holding [pkgs]. *)
Definition loaded (pkgs : list pyval) : PackageAnalyzer :=
  {| self_packages := pkgs;
     self_categories := _define_categories;
     self_uncategorized := [] |}.

(** [self.categories[cid]] *)
Fixpoint category (cid : string) (cats : catalog) : res CategoryInfo :=
  match cats with
  | [] => Raise KeyError
  | (cid', c) :: rest => if String.eqb cid cid' then Ok c else category cid rest
  end.

(** Every package held by some category, in catalog order. *)
Definition categorized (cats : catalog) : list pyval :=
  flat_map (fun item => packages (snd item)) cats.

(** The package of the specification's logging scenario. *)
Definition hilog_package : pyval :=
  PDict [(str "name", PStr (str "@org/hilog"));
         (str "description", PStr (str "logging utility for apps"))].

(** A package named after a keyword that two categories share. *)
Definition cache_package : pyval :=
  PDict [(str "name", PStr (str "@ohos/cache"))].

(** [c.packages.append(package)] *)
Definition with_package (c : CategoryInfo) (package : pyval) : CategoryInfo :=
  {| name := name c; emoji := emoji c; description := description c;
     keywords := keywords c; packages := packages c ++ [package] |}.

(** [self.categories[cid].packages.append(package)] *)
Fixpoint append_to (cid : string) (package : pyval) (cats : catalog) : res catalog :=
  match cats with
  | [] => Raise KeyError
  | (cid', c) :: rest =>
      if String.eqb cid cid' then
        Ok ((cid', with_package c package) :: rest)
      else
        (rest' <- append_to cid package rest ;;
         Ok ((cid', c) :: rest'))%res
  end.

Section Unicode.

Variable unicode_alnum : N -> bool.
Variable unicode_lower : pystr -> pystr.

Local Abbreviation lower := (lower unicode_lower).
Local Abbreviation lower_method := (lower_method unicode_lower).
Local Abbreviation search_word := (search_word unicode_alnum).

(** The [keywords] branch of [_extract_text_features]. *)
Definition keyword_parts (kws : pyval) : res (list pystr) :=
  match kws with
  | PList ks => rmap lower_method ks
  | PStr s => if truthy (PStr s) then Ok [lower s] else Ok []
  | _ => Ok []
  end.

Definition _extract_text_features (package : pyval) : res pystr :=
  (n <- get package "name" (PStr []) ;;
   name <- lower_method n ;;
   let clean_name := sub_org_prefix name in
   d <- get package "description" (PStr []) ;;
   description <- lower_method d ;;
   kws <- get package "keywords" (PList []) ;;
   rest <- keyword_parts kws ;;
   Ok (join (str " ") (clean_name :: description :: rest)))%res.

(** What one keyword adds to the score of its category. *)
Definition keyword_points (text_features keyword : pystr) : nat :=
  if search_word keyword text_features then 2
  else if contains keyword text_features then 1
  else 0.

(** The inner loop over [category.keywords]. *)
Definition category_score (text_features : pystr) (category : CategoryInfo) : nat :=
  fold_left (fun score keyword => score + keyword_points text_features keyword)
            (keywords category) 0.

(** One turn of the loop over [self.categories.items()]; the pair is
    [(best_category, best_score)]. *)
Definition best_step (text_features : pystr)
           (best : option string * nat) (item : string * CategoryInfo)
  : option string * nat :=
  let score := category_score text_features (snd item) in
  if Nat.ltb (snd best) score then (Some (fst item), score) else best.

Definition best_of (text_features : pystr) (cats : catalog) : option string * nat :=
  fold_left (best_step text_features) cats (None, 0).

(** The body of the loop over [self.packages]; the state is the
    categories, the uncategorized list and [categorized_count]. *)
Definition categorize_one (st : catalog * list pyval * nat) (package : pyval)
  : res (catalog * list pyval * nat) :=
  let '(cats, uncategorized, categorized_count) := st in
  (text_features <- _extract_text_features package ;;
   let '(best_category, best_score) := best_of text_features cats in
   if Nat.leb 1 best_score then
     match best_category with
     | Some cid =>
         cats' <- append_to cid package cats ;;
         Ok (cats', uncategorized, categorized_count + 1)
     | None => Raise KeyError
     end
   else Ok (cats, uncategorized ++ [package], categorized_count))%res.

Fixpoint categorize_loop (pkgs : list pyval) (st : catalog * list pyval * nat)
  : res (catalog * list pyval * nat) :=
  match pkgs with
  | [] => Ok st
  | package :: rest =>
      (st' <- categorize_one st package ;;
       categorize_loop rest st')%res
  end.

(** [categorize_packages]: the analyzer afterwards, and the value of
    [categorized_count] that is logged at the end. *)
Definition categorize_packages (self : PackageAnalyzer) : res (PackageAnalyzer * nat) :=
  (st <- categorize_loop (self_packages self)
                         (self_categories self, self_uncategorized self, 0) ;;
   let '(cats, uncategorized, categorized_count) := st in
   Ok ({| self_packages := self_packages self;
          self_categories := cats;
          self_uncategorized := uncategorized |}, categorized_count))%res.

End Unicode.

End Analyzer.

(* ===================================================================== *)
(** * crawler.py *)
(* ===================================================================== *)

Module Crawler.
Import Py.
Local Open Scope string_scope.
Local Open Scope list_scope.
Local Open Scope Z_scope.

(** The dataclass [Package].  A dataclass does not check its annotations:
    each field holds whatever value the raw record has under that key. *)
Record Package : Type := {
  name : pyval;
  description : pyval;
  org : pyval;
  packageType : pyval;
  latestVersion : pyval;
  latestPublishTime : pyval;
  license : pyval;
  authorName : pyval;
  publisherId : pyval;
  publisherName : pyval;
  authorPicUrl : pyval;
  likes : pyval;
  points : pyval;
  popularity : pyval
}.

(** What one GET of the search endpoint can do: [session.get] or
    [response.text()] raises, or a response arrives, with its status and
    the outcome of [json.loads] on its text. *)
Inductive http_outcome : Type :=
| Transport (e : exn)
| Response (status : Z) (loads : res pyval).

(** The records of [logger.error] and [logger.warning], with the values
    their messages interpolate.  ([logger.info] records are not kept; the
    exceptions their arguments can raise are.) *)
Inductive log_record : Type :=
| ErrorHttpStatus (page_num status : Z)
| ErrorJsonDecode
| ErrorFetchingPage (page_num : Z) (e : exn)
| ErrorInitialPage
| ErrorInvalidBody
| ErrorTaskFailed (e : exn)
| WarningPackageData (e : exn).

(** The mutable state a crawl touches: [self.packages], the log, and the
    page numbers requested from the registry so far. *)
Record world : Type := {
  packages : list Package;
  log : list log_record;
  requests : list Z
}.

(** State passing, with exceptions. *)
Definition M (A : Type) : Type := world -> res A * world.

Definition ret {A} (a : A) : M A := fun w => (Ok a, w).

Definition bind {A B} (m : M A) (k : A -> M B) : M B :=
  fun w =>
    match m w with
    | (Ok a, w') => k a w'
    | (Raise e, w') => (Raise e, w')
    end.

Definition lift {A} (r : res A) : M A := fun w => (r, w).

Declare Scope crawl_scope.
Delimit Scope crawl_scope with crawl.
Notation "x <- m ;; k" := (bind m (fun x => k))
  (at level 61, m at next level, right associativity) : crawl_scope.
Notation "m ;; k" := (bind m (fun _ => k))
  (at level 61, right associativity) : crawl_scope.

Definition logger (r : log_record) : M unit :=
  fun w => (Ok tt, {| packages := packages w; log := log w ++ [r];
                      requests := requests w |}).

(** [self.packages.append(package)] *)
Definition append_package (p : Package) : M unit :=
  fun w => (Ok tt, {| packages := packages w ++ [p]; log := log w;
                      requests := requests w |}).

Definition sent (page_num : Z) : M unit :=
  fun w => (Ok tt, {| packages := packages w; log := log w;
                      requests := requests w ++ [page_num] |}).

Definition get_packages : M (list Package) := fun w => (Ok (packages w), w).

Fixpoint for_each {A} (l : list A) (body : A -> M unit) : M unit :=
  match l with
  | [] => ret tt
  | a :: l' => (body a ;; for_each l' body)%crawl
  end.

Fixpoint map_M {A B} (f : A -> M B) (l : list A) : M (list B) :=
  match l with
  | [] => ret []
  | a :: l' =>
      (b <- f a ;;
       bs <- map_M f l' ;;
       ret (b :: bs))%crawl
  end.

(** [v[0]] *)
Definition first_item (v : pyval) : res pyval :=
  match v with
  | PList (x :: _) => Ok x
  | PList [] => Raise IndexError
  | PStr (c :: _) => Ok (PStr [c])
  | PStr [] => Raise IndexError
  | PDict _ => Raise KeyError
  | _ => Raise TypeError
  end.

(** [v.keys()] *)
Definition keys (v : pyval) : res (list pystr) :=
  match v with
  | PDict d => Ok (map fst d)
  | _ => Raise AttributeError
  end.

(** The items a [for] loop over [v] visits. *)
Definition iter (v : pyval) : res (list pyval) :=
  match v with
  | PList l => Ok l
  | PStr s => Ok (map (fun c => PStr [c]) s)
  | PDict d => Ok (map (fun kv => PStr (fst kv)) d)
  | _ => Raise TypeError
  end.

(** The page numbers [2..n]. *)
Definition pages_from_2 (n : Z) : list Z :=
  map (fun i => 2 + Z.of_nat i) (seq 0 (Z.to_nat (n - 1))).

(** [range(2, v + 1)] *)
Definition remaining_pages (v : pyval) : res (list Z) :=
  match v with
  | PInt n => Ok (pages_from_2 n)
  | PBool _ => Ok []
  | _ => Raise TypeError
  end.

(** Lines 82-88 of [fetch_page]: the structure the log messages look at. *)
Definition inspect_structure (data : pyval) : res unit :=
  match data with
  | PDict d =>
      match lookup (str "body") d with
      | Some (PDict b) =>
          match lookup (str "rows") b with
          | Some rows =>
              (n <- len rows ;;
               if Nat.ltb 0 n then
                 (x <- first_item rows ;;
                  _ <- keys x ;;
                  Ok tt)
               else Ok tt)%res
          | None => Ok tt
          end
      | _ => Ok tt
      end
  | _ => Ok tt
  end.

(** Line 94 of [fetch_page]: the arguments of the closing message. *)
Definition inspect_summary (data : pyval) : res unit :=
  (b1 <- get data "body" (PDict []) ;;
   _ <- get b1 "pages" (PStr (str "?")) ;;
   b2 <- get data "body" (PDict []) ;;
   rows <- get b2 "rows" (PList []) ;;
   _ <- len rows ;;
   Ok tt)%res.

(** [Package(name=pkg_data.get('name', ''), ...)] *)
Definition make_package (pkg_data : pyval) : res Package :=
  (f1 <- get pkg_data "name" (PStr []) ;;
   f2 <- get pkg_data "description" (PStr []) ;;
   f3 <- get pkg_data "org" (PStr []) ;;
   f4 <- get pkg_data "packageType" (PStr []) ;;
   f5 <- get pkg_data "latestVersion" (PStr []) ;;
   f6 <- get pkg_data "latestPublishTime" (PInt 0) ;;
   f7 <- get pkg_data "license" (PStr []) ;;
   f8 <- get pkg_data "authorName" (PStr []) ;;
   f9 <- get pkg_data "publisherId" (PStr []) ;;
   f10 <- get pkg_data "publisherName" (PStr []) ;;
   f11 <- get pkg_data "authorPicUrl" (PStr []) ;;
   f12 <- get pkg_data "likes" (PInt 0) ;;
   f13 <- get pkg_data "points" (PInt 0) ;;
   f14 <- get pkg_data "popularity" (PInt 0) ;;
   Ok {| name := f1; description := f2; org := f3; packageType := f4;
         latestVersion := f5; latestPublishTime := f6; license := f7;
         authorName := f8; publisherId := f9; publisherName := f10;
         authorPicUrl := f11; likes := f12; points := f13;
         popularity := f14 |})%res.

(** The body of the loop of [_process_page_data], with its [try]. *)
Definition process_row (pkg_data : pyval) : M unit :=
  match make_package pkg_data with
  | Ok package => append_package package
  | Raise e => logger (WarningPackageData e)
  end.

(** [not page_data or key not in page_data] *)
Definition falsy_or_lacks (v : pyval) (key : string) : res bool :=
  if truthy v then
    (b <- contains_key key v ;; Ok (negb b))%res
  else Ok true.

Definition _process_page_data (page_data : pyval) : M unit :=
  (skip <- lift (falsy_or_lacks page_data "rows") ;;
   if skip then ret tt
   else
     rows <- lift (getitem page_data "rows") ;;
     items <- lift (iter rows) ;;
     for_each items process_row)%crawl.

Definition empty_dict : pyval := PDict [].

(** [w] with another log. *)
Definition with_log (w : world) (l : list log_record) : world :=
  {| packages := packages w; log := l; requests := requests w |}.

(** [m] with the records it logs held back: they come with its value
    instead of going to the log.  A task of the event loop writes its
    records when it completes, which is not when it starts. *)
Definition held_back {A} (m : M A) : M (A * list log_record) :=
  fun w =>
    match m (with_log w []) with
    | (Ok a, w') => (Ok (a, log w'), with_log w' (log w))
    | (Raise e, w') => (Raise e, with_log w' (log w ++ log w'))
    end.

(** The records held back for the task of a page. *)
Fixpoint records_of (page_num : Z) (held : list (Z * list log_record))
  : list log_record :=
  match held with
  | [] => []
  | (q, records) :: held' =>
      if page_num =? q then records else records_of page_num held'
  end.

Section Registry.

(** The registry: the outcome of the GET for each [pageNum] and
    [pageSize]. *)
Variable registry : Z -> Z -> http_outcome.

(** [fetch_page(page_num)], with the default [page_size] of 50. *)
Definition fetch_page (page_num : Z) : M pyval :=
  (sent page_num ;;
   match registry page_num 50 with
   | Transport e =>
       logger (ErrorFetchingPage page_num e) ;; ret empty_dict
   | Response status loads =>
       if negb (status =? 200) then
         logger (ErrorHttpStatus page_num status) ;; ret empty_dict
       else
         match loads with
         | Raise JSONDecodeError => logger ErrorJsonDecode ;; ret empty_dict
         | Raise e => logger (ErrorFetchingPage page_num e) ;; ret empty_dict
         | Ok data =>
             match (_ <- inspect_structure data ;; inspect_summary data)%res with
             | Raise e => logger (ErrorFetchingPage page_num e) ;; ret empty_dict
             | Ok _ => ret data
             end
         end
   end)%crawl.

(** One task of [asyncio.gather(..., return_exceptions=True)]: its result
    is the value [fetch_page] returns, or the exception it raises. *)
Definition task (page_num : Z) : M (res pyval) :=
  fun w =>
    match fetch_page page_num w with
    | (r, w') => (Ok r, w')
    end.

(** The event loop: the order in which the tasks of the given pages
    complete.  The network and the scheduler decide it, not the crawler. *)
Variable completion : list Z -> list Z.

(** The tasks created for [page_nums], run by [asyncio.gather] with
    [return_exceptions=True].  The tasks start in
    the order of their creation, so the requests go out in page order.
    Each task writes its log records when it completes, so the records
    reach the log in completion order.  The results are listed in task
    order. *)
Definition gather (page_nums : list Z) : M (list (res pyval)) :=
  (started <- map_M (fun page_num => held_back (task page_num)) page_nums ;;
   for_each (completion page_nums)
            (fun page_num =>
               for_each (records_of page_num
                           (combine page_nums (map snd started)))
                        logger) ;;
   ret (map fst started))%crawl.

(** The loop over [results]. *)
Definition process_result (result : res pyval) : M unit :=
  match result with
  | Raise e => logger (ErrorTaskFailed e)
  | Ok r =>
      (skip <- lift (falsy_or_lacks r "body") ;;
       if skip then ret tt
       else
         body <- lift (getitem r "body") ;;
         _process_page_data body)%crawl
  end.

Definition fetch_all_packages : M (list Package) :=
  (first_page <- fetch_page 1 ;;
   no_first <- lift (falsy_or_lacks first_page "body") ;;
   if no_first then logger ErrorInitialPage ;; ret []
   else
     body_data <- lift (getitem first_page "body") ;;
     no_pages <- lift (falsy_or_lacks body_data "pages") ;;
     if no_pages then logger ErrorInvalidBody ;; ret []
     else
       total_pages <- lift (getitem body_data "pages") ;;
       total_packages <- lift (getitem body_data "total") ;;
       _process_page_data body_data ;;
       page_nums <- lift (remaining_pages total_pages) ;;
       results <- gather page_nums ;;
       for_each results process_result ;;
       get_packages)%crawl.

End Registry.

(** ** Vocabulary for the statements below *)

(** [w] with packages, log records and requests appended. *)
Definition extend (w : world) (ps : list Package) (ls : list log_record)
           (rs : list Z) : world :=
  {| packages := packages w ++ ps; log := log w ++ ls;
     requests := requests w ++ rs |}.

(** A crawler just constructed: [self.packages = []], nothing logged,
    nothing requested. *)
Definition fresh : world := {| packages := []; log := []; requests := [] |}.

(** The payloads whose inspection by the log messages of [fetch_page]
    raises nothing: a dictionary whose [body], if present, is a dictionary
    whose [rows], if present, is empty or a list that starts with a
    dictionary. *)
Definition rows_inspectable (rows : pyval) : bool :=
  match rows with
  | PList [] => true
  | PList (PDict _ :: _) => true
  | PStr [] => true
  | PDict [] => true
  | _ => false
  end.

Definition inspectable (data : pyval) : bool :=
  match data with
  | PDict d =>
      match lookup (str "body") d with
      | None => true
      | Some (PDict b) =>
          match lookup (str "rows") b with
          | None => true
          | Some rows => rows_inspectable rows
          end
      | Some _ => false
      end
  | _ => false
  end.

(** The failure conditions of a page fetch: the transport fails (connection
    error, timeout), the status is not 200, the text is not JSON, or the
    payload is not inspectable. *)
Inductive page_failure (registry : Z -> Z -> http_outcome) (page_num : Z) : Prop :=
| transport_failure (e : exn) :
    registry page_num 50 = Transport e -> page_failure registry page_num
| status_failure (status : Z) (loads : res pyval) :
    registry page_num 50 = Response status loads -> status <> 200 ->
    page_failure registry page_num
| json_failure (e : exn) :
    registry page_num 50 = Response 200 (Raise e) ->
    page_failure registry page_num
| payload_failure (data : pyval) :
    registry page_num 50 = Response 200 (Ok data) -> inspectable data = false ->
    page_failure registry page_num.

(** The value [fetch_page] returns for a page, as a function of the
    registry. *)
Definition page_value (registry : Z -> Z -> http_outcome) (page_num : Z) : pyval :=
  match registry page_num 50 with
  | Response status (Ok data) =>
      if (status =? 200) && inspectable data then data else empty_dict
  | _ => empty_dict
  end.

(** The raw records of a fetched page: the [rows] list of its [body]. *)
Definition rows_of (page : pyval) : list pyval :=
  match page with
  | PDict d =>
      match lookup (str "body") d with
      | Some (PDict b) =>
          match lookup (str "rows") b with
          | Some (PList rows) => rows
          | _ => []
          end
      | _ => []
      end
  | _ => []
  end.

(** The [Package] built from a raw record that is a dictionary. *)
Definition field (d : list (pystr * pyval)) (k : string) (dflt : pyval) : pyval :=
  match lookup (str k) d with
  | Some x => x
  | None => dflt
  end.

Definition package_of (d : list (pystr * pyval)) : Package :=
  {| name := field d "name" (PStr []);
     description := field d "description" (PStr []);
     org := field d "org" (PStr []);
     packageType := field d "packageType" (PStr []);
     latestVersion := field d "latestVersion" (PStr []);
     latestPublishTime := field d "latestPublishTime" (PInt 0);
     license := field d "license" (PStr []);
     authorName := field d "authorName" (PStr []);
     publisherId := field d "publisherId" (PStr []);
     publisherName := field d "publisherName" (PStr []);
     authorPicUrl := field d "authorPicUrl" (PStr []);
     likes := field d "likes" (PInt 0);
     points := field d "points" (PInt 0);
     popularity := field d "popularity" (PInt 0) |}.

(** The packages retained from a list of raw records, and the warnings
    logged for the others. *)
Definition retained (rows : list pyval) : list Package :=
  flat_map (fun r => match r with PDict d => [package_of d] | _ => [] end) rows.

Definition dropped (rows : list pyval) : list log_record :=
  flat_map (fun r => match r with
                     | PDict _ => []
                     | _ => [WarningPackageData AttributeError]
                     end) rows.

Definition is_dict (v : pyval) : bool :=
  match v with
  | PDict _ => true
  | _ => false
  end.

(** The packages a crawl gets from a page. *)
Definition page_records (registry : Z -> Z -> http_outcome) (page_num : Z)
  : list Package :=
  retained (rows_of (page_value registry page_num)).

(** The pagination metadata of a first page: [pages] and [total] of its
    [body], when all three are there. *)
Definition metadata (first_page : pyval) : option (pyval * pyval) :=
  match first_page with
  | PDict d =>
      match lookup (str "body") d with
      | Some (PDict b) =>
          match lookup (str "pages") b, lookup (str "total") b with
          | Some pages, Some total => Some (pages, total)
          | _, _ => None
          end
      | _ => None
      end
  | _ => None
  end.

(** ** Registries for the scenarios *)

Definition record (n : string) : pyval := PDict [(str "name", PStr (str n))].

Definition page (fields : list (pystr * pyval)) : http_outcome :=
  Response 200 (Ok (PDict [(str "body", PDict fields)])).

(** The tasks complete in the order of their pages, or the last one
    first. *)
Definition in_page_order (page_nums : list Z) : list Z := page_nums.

Definition last_first (page_nums : list Z) : list Z := rev page_nums.

(** Every request times out. *)
Definition registry_down : Z -> Z -> http_outcome :=
  fun _ _ => Transport TimeoutError.


(** Three pages; the second one times out. *)
Definition registry_page2_times_out : Z -> Z -> http_outcome :=
  fun page_num _ =>
    if page_num =? 1 then
      page [(str "pages", PInt 3); (str "total", PInt 5);
            (str "rows", PList [record "a"; record "b"])]
    else if page_num =? 3 then
      page [(str "pages", PInt 3); (str "total", PInt 5);
            (str "rows", PList [record "e"])]
    else Transport TimeoutError.

(** Two pages without records; the second one fails, or does not. *)
Definition registry_empty (second : http_outcome) : Z -> Z -> http_outcome :=
  fun page_num _ =>
    if page_num =? 1 then
      page [(str "pages", PInt 2); (str "total", PInt 0); (str "rows", PList [])]
    else second.

End Crawler.

(* ===================================================================== *)
(** * crawler.py: the snapshot *)
(* ===================================================================== *)

Module CrawlerOutput.
Import Py Crawler.
Local Open Scope string_scope.
Local Open Scope list_scope.
Local Open Scope Z_scope.

(** [dataclasses.asdict(pkg)]: the fields, in declaration order. *)
Definition asdict (pkg : Package) : pyval :=
  PDict [(str "name", name pkg);
         (str "description", description pkg);
         (str "org", org pkg);
         (str "packageType", packageType pkg);
         (str "latestVersion", latestVersion pkg);
         (str "latestPublishTime", latestPublishTime pkg);
         (str "license", license pkg);
         (str "authorName", authorName pkg);
         (str "publisherId", publisherId pkg);
         (str "publisherName", publisherName pkg);
         (str "authorPicUrl", authorPicUrl pkg);
         (str "likes", likes pkg);
         (str "points", points pkg);
         (str "popularity", popularity pkg)].

(** The names of the fields whose default is the empty string, and of
    those whose default is 0. *)
Definition text_fields : list string :=
  ["name"; "description"; "org"; "packageType"; "latestVersion"; "license";
   "authorName"; "publisherId"; "publisherName"; "authorPicUrl"].

Definition number_fields : list string :=
  ["latestPublishTime"; "likes"; "points"; "popularity"].

(** [save_to_json]: the object it hands to [json.dump], with [now] the
    text of [datetime.now().isoformat()].  The write to the file (and what
    can go wrong in it) is outside the model. *)
Definition save_to_json (now : pystr) : M pyval :=
  fun w =>
    (Ok (PDict [(str "crawled_at", PStr now);
                (str "total_packages", PInt (Z.of_nat (List.length (packages w))));
                (str "packages", PList (map asdict (packages w)))]),
     w).

(** [main]: a new crawler, the crawl, then the snapshot. *)
Definition main (registry : Z -> Z -> http_outcome)
           (completion : list Z -> list Z) (now : pystr)
  : res pyval * world :=
  (_ <- fetch_all_packages registry completion ;; save_to_json now)%crawl fresh.

(** The rest of [fetch_all_packages] once the first page has been read
    and processed, [pages] being its page count. *)
Definition remaining (registry : Z -> Z -> http_outcome)
           (completion : list Z -> list Z) (pages : pyval)
  : M (list Package) :=
  (page_nums <- lift (remaining_pages pages) ;;
   results <- gather registry completion page_nums ;;
   for_each results process_result ;;
   get_packages)%crawl.

(** The error records [fetch_page] logs for a page. *)
Definition page_errors (registry : Z -> Z -> http_outcome) (page_num : Z)
  : list log_record :=
  match registry page_num 50 with
  | Transport e => [ErrorFetchingPage page_num e]
  | Response status loads =>
      if negb (status =? 200) then [ErrorHttpStatus page_num status]
      else
        match loads with
        | Raise JSONDecodeError => [ErrorJsonDecode]
        | Raise e => [ErrorFetchingPage page_num e]
        | Ok data =>
            match (_ <- inspect_structure data ;; inspect_summary data)%res with
            | Raise e => [ErrorFetchingPage page_num e]
            | Ok _ => []
            end
        end
  end.

(** The warnings logged while the rows of a page are processed. *)
Definition page_warnings (registry : Z -> Z -> http_outcome) (page_num : Z)
  : list log_record :=
  dropped (rows_of (page_value registry page_num)).

(** The error records the tasks of [page_nums] write, in the order in
    which they complete. *)
Definition gathered_errors (registry : Z -> Z -> http_outcome)
           (completion : list Z -> list Z) (page_nums : list Z)
  : list log_record :=
  flat_map (fun p => records_of p (combine page_nums
                                     (map (page_errors registry) page_nums)))
           (completion page_nums).

(** Three pages; the second answers 500 and the third 404. *)
Definition registry_two_failures : Z -> Z -> http_outcome :=
  fun page_num _ =>
    if page_num =? 1 then
      page [(str "pages", PInt 3); (str "total", PInt 5);
            (str "rows", PList [record "a"; PInt 7])]
    else if page_num =? 2 then Response 500 (Raise JSONDecodeError)
    else Response 404 (Raise JSONDecodeError).

(** A registry with one record, whose page count is not a number. *)
Definition registry_bad_page_count : Z -> Z -> http_outcome :=
  fun _ _ =>
    page [(str "pages", PStr (str "3")); (str "total", PInt 1);
          (str "rows", PList [record "a"])].

(** A registry whose only page starts with a row that is not a record. *)
Definition registry_stray_first_row : Z -> Z -> http_outcome :=
  fun _ _ =>
    page [(str "pages", PInt 1); (str "total", PInt 2);
          (str "rows", PList [PStr (str "oops"); record "a"])].

End CrawlerOutput.

(* ===================================================================== *)
(** * analyzer.py: loading *)
(* ===================================================================== *)

Module AnalyzerInput.
Import Py.
Local Open Scope string_scope.
Local Open Scope list_scope.

(** [load_packages]: the value bound to [self.packages], given the value
    [json.load] reads from the file. *)
Definition load_packages (data : pyval) : res pyval :=
  getitem data "packages".

Definition is_str (v : pyval) : bool :=
  match v with
  | PStr _ => true
  | _ => false
  end.

(** [d.get(k, dflt)] on the items of a dictionary. *)
Definition item (d : list (pystr * pyval)) (k : string) (dflt : pyval) : pyval :=
  match lookup (str k) d with
  | Some x => x
  | None => dflt
  end.

(** The packages whose text can be extracted: dictionaries whose name and
    description, when present, are strings, and whose keywords, when a
    list, are all strings. *)
Definition extractable (package : pyval) : bool :=
  match package with
  | PDict d =>
      is_str (item d "name" (PStr [])) &&
      is_str (item d "description" (PStr [])) &&
      match item d "keywords" (PList []) with
      | PList ks => forallb is_str ks
      | _ => true
      end
  | _ => false
  end.

End AnalyzerInput.

(* ===================================================================== *)
(** * Built-ins on numbers and lists *)
(* ===================================================================== *)

Module Builtins.
Import Py.
Local Open Scope list_scope.
Local Open Scope Z_scope.

(** The integer a value is, when it is an [int] or a [bool]. *)
Definition int_value (v : pyval) : option Z :=
  match v with
  | PInt z => Some z
  | PBool b => Some (if b then 1 else 0)
  | _ => None
  end.

(** The integers of a list of values, when all of them are. *)
Fixpoint int_values (vs : list pyval) : option (list Z) :=
  match vs with
  | [] => Some []
  | v :: vs' =>
      match int_value v, int_values vs' with
      | Some z, Some zs => Some (z :: zs)
      | _, _ => None
      end
  end.

(** [l[:limit]]: a negative [limit] counts from the end. *)
Definition slice_to {A} (limit : Z) (l : list A) : list A :=
  if 0 <=? limit then firstn (Z.to_nat limit) l
  else firstn (List.length l - Z.to_nat (- limit)) l.

(** Sorting by decreasing integer key.  The sort of Python is stable, also
    with [reverse=True]: of two items with equal keys, the one that came
    first stays first.  [insert_desc] puts an item in front of a list of
    items that came after it. *)
Fixpoint insert_desc {A} (kx : Z * A) (l : list (Z * A)) : list (Z * A) :=
  match l with
  | [] => [kx]
  | ky :: l' =>
      if fst kx <? fst ky then ky :: insert_desc kx l' else kx :: l
  end.

Definition sort_desc {A} (l : list (Z * A)) : list (Z * A) :=
  fold_right insert_desc [] l.

(** The stable sort of [l] by decreasing [f]. *)
Definition sort_by {A} (f : A -> Z) (l : list A) : list A :=
  map snd (sort_desc (map (fun a => (f a, a)) l)).

Section Interpreter.

(** The order of the interpreter on values that are not both integers
    (floats, strings, lists) and what its sort does with keys that are not
    all integers are not part of the repository; they are taken as they
    are. *)
Variable lt_other : pyval -> pyval -> res bool.
Variable sorted_other : list (pyval * pyval) -> res (list pyval).

(** [a < b] *)
Definition lt (a b : pyval) : res bool :=
  match int_value a, int_value b with
  | Some x, Some y => Ok (x <? y)
  | _, _ => lt_other a b
  end.

(** [sorted(items, key=key, reverse=True)] *)
Definition sorted_reverse (key : pyval -> res pyval) (items : list pyval)
  : res (list pyval) :=
  (keys <- rmap key items ;;
   match int_values keys with
   | Some zs => Ok (map snd (sort_desc (combine zs items)))
   | None => sorted_other (combine keys items)
   end)%res.

End Interpreter.

(** Values without an order between them: the comparison, and a sort that
    has to compare, raise [TypeError]. *)
Definition lt_unordered : pyval -> pyval -> res bool :=
  fun _ _ => Raise TypeError.

Definition sorted_unordered : list (pyval * pyval) -> res (list pyval) :=
  fun _ => Raise TypeError.

End Builtins.

(* ===================================================================== *)
(** * analyzer.py: rankings *)
(* ===================================================================== *)

Module AnalyzerReports.
Import Py Builtins Analyzer.
Local Open Scope string_scope.
Local Open Scope list_scope.
Local Open Scope Z_scope.

(** [lambda p: p.get('popularity', 0)] *)
Definition by_popularity (p : pyval) : res pyval := get p "popularity" (PInt 0).

(** [lambda p: p.get('latestPublishTime', 0)] *)
Definition by_publish_time (p : pyval) : res pyval :=
  get p "latestPublishTime" (PInt 0).

Section Interpreter.

Variable sorted_other : list (pyval * pyval) -> res (list pyval).

Definition analyze_popular_packages (self : PackageAnalyzer) (limit : Z)
  : res (list pyval) :=
  (ranked <- sorted_reverse sorted_other by_popularity (self_packages self) ;;
   Ok (slice_to limit ranked))%res.

Definition analyze_recent_packages (self : PackageAnalyzer) (limit : Z)
  : res (list pyval) :=
  (ranked <- sorted_reverse sorted_other by_publish_time (self_packages self) ;;
   Ok (slice_to limit ranked))%res.

End Interpreter.

(** The integer a package has under a key, [0] when the key is missing;
    nothing when the package is not a dictionary or the value is not an
    integer. *)
Definition int_field (k : string) (p : pyval) : option Z :=
  match get p k (PInt 0) with
  | Ok v => int_value v
  | Raise _ => None
  end.

(** The same, with 0 for nothing. *)
Definition int_of (k : string) (p : pyval) : Z :=
  match int_field k p with
  | Some z => z
  | None => 0
  end.

Definition has_int (k : string) (p : pyval) : bool :=
  match int_field k p with
  | Some _ => true
  | None => false
  end.

(** Three packages for the examples. *)
Definition ranked_package (n : string) (popularity : Z) : pyval :=
  PDict [(str "name", PStr (str n)); (str "popularity", PInt popularity)].

Definition three_ranked : list pyval :=
  [ranked_package "a" 5; ranked_package "b" 9; ranked_package "c" 5].

End AnalyzerReports.

(* ===================================================================== *)
(** * analyzer.py: statistics *)
(* ===================================================================== *)

Module AnalyzerStats.
Import Py Builtins Analyzer AnalyzerReports.
Local Open Scope string_scope.
Local Open Scope list_scope.
Local Open Scope Z_scope.

(** One value of the dictionary [get_category_stats] builds. *)
Record stat : Type := {
  stat_name : string;
  count : nat;
  avg_popularity : pyval;
  top_package : pyval
}.

(** The best of [l] and [best] by integer key, as [max] finds it: a later
    item wins only with a strictly greater key. *)
Definition first_max {A} (best : Z * A) (l : list (Z * A)) : Z * A :=
  fold_left (fun b x => if fst b <? fst x then x else b) l best.

Section Interpreter.

(** Floating point is not modelled.  [average values] is
    [sum(values) / len(values)], nothing when that raises; [max_other] is
    [max] on keys that are not all integers, nothing when it raises. *)
Variable average : list pyval -> option pyval.
Variable max_other : list (pyval * pyval) -> option pyval.

(** [max(items, key=key)] for the non-empty list [first :: rest]; nothing
    when it raises. *)
Definition max_by (key : pyval -> res pyval) (first : pyval) (rest : list pyval)
  : option pyval :=
  match rmap key (first :: rest) with
  | Ok keys =>
      match int_values keys with
      | Some (z :: zs) => Some (snd (first_max (z, first) (combine zs rest)))
      | Some [] => None
      | None => max_other (combine keys (first :: rest))
      end
  | Raise _ => None
  end.

(** [sum(p.get('popularity', 0) for p in pkgs) / len(pkgs)] *)
Definition avg_of (pkgs : list pyval) : option pyval :=
  match rmap by_popularity pkgs with
  | Ok values => average values
  | Raise _ => None
  end.

(** The entry of one category; nothing when building it raises. *)
Definition stat_of (category : CategoryInfo) (first : pyval) (rest : list pyval)
  : option stat :=
  match avg_of (first :: rest) with
  | Some avg =>
      match max_by by_popularity first rest with
      | Some top =>
          Some {| stat_name := name category;
                  count := List.length (first :: rest);
                  avg_popularity := avg;
                  top_package := top |}
      | None => None
      end
  | None => None
  end.

(** The loop over [self.categories.items()]: the entries of [stats] in
    insertion order. *)
Fixpoint collect_stats (cats : catalog) : option (list (string * stat)) :=
  match cats with
  | [] => Some []
  | (category_id, category) :: cats' =>
      match packages category with
      | [] => collect_stats cats'
      | first :: rest =>
          match stat_of category first rest with
          | Some st =>
              match collect_stats cats' with
              | Some stats => Some ((category_id, st) :: stats)
              | None => None
              end
          | None => None
          end
      end
  end.

(** [get_category_stats]: the entries, sorted by decreasing count. *)
Definition get_category_stats (self : PackageAnalyzer)
  : option (list (string * stat)) :=
  match collect_stats (self_categories self) with
  | Some stats =>
      Some (sort_by (fun item => Z.of_nat (count (snd item))) stats)
  | None => None
  end.

End Interpreter.

(** A category that holds packages. *)
Definition populated (item : string * CategoryInfo) : bool :=
  match packages (snd item) with
  | [] => false
  | _ :: _ => true
  end.

(** [top] is the first of the most popular packages of [pkgs]. *)
Definition first_most_popular (top : pyval) (pkgs : list pyval) : Prop :=
  exists pre post,
    pkgs = pre ++ top :: post /\
    Forall (fun p => int_of "popularity" p < int_of "popularity" top) pre /\
    Forall (fun p => int_of "popularity" p <= int_of "popularity" top) post.

(** The entry [item] of the statistics describes the category [cat]. *)
Definition describes (item : string * stat) (cat : string * CategoryInfo) : Prop :=
  fst item = fst cat /\
  stat_name (snd item) = name (snd cat) /\
  count (snd item) = List.length (packages (snd cat)) /\
  (forallb (has_int "popularity") (packages (snd cat)) = true ->
   first_most_popular (top_package (snd item)) (packages (snd cat))).

(** The number of packages an entry counts. *)
Definition counted (item : string * stat) : Z := Z.of_nat (count (snd item)).

(** Four packages for the examples: two for testing, one for utilities,
    one for no category. *)
Definition sample_packages : list pyval :=
  [ranked_package "test" 5; ranked_package "mock" 9;
   ranked_package "cache" 7; ranked_package "zzz" 1].

(** An average that is not computed, for the examples. *)
Definition average_unknown : list pyval -> option pyval :=
  fun _ => Some (PFloat false "?").

Definition max_unordered : list (pyval * pyval) -> option pyval :=
  fun _ => None.

End AnalyzerStats.

(* ===================================================================== *)
(** * analyzer.py, search.py: the package URL *)
(* ===================================================================== *)

Module PackageUrl.
Import Py.
Local Open Scope string_scope.
Local Open Scope list_scope.
Local Open Scope N_scope.

(** The bytes [urllib.parse.quote] never escapes: letters, digits and
    [_.-~]. *)
Definition unreserved (b : N) : bool :=
  ascii_alnum b || (b =? 95) || (b =? 46) || (b =? 45) || (b =? 126).

(** The digit of ['%02X'] for a value below 16. *)
Definition hex_digit (n : N) : N := if n <? 10 then 48 + n else 55 + n.

Definition c_percent : N := 37.

Definition quote_byte (b : N) : pystr :=
  if unreserved b then [b]
  else [c_percent; hex_digit (b / 16); hex_digit (b mod 16)].

(** The UTF-8 bytes of a code point; nothing for a surrogate, which
    [str.encode] refuses, and beyond the last code point. *)
Definition utf8 (c : N) : option (list N) :=
  if c <? 128 then Some [c]
  else if c <? 2048 then Some [192 + c / 64; 128 + c mod 64]
  else if c <? 65536 then
    if (55296 <=? c) && (c <=? 57343) then None
    else Some [224 + c / 4096; 128 + (c / 64) mod 64; 128 + c mod 64]
  else if c <? 1114112 then
    Some [240 + c / 262144; 128 + (c / 4096) mod 64;
          128 + (c / 64) mod 64; 128 + c mod 64]
  else None.

(** [s.encode('utf-8')] *)
Fixpoint encode (s : pystr) : option (list N) :=
  match s with
  | [] => Some []
  | c :: s' =>
      match utf8 c, encode s' with
      | Some bytes, Some rest => Some (bytes ++ rest)
      | _, _ => None
      end
  end.

(** [quote(s, safe='')]; nothing when the encoding raises. *)
Definition quote (s : pystr) : option pystr :=
  match encode s with
  | Some bytes => Some (flat_map quote_byte bytes)
  | None => None
  end.

Definition detail_prefix : pystr := str "https://ohpm.openharmony.cn/#/cn/detail/".

Definition _get_package_url (package_name : pystr) : option pystr :=
  match quote package_name with
  | Some encoded_name => Some (detail_prefix ++ encoded_name)
  | None => None
  end.

(** ** Readers, for the proofs *)

Definition hex_value (d : N) : N := if d <? 58 then d - 48 else d - 55.

(** The bytes a quoted text stands for. *)
Fixpoint unquote (t : pystr) : list N :=
  match t with
  | [] => []
  | c :: t' =>
      if c =? c_percent then
        match t' with
        | h :: l :: t'' => (16 * hex_value h + hex_value l) :: unquote t''
        | _ => []
        end
      else c :: unquote t'
  end.

(** The code points a sequence of UTF-8 bytes stands for. *)
Fixpoint decode (bytes : list N) : list N :=
  match bytes with
  | [] => []
  | b1 :: rest1 =>
      if b1 <? 128 then b1 :: decode rest1
      else
        match rest1 with
        | [] => []
        | b2 :: rest2 =>
            if b1 <? 224 then
              (64 * (b1 - 192) + (b2 - 128)) :: decode rest2
            else
              match rest2 with
              | [] => []
              | b3 :: rest3 =>
                  if b1 <? 240 then
                    (4096 * (b1 - 224) + 64 * (b2 - 128) + (b3 - 128))
                      :: decode rest3
                  else
                    match rest3 with
                    | [] => []
                    | b4 :: rest4 =>
                        (262144 * (b1 - 240) + 4096 * (b2 - 128)
                         + 64 * (b3 - 128) + (b4 - 128)) :: decode rest4
                    end
              end
        end
  end.

Definition is_surrogate (c : N) : bool := (55296 <=? c) && (c <=? 57343).

(** A code point of Python: below [0x110000]. *)
Definition code_point (c : N) : bool := c <? 1114112.

Definition byte (b : N) : Prop := b < 256.

(** What a URL segment may hold without being cut or re-read: an
    unreserved character or the percent sign of an escape. *)
Definition url_safe (c : N) : bool := unreserved c || (c =? c_percent).

(** The characters that delimit the parts of a URL or of a query. *)
Definition delimiters : pystr := str "/@#?&= +:".

End PackageUrl.

(* ===================================================================== *)
(** * search.py *)
(* ===================================================================== *)

Module Search.
Import Py Builtins AnalyzerReports.
Local Open Scope string_scope.
Local Open Scope list_scope.
Local Open Scope Z_scope.

(** An optional string argument that is given and not empty. *)
Definition given (s : option pystr) : bool :=
  match s with
  | Some (_ :: _) => true
  | _ => false
  end.

Definition text_of (s : option pystr) : pystr :=
  match s with
  | Some t => t
  | None => []
  end.

(** The string a package has under a key, [''] when the key is missing. *)
Definition text_field (k : string) (p : pyval) : pystr :=
  match get p k (PStr []) with
  | Ok (PStr s) => s
  | _ => []
  end.

Definition has_text (k : string) (p : pyval) : bool :=
  match get p k (PStr []) with
  | Ok (PStr _) => true
  | _ => false
  end.

(** The packages [search] is written for: dictionaries whose name,
    description, org and license are strings and whose likes and
    popularity are integers (each of them possibly missing). *)
Definition searchable (p : pyval) : bool :=
  has_text "name" p && has_text "description" p &&
  has_text "org" p && has_text "license" p &&
  has_int "likes" p && has_int "popularity" p.

(** The packages [l] for which [f] holds, up to the first exception. *)
Fixpoint rfilter {A} (f : A -> res bool) (l : list A) : res (list A) :=
  match l with
  | [] => Ok []
  | a :: l' =>
      (b <- f a ;;
       rest <- rfilter f l' ;;
       Ok (if b then a :: rest else rest))%res
  end.

Section Interpreter.

Variable unicode_lower : pystr -> pystr.
Variable lt_other : pyval -> pyval -> res bool.
Variable sorted_other : list (pyval * pyval) -> res (list pyval).

Local Abbreviation lower := (lower unicode_lower).
Local Abbreviation lower_method := (lower_method unicode_lower).

(** The text test of [search]: [query_lower] occurs in the lowercased name
    or in the lowercased description. *)
Definition text_match (query_lower : pystr) (pkg : pyval) : res bool :=
  (n <- get pkg "name" (PStr []) ;;
   name_lower <- lower_method n ;;
   let name_match := contains query_lower name_lower in
   d <- get pkg "description" (PStr []) ;;
   description_lower <- lower_method d ;;
   let desc_match := contains query_lower description_lower in
   Ok (name_match || desc_match))%res.

(** [pkg.get(k, '').lower() != wanted.lower()] *)
Definition differs (k : string) (wanted : pystr) (pkg : pyval) : res bool :=
  (v <- get pkg k (PStr []) ;;
   v_lower <- lower_method v ;;
   Ok (negb (str_eqb v_lower (lower wanted))))%res.

(** [pkg.get(k, 0) < minimum] *)
Definition below (k : string) (minimum : Z) (pkg : pyval) : res bool :=
  (v <- get pkg k (PInt 0) ;;
   lt lt_other v (PInt minimum))%res.

(** The body of the loop of [search]: whether [pkg] is appended to
    [results]. *)
Definition passes (query org license_filter : option pystr)
           (min_likes min_popularity : Z) (pkg : pyval) : res bool :=
  let query_lower := if given query then lower (text_of query) else [] in
  (text_ok <- (if given query then text_match query_lower pkg else Ok true) ;;
   if negb text_ok then Ok false
   else
     org_differs <- (if given org then differs "org" (text_of org) pkg
                     else Ok false) ;;
     if org_differs then Ok false
     else
       license_differs <- (if given license_filter
                           then differs "license" (text_of license_filter) pkg
                           else Ok false) ;;
       if license_differs then Ok false
       else
         few_likes <- below "likes" min_likes pkg ;;
         if few_likes then Ok false
         else
           unpopular <- below "popularity" min_popularity pkg ;;
           Ok (negb unpopular))%res.

(** [search]; the parameter [category] of the source is not used by it. *)
Definition search (packages : list pyval)
           (query org license_filter : option pystr)
           (min_likes min_popularity limit : Z) : res (list pyval) :=
  (results <- rfilter (passes query org license_filter min_likes min_popularity)
                      packages ;;
   ranked <- sorted_reverse sorted_other by_popularity results ;;
   Ok (slice_to limit ranked))%res.

End Interpreter.

(** What the filters of [search] ask of a package, in the words of its
    arguments: the query occurs in the name or in the description, the
    organization and the license are the ones given, all four regardless
    of case; likes and popularity reach the minimum. *)
Definition meets (lower : pystr -> pystr)
           (query org license_filter : option pystr)
           (min_likes min_popularity : Z) (p : pyval) : Prop :=
  (given query = true ->
   spec_occurs (lower (text_of query)) (lower (text_field "name" p)) \/
   spec_occurs (lower (text_of query)) (lower (text_field "description" p))) /\
  (given org = true ->
   lower (text_field "org" p) = lower (text_of org)) /\
  (given license_filter = true ->
   lower (text_field "license" p) = lower (text_of license_filter)) /\
  min_likes <= int_of "likes" p /\
  min_popularity <= int_of "popularity" p.

(** Packages for the examples. *)
Definition listed (n o : string) (likes popularity : Z) : pyval :=
  PDict [(str "name", PStr (str n)); (str "org", PStr (str o));
         (str "likes", PInt likes); (str "popularity", PInt popularity)].

Definition four_listed : list pyval :=
  [listed "@ohos/axios" "ohos" 3 50; listed "@ohos/lottie" "ohos" 9 70;
   listed "@acme/Axios-Kit" "acme" 0 50; listed "@acme/zip" "acme" 1 10].

End Search.

(* ===================================================================== *)
(** * Facts about the Python layer *)
(* ===================================================================== *)

Module PyFacts.
Import Py.

Lemma str_eqb_eq (a b : pystr) : str_eqb a b = true <-> a = b.
Proof.
  revert b; induction a as [|x a IH]; intros [|y b]; simpl;
    try (split; [discriminate | congruence]); try tauto.
  rewrite andb_true_iff, N.eqb_eq, IH.
  split; [intros [-> ->]; reflexivity | intros [= -> ->]; auto].
Qed.

Lemma distinct_NoDup (l : list pystr) : distinct l = true -> NoDup l.
Proof.
  induction l as [|x l IH]; simpl; [constructor|].
  rewrite andb_true_iff, negb_true_iff. intros [Hx Hl].
  constructor; [|apply IH, Hl].
  intros Hin. assert (E : existsb (str_eqb x) l = true).
  { apply existsb_exists. exists x. split; [exact Hin|]. apply str_eqb_eq.
    reflexivity. }
  congruence.
Qed.

Lemma prefix_spec (k t : pystr) :
  prefix k t = true <-> exists post, t = k ++ post.
Proof.
  revert t; induction k as [|a k IH]; intros t; simpl.
  - split; [exists t; reflexivity | reflexivity].
  - destruct t as [|c t].
    + split; [discriminate | intros [post [=]]].
    + rewrite andb_true_iff, N.eqb_eq, IH. split.
      * intros [-> [post ->]]. exists post; reflexivity.
      * intros [post [= -> ->]]. split; [reflexivity | exists post; reflexivity].
Qed.

(** [in] on strings is the substring relation. *)
Lemma contains_spec (k t : pystr) :
  contains k t = true <-> spec_occurs k t.
Proof.
  unfold spec_occurs.
  induction t as [|c t IH].
  - simpl. rewrite orb_false_r, prefix_spec. split.
    + intros [post ->]. exists [], post; reflexivity.
    + intros [[|x pre] [post E]]; [exists post; exact E | discriminate].
  - cbn [contains]. rewrite orb_true_iff, prefix_spec, IH. split.
    + intros [[post ->] | [pre [post ->]]].
      * exists [], post; reflexivity.
      * exists (c :: pre), post; reflexivity.
    + intros [[|x pre] [post E]].
      * left. exists post; exact E.
      * right. injection E as -> ->. exists pre, post; reflexivity.
Qed.

Lemma last_or_app prev a b : last_or prev (a ++ b) = last_or (last_or prev a) b.
Proof. unfold last_or. apply fold_left_app. Qed.

Lemma last_or_nonempty prev prev' (s : pystr) :
  s <> [] -> last_or prev s = last_or prev' s.
Proof.
  destruct s as [|c s]; [congruence | reflexivity].
Qed.

Lemma last_error_is_last_or s : last_error s = last_or None s.
Proof. reflexivity. Qed.

Section Unicode.

Variable unicode_alnum : N -> bool.

Local Abbreviation is_word := (is_word unicode_alnum).
Local Abbreviation word_at := (word_at unicode_alnum).
Local Abbreviation boundary := (boundary unicode_alnum).
Local Abbreviation literal_then_boundary := (literal_then_boundary unicode_alnum).
Local Abbreviation search_word_from := (search_word_from unicode_alnum).
Local Abbreviation search_word := (search_word unicode_alnum).

Lemma literal_then_boundary_spec (k : pystr) prev t :
  literal_then_boundary k prev t = true <->
  exists post, t = k ++ post /\ boundary (last_or prev k) (hd_error post) = true.
Proof.
  revert prev t; induction k as [|a k IH]; intros prev t; simpl.
  - split; [intros H; exists t; auto | intros [post [-> H]]; exact H].
  - destruct t as [|c t].
    + split; [discriminate | intros [post [[=] _]]].
    + rewrite andb_true_iff, N.eqb_eq, IH. split.
      * intros [-> [post [-> H]]]. exists post; auto.
      * intros [post [[= -> ->] H]]. split; [reflexivity | exists post; auto].
Qed.

(** What the regular expression [\bk\b] finds. *)
Lemma search_word_from_spec (k : pystr) prev t :
  search_word_from k prev t = true <->
  exists pre post,
    t = pre ++ k ++ post /\
    boundary (last_or prev pre) (hd_error (k ++ post)) = true /\
    boundary (last_or prev (pre ++ k)) (hd_error post) = true.
Proof.
  revert prev; induction t as [|c t IH]; intros prev.
  - cbn [Py.search_word_from]. rewrite orb_false_r, andb_true_iff,
      literal_then_boundary_spec. split.
    + intros [H1 [post [E H2]]].
      exists [], post. rewrite <- E. simpl. auto.
    + intros [[|x pre] [post [E [H1 H2]]]]; [|discriminate].
      simpl in *. rewrite <- E in H1. split; [exact H1|].
      exists post; auto.
  - cbn [Py.search_word_from]. rewrite orb_true_iff, andb_true_iff,
      literal_then_boundary_spec, IH. split.
    + intros [[H1 [post [E H2]]] | [pre [post [E [H1 H2]]]]].
      * exists [], post. simpl. rewrite <- E. auto.
      * exists (c :: pre), post. subst t. simpl. auto.
    + intros [[|x pre] [post [E [H1 H2]]]].
      * left. simpl in *. rewrite <- E in H1. split; [exact H1|].
        exists post; auto.
      * right. injection E as -> ->. exists pre, post. auto.
Qed.

Local Abbreviation word_edged := (word_edged is_word).

Lemma word_edged_nonempty k : word_edged k = true -> k <> [].
Proof. intros H ->. discriminate H. Qed.

Lemma word_edged_ends k :
  word_edged k = true ->
  word_at (hd_error k) = true /\ word_at (last_error k) = true.
Proof.
  unfold Py.word_edged. destruct (hd_error k), (last_error k); try discriminate.
  simpl. apply andb_true_iff.
Qed.

(** For such a keyword, [\bk\b] finds exactly the whole-word occurrences. *)
Lemma search_word_whole_word (k t : pystr) :
  word_edged k = true ->
  (search_word k t = true <-> spec_whole_word is_word k t).
Proof.
  intros Hk. unfold Py.search_word, spec_whole_word.
  pose proof (word_edged_nonempty _ Hk) as Hne.
  apply word_edged_ends in Hk as [Hhd Hlast].
  rewrite search_word_from_spec.
  assert (Hb1 : forall x post,
             boundary x (hd_error (k ++ post)) = negb (word_at x)).
  { intros x post. destruct k as [|a k']; [congruence|].
    simpl in *. unfold Py.boundary. simpl. rewrite Hhd.
    apply xorb_true_r. }
  assert (Hb2 : forall pre y,
             boundary (last_or None (pre ++ k)) y = negb (word_at y)).
  { intros pre y. rewrite last_or_app.
    rewrite (last_or_nonempty _ None _ Hne).
    unfold Py.boundary. rewrite <- last_error_is_last_or, Hlast.
    reflexivity. }
  assert (Hopt : forall o, negb (word_at o) = true <->
                           (forall c, o = Some c -> is_word c = false)).
  { intros [c|]; simpl.
    - rewrite negb_true_iff. split; [intros H c' [= <-]; exact H | auto].
    - split; [discriminate | reflexivity]. }
  split.
  - intros [pre [post [E [H1 H2]]]]. exists pre, post.
    rewrite Hb1 in H1. rewrite Hb2 in H2.
    rewrite Hopt in H1, H2. auto.
  - intros [pre [post [E [H1 H2]]]]. exists pre, post.
    rewrite Hb1, Hb2, !Hopt. auto.
Qed.

End Unicode.

(** ** The organization prefix *)

Lemma skip_non_slash_spec (s : pystr) :
  exists org, s = org ++ skip_non_slash s /\ ~ In c_slash org /\
              (skip_non_slash s = [] \/ exists rest, skip_non_slash s = c_slash :: rest).
Proof.
  induction s as [|c s [org [E [Hn Hr]]]]; simpl.
  - exists []. auto.
  - destruct (N.eqb_spec c c_slash) as [->|Hc].
    + exists []. split; [reflexivity|]. split; [auto|]. right. eauto.
    + exists (c :: org). split; [simpl; congruence|]. split; [|exact Hr].
      simpl. intros [H|H]; auto.
Qed.

Lemma split_at_first_slash (org org' rest rest' : pystr) :
  ~ In c_slash org -> ~ In c_slash org' ->
  org ++ c_slash :: rest = org' ++ c_slash :: rest' ->
  org = org' /\ rest = rest'.
Proof.
  revert org'; induction org as [|a org IH]; intros [|b org'] H1 H2 E;
    simpl in *.
  - injection E as ->. auto.
  - injection E as <- _. tauto.
  - injection E as -> _. tauto.
  - injection E as -> E. destruct (IH org') as [-> ->]; auto.
Qed.

(** [re.sub(r'^@[^/]+/', '', s)] removes a leading [@org/], and nothing
    else. *)
Lemma sub_org_prefix_spec (s : pystr) : spec_org_stripped s (sub_org_prefix s).
Proof.
  unfold sub_org_prefix, match_org_prefix.
  destruct s as [|c s1]; [apply stripped_nothing; intros; discriminate|].
  destruct (N.eqb_spec c c_at) as [->|Hc];
    [|apply stripped_nothing; intros org rest _ _ [=]; congruence].
  destruct s1 as [|c1 s2].
  { apply stripped_nothing. intros [|x org] rest H _ E; [congruence|discriminate]. }
  destruct (N.eqb_spec c1 c_slash) as [->|Hc1].
  { apply stripped_nothing. intros [|x org] rest H Hn [= E]; [congruence|].
    subst x. apply Hn. left; reflexivity. }
  destruct (skip_non_slash_spec (c1 :: s2)) as [org [E [Hn Hr]]].
  destruct (skip_non_slash (c1 :: s2)) as [|x rest] eqn:Hs.
  - apply stripped_nothing. intros org' rest' _ Hn' [= E'].
    rewrite app_nil_r in E. subst org. apply Hn. rewrite E'.
    apply in_or_app. right. left. reflexivity.
  - destruct Hr as [|[rest0 [= -> ->]]]; [discriminate|].
    rewrite E. apply stripped_prefix; [|exact Hn].
    intros ->. simpl in E. injection E as E _. congruence.
Qed.

(** [' '.join] of at least two parts. *)
Lemma join_two_or_more (sep a b : pystr) (rest : list pystr) :
  join sep (a :: b :: rest) =
  a ++ sep ++ b ++ List.concat (map (fun p => sep ++ p) rest).
Proof.
  revert a b; induction rest as [|c rest IH]; intros a b.
  - simpl. rewrite app_nil_r. reflexivity.
  - change (join sep (a :: b :: c :: rest))
      with (a ++ sep ++ join sep (b :: c :: rest)).
    rewrite IH. simpl. rewrite <- !app_assoc. reflexivity.
Qed.

End PyFacts.

(* ===================================================================== *)
(** * The classifier *)
(* ===================================================================== *)

Module AnalyzerFacts.
Import Py PyFacts Analyzer.
Local Open Scope string_scope.
Local Open Scope list_scope.

Section Unicode.

Variable unicode_alnum : N -> bool.
Variable unicode_lower : pystr -> pystr.

Local Abbreviation is_word := (is_word unicode_alnum).
Local Abbreviation search_word := (search_word unicode_alnum).
Local Abbreviation word_edged := (word_edged is_word).
Local Abbreviation keyword_points := (keyword_points unicode_alnum).
Local Abbreviation category_score := (category_score unicode_alnum).
Local Abbreviation best_step := (best_step unicode_alnum).
Local Abbreviation best_of := (best_of unicode_alnum).
Local Abbreviation lower := (lower unicode_lower).
Local Abbreviation _extract_text_features := (_extract_text_features unicode_lower).
Local Abbreviation categorize_one := (categorize_one unicode_alnum unicode_lower).
Local Abbreviation categorize_loop := (categorize_loop unicode_alnum unicode_lower).
Local Abbreviation categorize_packages := (categorize_packages unicode_alnum unicode_lower).

(** ** Scores *)

Lemma fold_score_sum (f : pystr -> nat) (l : list pystr) (a : nat) :
  fold_left (fun score k => score + f k) l a = a + list_sum (map f l).
Proof.
  revert a; induction l as [|k l IH]; intros a; simpl.
  - lia.
  - rewrite IH. lia.
Qed.

Lemma category_score_sum text c :
  category_score text c = list_sum (map (keyword_points text) (keywords c)).
Proof. unfold Analyzer.category_score. rewrite fold_score_sum. reflexivity. Qed.

Lemma list_sum_perm (l l' : list nat) :
  Permutation l l' -> list_sum l = list_sum l'.
Proof. induction 1; simpl; lia. Qed.

(** The order in which the set of keywords is visited does not matter. *)
Lemma category_score_perm text c c' :
  Permutation (keywords c) (keywords c') ->
  category_score text c = category_score text c'.
Proof.
  intros H. rewrite !category_score_sum.
  apply list_sum_perm, Permutation_map, H.
Qed.

Lemma keyword_points_le text k : keyword_points text k <= 2.
Proof.
  unfold Analyzer.keyword_points.
  destruct (search_word k text); [lia|].
  destruct (contains k text); lia.
Qed.

(** The three cases of a keyword's contribution, in the words of the
    specification. *)
Lemma keyword_points_cases text k :
  word_edged k = true ->
  (spec_whole_word is_word k text -> keyword_points text k = 2) /\
  (~ spec_whole_word is_word k text -> spec_occurs k text ->
   keyword_points text k = 1) /\
  (~ spec_occurs k text -> keyword_points text k = 0).
Proof.
  intros Hk. unfold Analyzer.keyword_points.
  pose proof (search_word_whole_word unicode_alnum k text Hk) as Hw.
  pose proof (contains_spec k text) as Hc.
  assert (Hsub : spec_whole_word is_word k text -> spec_occurs k text).
  { intros [pre [post [E _]]]. exists pre, post. exact E. }
  destruct (search_word k text).
  - assert (W : spec_whole_word is_word k text) by (apply Hw; reflexivity).
    repeat split; auto; intros; tauto.
  - assert (W : ~ spec_whole_word is_word k text).
    { intros W. apply Hw in W. discriminate. }
    destruct (contains k text).
    + assert (O : spec_occurs k text) by (apply Hc; reflexivity).
      repeat split; auto; intros; tauto.
    + assert (O : ~ spec_occurs k text).
      { intros O. apply Hc in O. discriminate. }
      repeat split; auto; intros; tauto.
Qed.

(** No keyword is written twice in a category: the list of a literal is
    the set it denotes. *)
Lemma catalog_keywords_nodup cid c :
  In (cid, c) _define_categories -> NoDup (keywords c).
Proof.
  intros Hc.
  assert (H : forallb (fun item => distinct (keywords (snd item)))
                      _define_categories = true) by (vm_compute; reflexivity).
  rewrite forallb_forall in H. apply distinct_NoDup. exact (H _ Hc).
Qed.

(** Every keyword of the catalog begins and ends with a word character. *)
Lemma catalog_keywords_word_edged cid c k :
  In (cid, c) _define_categories -> In k (keywords c) -> word_edged k = true.
Proof.
  intros Hc Hk.
  assert (H : forallb (fun item => forallb word_edged (keywords (snd item)))
                      _define_categories = true) by (vm_compute; reflexivity).
  rewrite forallb_forall in H. specialize (H _ Hc). simpl in H.
  rewrite forallb_forall in H. exact (H _ Hk).
Qed.

(** ** The best category *)

Local Abbreviation score_of text := (fun item : string * CategoryInfo =>
                                       category_score text (snd item)).

(** A score equal to (or below) the current maximum never replaces it. *)
Lemma best_step_keeps text best score item :
  score_of text item <= score ->
  best_step text (best, score) item = (best, score).
Proof.
  intros H. unfold Analyzer.best_step. simpl.
  destruct (Nat.ltb_spec score (category_score text (snd item))); [lia|].
  reflexivity.
Qed.

Lemma best_fold_keeps text post best score :
  Forall (fun item => score_of text item <= score) post ->
  fold_left (best_step text) post (best, score) = (best, score).
Proof.
  induction 1 as [|item post H _ IH]; simpl; [reflexivity|].
  rewrite best_step_keeps by exact H. exact IH.
Qed.

Lemma best_fold_below text pre m acc :
  snd acc < m ->
  Forall (fun item => score_of text item < m) pre ->
  snd (fold_left (best_step text) pre acc) < m.
Proof.
  intros Hacc H. revert acc Hacc.
  induction H as [|item pre H _ IH]; intros acc Hacc; simpl; [exact Hacc|].
  apply IH. unfold Analyzer.best_step.
  destruct (Nat.ltb (snd acc) (category_score text (snd item))); simpl; auto.
Qed.

(** The first category, in catalog order, among those with the maximal
    score is the one the loop ends with. *)
Lemma best_of_first_maximum text pre cid c post :
  1 <= category_score text c ->
  Forall (fun item => score_of text item < category_score text c) pre ->
  Forall (fun item => score_of text item <= category_score text c) post ->
  best_of text (pre ++ (cid, c) :: post) = (Some cid, category_score text c).
Proof.
  intros Hpos Hpre Hpost. unfold Analyzer.best_of.
  rewrite fold_left_app. cbn [fold_left].
  assert (Hlt : snd (fold_left (best_step text) pre (None, 0))
                < category_score text c).
  { apply best_fold_below; [simpl; lia | exact Hpre]. }
  destruct (fold_left (best_step text) pre (None, 0)) as [b s]. simpl in Hlt.
  unfold Analyzer.best_step at 2. simpl.
  destruct (Nat.ltb_spec s (category_score text c)); [|lia].
  apply best_fold_keeps, Hpost.
Qed.

(** What the loop over the categories ends with: the maximal score, and a
    category of the catalog unless no score improved on the start. *)
Lemma best_fold_inv text cats acc :
  let r := fold_left (best_step text) cats acc in
  snd r = Nat.max (snd acc) (list_max (map (score_of text) cats)) /\
  (r = acc \/ exists cid, fst r = Some cid /\ In cid (map fst cats)).
Proof.
  revert acc; induction cats as [|item cats IH]; intros acc; simpl.
  - split; [lia | left; reflexivity].
  - destruct (IH (best_step text acc item)) as [Hs Hc]. split.
    + rewrite Hs. unfold Analyzer.best_step.
      destruct (Nat.ltb_spec (snd acc) (category_score text (snd item)));
        simpl; lia.
    + destruct Hc as [Hc | [cid [Hf Hin]]].
      * rewrite Hc. unfold Analyzer.best_step.
        destruct (Nat.ltb (snd acc) (category_score text (snd item))).
        -- right. exists (fst item). simpl. auto.
        -- left. reflexivity.
      * right. exists cid. auto.
Qed.

Lemma best_of_score text cats :
  snd (best_of text cats) = list_max (map (score_of text) cats).
Proof.
  unfold Analyzer.best_of.
  destruct (best_fold_inv text cats (None, 0)) as [H _]. exact H.
Qed.

Lemma best_of_category text cats :
  1 <= snd (best_of text cats) ->
  exists cid, fst (best_of text cats) = Some cid /\ In cid (map fst cats).
Proof.
  unfold Analyzer.best_of. intros H.
  destruct (best_fold_inv text cats (None, 0)) as [_ [E | Hc]]; [|exact Hc].
  rewrite E in H. simpl in H. lia.
Qed.

(** ** Appending to a category *)

Lemma append_to_fresh cid package pre c post :
  ~ In cid (map fst pre) ->
  append_to cid package (pre ++ (cid, c) :: post) =
  Ok (pre ++ (cid, with_package c package) :: post).
Proof.
  induction pre as [|[cid' c'] pre IH]; simpl; intros Hn.
  - rewrite String.eqb_refl. reflexivity.
  - destruct (String.eqb_spec cid cid') as [->|_]; [tauto|].
    rewrite IH by tauto. reflexivity.
Qed.

(** Appending succeeds for a key of the dictionary, and changes the
    package list of exactly one entry. *)
Lemma append_to_key cid package cats :
  In cid (map fst cats) ->
  exists pre c post,
    cats = pre ++ (cid, c) :: post /\
    append_to cid package cats = Ok (pre ++ (cid, with_package c package) :: post).
Proof.
  induction cats as [|[cid' c'] cats IH]; simpl; [tauto|]. intros H.
  destruct (String.eqb_spec cid cid') as [->|Hne].
  - exists [], c', cats. auto.
  - destruct H as [H|H]; [congruence|].
    destruct (IH H) as [pre [c [post [-> E]]]].
    exists ((cid', c') :: pre), c, post. rewrite E. auto.
Qed.

Lemma categorized_app a b : categorized (a ++ b) = categorized a ++ categorized b.
Proof. unfold categorized. apply flat_map_app. Qed.

Lemma categorized_with_package pre cid c package post :
  Permutation (categorized (pre ++ (cid, with_package c package) :: post))
              (categorized (pre ++ (cid, c) :: post) ++ [package]).
Proof.
  rewrite !categorized_app. unfold categorized at 2 4. simpl.
  rewrite <- !app_assoc. apply Permutation_app_head, Permutation_app_head.
  apply Permutation_app_comm.
Qed.

(** ** Text features *)

Lemma rmap_lower_strings (ks : list pystr) :
  rmap (lower_method unicode_lower) (map PStr ks) = Ok (map lower ks).
Proof.
  induction ks as [|k ks IH]; simpl; [reflexivity|].
  rewrite IH. reflexivity.
Qed.

(** C8.  For a package whose name and description are strings and whose
    keywords, if any, are a list of strings, the text blob is the
    lowercased name without its leading [@org/] prefix, then the
    lowercased description, then each keyword lowercased, all joined by
    single spaces. *)
Theorem text_features_blob (package : pyval) (n desc : pystr) (ks : list pystr) :
  get package "name" (PStr []) = Ok (PStr n) ->
  get package "description" (PStr []) = Ok (PStr desc) ->
  get package "keywords" (PList []) = Ok (PList (map PStr ks)) ->
  exists clean,
    spec_org_stripped (lower n) clean /\
    _extract_text_features package =
    Ok (clean ++ str " " ++ lower desc ++
        List.concat (map (fun k => str " " ++ lower k) ks)).
Proof.
  intros Hn Hd Hk. exists (sub_org_prefix (lower n)).
  split; [apply sub_org_prefix_spec|].
  unfold Analyzer._extract_text_features.
  rewrite Hn. cbn [rbind Py.lower_method]. rewrite Hd.
  cbn [rbind Py.lower_method]. rewrite Hk. cbn [rbind keyword_parts].
  rewrite rmap_lower_strings. cbn [rbind].
  rewrite join_two_or_more, map_map. reflexivity.
Qed.

(** When [keywords] is a non-empty string rather than a list, the string
    itself, lowercased, is the last part. *)
Lemma text_features_keyword_string (package : pyval) (n desc kw : pystr) :
  get package "name" (PStr []) = Ok (PStr n) ->
  get package "description" (PStr []) = Ok (PStr desc) ->
  get package "keywords" (PList []) = Ok (PStr kw) ->
  kw <> [] ->
  _extract_text_features package =
  Ok (sub_org_prefix (lower n) ++ str " " ++ lower desc ++ str " " ++ lower kw).
Proof.
  intros Hn Hd Hk Hne. unfold Analyzer._extract_text_features.
  rewrite Hn. cbn [rbind Py.lower_method]. rewrite Hd.
  cbn [rbind Py.lower_method]. rewrite Hk. cbn [rbind keyword_parts].
  destruct kw as [|c kw]; [congruence|]. reflexivity.
Qed.

(** ** The claims about scoring and assignment *)

(** C5.  For a category of the catalog, the score of a text blob is the
    sum over the category's keywords of 2 when the keyword occurs as a
    whole word, else 1 when it occurs as a substring, else 0; and the
    [@org/hilog] package of the specification scores exactly 2 in the
    utilities category. *)
Theorem score_is_weighted_keyword_sum
        (cid : string) (c : CategoryInfo) (text : pystr) :
  In (cid, c) _define_categories ->
  category_score text c = list_sum (map (keyword_points text) (keywords c)) /\
  (forall k, In k (keywords c) ->
     (spec_whole_word is_word k text -> keyword_points text k = 2) /\
     (~ spec_whole_word is_word k text -> spec_occurs k text ->
      keyword_points text k = 1) /\
     (~ spec_occurs k text -> keyword_points text k = 0)) /\
  (exists blob utilities,
     _extract_text_features hilog_package = Ok blob /\
     category "utilities" _define_categories = Ok utilities /\
     category_score blob utilities = 2).
Proof.
  intros Hc. split; [apply category_score_sum|]. split.
  - intros k Hk. apply keyword_points_cases.
    exact (catalog_keywords_word_edged cid c k Hc Hk).
  - eexists. eexists. split; [vm_compute; reflexivity|].
    split; [vm_compute; reflexivity|]. vm_compute. reflexivity.
Qed.

(** C4.  When several categories reach the maximal score, the package goes
    to the one that comes first in catalog order; a later category whose
    score only equals the current maximum does not replace it. *)
Theorem tie_break_first_in_catalog_order
        (pre post : catalog) (cid : string) (c : CategoryInfo)
        (package : pyval) (text : pystr) (uncategorized : list pyval) (n : nat) :
  _extract_text_features package = Ok text ->
  ~ In cid (map fst pre) ->
  1 <= category_score text c ->
  Forall (fun item => category_score text (snd item) < category_score text c) pre ->
  Forall (fun item => category_score text (snd item) <= category_score text c) post ->
  best_of text (pre ++ (cid, c) :: post) = (Some cid, category_score text c) /\
  categorize_one (pre ++ (cid, c) :: post, uncategorized, n) package =
  Ok (pre ++ (cid, with_package c package) :: post, uncategorized, n + 1) /\
  (forall best score item,
     category_score text (snd item) = score ->
     best_step text (best, score) item = (best, score)).
Proof.
  intros Ht Hfresh Hpos Hpre Hpost.
  pose proof (best_of_first_maximum text pre cid c post Hpos Hpre Hpost) as Hb.
  split; [exact Hb|]. split.
  - unfold Analyzer.categorize_one. rewrite Ht. cbn [rbind]. rewrite Hb.
    destruct (Nat.leb_spec 1 (category_score text c)); [|lia].
    rewrite append_to_fresh by exact Hfresh. reflexivity.
  - intros best score item E. apply best_step_keeps. simpl. lia.
Qed.

(** C6.  The best score is the maximum of the category scores.  A package
    that scores 0 in every category is appended to the uncategorized list
    and the categories stay as they are.  A package that scores at least 1
    in some category is appended to the package list of one category of
    the catalog: that list grows by the package, every other entry and the
    uncategorized list stay as they are, and the count grows by one. *)
Theorem categorized_iff_positive_score
        (cats : catalog) (package : pyval) (text : pystr)
        (uncategorized : list pyval) (n : nat) :
  _extract_text_features package = Ok text ->
  snd (best_of text cats) =
  list_max (map (fun item => category_score text (snd item)) cats) /\
  (Forall (fun item => category_score text (snd item) = 0) cats ->
   categorize_one (cats, uncategorized, n) package =
   Ok (cats, uncategorized ++ [package], n)) /\
  (Exists (fun item => 1 <= category_score text (snd item)) cats ->
   exists cid pre c c' post,
     cats = pre ++ (cid, c) :: post /\
     categorize_one (cats, uncategorized, n) package =
     Ok (pre ++ (cid, c') :: post, uncategorized, n + 1) /\
     packages c' = packages c ++ [package] /\
     keywords c' = keywords c /\
     In package (categorized (pre ++ (cid, c') :: post))).
Proof.
  intros Ht. pose proof (best_of_score text cats) as Hs.
  split; [exact Hs|]. split.
  - intros Hzero.
    assert (Hmax : list_max (map (score_of text) cats) = 0).
    { apply Nat.le_0_r. apply list_max_le. apply Forall_map.
      eapply Forall_impl; [|exact Hzero]. simpl. intros a ->. lia. }
    unfold Analyzer.categorize_one. rewrite Ht. cbn [rbind].
    destruct (best_of text cats) as [b sc]. simpl in Hs.
    rewrite Hs, Hmax. reflexivity.
  - intros Hex.
    assert (Hmax : 1 <= list_max (map (score_of text) cats)).
    { apply Exists_exists in Hex as [item [Hin Hpos]].
      pose proof (list_max_le (map (score_of text) cats)
                              (list_max (map (score_of text) cats))) as [H _].
      specialize (H (Nat.le_refl _)). rewrite Forall_forall in H.
      specialize (H (score_of text item) (in_map _ _ _ Hin)). simpl in H. lia. }
    rewrite <- Hs in Hmax.
    destruct (best_of_category text cats Hmax) as [cid [Hf Hin]].
    destruct (append_to_key cid package cats Hin) as [pre [c [post [E Ha]]]].
    exists cid, pre, c, (with_package c package), post.
    split; [exact E|]. split; [|split; [reflexivity|split; [reflexivity|]]].
    + unfold Analyzer.categorize_one. rewrite Ht. cbn [rbind].
      destruct (best_of text cats) as [b sc]. simpl in Hf, Hmax. subst b.
      destruct (Nat.leb_spec 1 sc); [|lia].
      rewrite Ha. reflexivity.
    + rewrite categorized_app. apply in_or_app. right.
      unfold categorized. cbn [flat_map snd with_package packages].
      apply in_or_app. left. apply in_or_app. right. left. reflexivity.
Qed.

(** ** The partition *)

(** One turn of the loop over the packages puts the package in exactly one
    place: the list of one category, or the uncategorized list. *)
Lemma categorize_one_exclusive (cats : catalog) uncategorized n package text :
  _extract_text_features package = Ok text ->
  (exists pre cid c post,
     cats = pre ++ (cid, c) :: post /\
     categorize_one (cats, uncategorized, n) package =
     Ok (pre ++ (cid, with_package c package) :: post, uncategorized, n + 1)) \/
  categorize_one (cats, uncategorized, n) package =
  Ok (cats, uncategorized ++ [package], n).
Proof.
  intros Ht. unfold Analyzer.categorize_one. rewrite Ht. cbn [rbind].
  pose proof (best_of_category text cats) as Hc.
  destruct (best_of text cats) as [b sc]. simpl in Hc.
  destruct (Nat.leb_spec 1 sc) as [Hpos|_]; [|right; reflexivity].
  destruct (Hc Hpos) as [cid [-> Hin]].
  destruct (append_to_key cid package cats Hin) as [pre [c [post [E Ha]]]].
  left. exists pre, cid, c, post. rewrite Ha. auto.
Qed.

Lemma categorize_loop_partitions pkgs :
  Forall (fun p => exists text, _extract_text_features p = Ok text) pkgs ->
  forall cats uncategorized n,
  exists cats' uncategorized' n',
    categorize_loop pkgs (cats, uncategorized, n) = Ok (cats', uncategorized', n') /\
    Permutation (categorized cats' ++ uncategorized')
                (categorized cats ++ uncategorized ++ pkgs) /\
    n' + List.length (categorized cats) = n + List.length (categorized cats') /\
    map fst cats' = map fst cats.
Proof.
  induction 1 as [|package pkgs [text Ht] _ IH]; intros cats uncategorized n.
  - exists cats, uncategorized, n. simpl. rewrite app_nil_r. auto.
  - destruct (categorize_one_exclusive cats uncategorized n package text Ht)
      as [[pre [cid [c [post [E Hstep]]]]] | Hstep].
    + destruct (IH (pre ++ (cid, with_package c package) :: post)
                   uncategorized (n + 1))
        as [cats' [unc' [n' [Hr [Hp [Hn Hk]]]]]].
      exists cats', unc', n'. cbn [Analyzer.categorize_loop].
      rewrite Hstep. cbn [rbind]. split; [exact Hr|].
      subst cats. split; [|split].
      * rewrite Hp.
        rewrite (Permutation_app_tail _ (categorized_with_package pre cid c package post)).
        rewrite <- !app_assoc. apply Permutation_app_head. simpl.
        apply Permutation_middle.
      * pose proof (Permutation_length
                      (categorized_with_package pre cid c package post)) as Hl.
        rewrite length_app in Hl. simpl in Hl. lia.
      * rewrite Hk, !map_app. reflexivity.
    + destruct (IH cats (uncategorized ++ [package]) n)
        as [cats' [unc' [n' [Hr [Hp [Hn Hk]]]]]].
      exists cats', unc', n'. cbn [Analyzer.categorize_loop].
      rewrite Hstep. cbn [rbind]. split; [exact Hr|]. split; [|auto].
      rewrite Hp, <- !app_assoc. reflexivity.
Qed.

(** C10.  Classifying a list of packages whose text can be extracted
    partitions it: the category lists and the uncategorized list together
    hold every input package exactly once, and the number of categorized
    packages plus the length of the uncategorized list is the number of
    input packages. *)
Theorem categorize_packages_partitions (pkgs : list pyval) :
  Forall (fun p => exists text, _extract_text_features p = Ok text) pkgs ->
  exists self' categorized_count,
    categorize_packages (loaded pkgs) = Ok (self', categorized_count) /\
    Permutation (categorized (self_categories self') ++ self_uncategorized self')
                pkgs /\
    categorized_count = List.length (categorized (self_categories self')) /\
    categorized_count + List.length (self_uncategorized self') = List.length pkgs /\
    map fst (self_categories self') = map fst _define_categories.
Proof.
  intros Hp.
  destruct (categorize_loop_partitions pkgs Hp _define_categories [] 0)
    as [cats' [unc' [n' [Hr [Hperm [Hn Hk]]]]]].
  unfold Analyzer.categorize_packages. simpl. rewrite Hr. cbn [rbind].
  eexists. eexists. split; [reflexivity|]. simpl.
  assert (E0 : categorized _define_categories = []) by reflexivity.
  rewrite E0 in Hperm, Hn. simpl in Hperm, Hn.
  split; [exact Hperm|]. split; [lia|]. split; [|exact Hk].
  apply Permutation_length in Hperm. rewrite length_app in Hperm. lia.
Qed.

End Unicode.

(** ** The theorems at concrete packages *)

Local Abbreviation alnum0 := ascii_only_alnum.
Local Abbreviation lower0 := ascii_only_lower.

(** The text blob of the logging scenario. *)
Lemma text_features_blob_hilog :
  exists clean,
    spec_org_stripped (lower lower0 (str "@org/hilog")) clean /\
    _extract_text_features lower0 hilog_package =
    Ok (clean ++ str " " ++ lower lower0 (str "logging utility for apps") ++
        List.concat (map (fun k => str " " ++ lower lower0 k) [])).
Proof.
  exact (text_features_blob lower0 hilog_package
           (str "@org/hilog") (str "logging utility for apps") []
           eq_refl eq_refl eq_refl).
Defined.

(** The utilities category, third of the catalog, on the logging scenario. *)
Lemma score_of_utilities_on_hilog :
  let item := nth 2 _define_categories ("", CategoryInfo_init "" "" "" []) in
  let text := str "hilog logging utility for apps" in
  In item _define_categories /\
  category_score alnum0 text (snd item) =
  list_sum (map (keyword_points alnum0 text) (keywords (snd item))).
Proof.
  intros item text.
  assert (Hin : In (fst item, snd item) _define_categories).
  { right. right. left. reflexivity. }
  split; [exact Hin|].
  exact (proj1 (score_is_weighted_keyword_sum alnum0 lower0
                  (fst item) (snd item) text Hin)).
Defined.

(** [cache] is a keyword of utilities and of data_persistence: both score
    2, and the package goes to utilities, which comes first. *)
Lemma tie_break_on_cache :
  category_score alnum0 (str "cache ")
    (snd (nth 4 _define_categories ("", CategoryInfo_init "" "" "" []))) = 2 /\
  best_of alnum0 (str "cache ") _define_categories = (Some "utilities", 2).
Proof.
  split; [reflexivity|].
  set (d := ("", CategoryInfo_init "" "" "" [])).
  refine (proj1 (tie_break_first_in_catalog_order alnum0 lower0
                   (firstn 2 _define_categories) (skipn 3 _define_categories)
                   "utilities" (snd (nth 2 _define_categories d))
                   cache_package (str "cache ") [] 0 _ _ _ _ _)).
  - reflexivity.
  - simpl. intros [H|[H|[]]]; discriminate H.
  - vm_compute. lia.
  - repeat constructor; vm_compute; lia.
  - repeat constructor; vm_compute; lia.
Defined.

(** The logging scenario has a positive score and is appended to the list
    of a category; a package without a name or a description scores 0
    everywhere and is appended to the uncategorized list. *)
Lemma hilog_is_categorized :
  (exists cid pre c c' post,
     _define_categories = pre ++ (cid, c) :: post /\
     categorize_one alnum0 lower0 (_define_categories, [], 0) hilog_package =
     Ok (pre ++ (cid, c') :: post, [], 0 + 1) /\
     packages c' = packages c ++ [hilog_package] /\
     keywords c' = keywords c /\
     In hilog_package (categorized (pre ++ (cid, c') :: post))) /\
  categorize_one alnum0 lower0 (_define_categories, [], 0) (PDict []) =
  Ok (_define_categories, [] ++ [PDict []], 0).
Proof.
  split.
  - apply (proj2 (proj2 (categorized_iff_positive_score alnum0 lower0
                           _define_categories hilog_package
                           (str "hilog logging utility for apps") [] 0 eq_refl))).
    apply Exists_exists.
    exists (nth 2 _define_categories ("", CategoryInfo_init "" "" "" [])).
    split; [right; right; left; reflexivity | vm_compute; lia].
  - apply (proj1 (proj2 (categorized_iff_positive_score alnum0 lower0
                           _define_categories (PDict []) (str " ") [] 0 eq_refl))).
    unfold _define_categories.
    repeat (apply Forall_cons; [vm_compute; reflexivity|]). apply Forall_nil.
Defined.

(** Two packages, one for utilities and one that matches nothing. *)
Lemma partition_of_two_packages :
  exists self' categorized_count,
    categorize_packages alnum0 lower0 (loaded [hilog_package; PDict []]) =
    Ok (self', categorized_count) /\
    Permutation (categorized (self_categories self') ++ self_uncategorized self')
                [hilog_package; PDict []] /\
    categorized_count = List.length (categorized (self_categories self')) /\
    categorized_count + List.length (self_uncategorized self') =
    List.length [hilog_package; PDict []] /\
    map fst (self_categories self') = map fst _define_categories.
Proof.
  apply (categorize_packages_partitions alnum0 lower0 [hilog_package; PDict []]).
  repeat constructor; eexists; vm_compute; reflexivity.
Defined.

End AnalyzerFacts.

(* ===================================================================== *)
(** * The collector and the record normaliser *)
(* ===================================================================== *)

Module CrawlerFacts.
Import Py PyFacts Crawler.
Local Open Scope string_scope.
Local Open Scope list_scope.
Local Open Scope Z_scope.

(** ** State *)

Lemma extend_nil w : extend w [] [] [] = w.
Proof. destruct w. unfold extend. simpl. rewrite !app_nil_r. reflexivity. Qed.

Lemma extend_extend w ps ls rs ps' ls' rs' :
  extend (extend w ps ls rs) ps' ls' rs' =
  extend w (ps ++ ps') (ls ++ ls') (rs ++ rs').
Proof. unfold extend. simpl. rewrite !app_assoc. reflexivity. Qed.

Lemma logger_run r w : logger r w = (Ok tt, extend w [] [r] []).
Proof. unfold logger, extend. rewrite !app_nil_r. reflexivity. Qed.

Lemma append_package_run p w : append_package p w = (Ok tt, extend w [p] [] []).
Proof. unfold append_package, extend. rewrite !app_nil_r. reflexivity. Qed.

Lemma sent_run p w : sent p w = (Ok tt, extend w [] [] [p]).
Proof. unfold sent, extend. rewrite !app_nil_r. reflexivity. Qed.

Lemma for_each_logger records w :
  for_each records logger w = (Ok tt, extend w [] records []).
Proof.
  revert w; induction records as [|r records IH]; intros w.
  - simpl. unfold ret. rewrite extend_nil. reflexivity.
  - cbn [for_each]. unfold bind. rewrite logger_run, IH, extend_extend.
    reflexivity.
Qed.

(** The held-back records reach the log in the order given. *)
Lemma write_held (order : list Z) (held : list (Z * list log_record)) w :
  for_each order (fun p => for_each (records_of p held) logger) w =
  (Ok tt, extend w [] (flat_map (fun p => records_of p held) order) []).
Proof.
  revert w; induction order as [|p order IH]; intros w.
  - simpl. unfold ret. rewrite extend_nil. reflexivity.
  - cbn [for_each flat_map]. unfold bind.
    rewrite for_each_logger, IH, extend_extend. reflexivity.
Qed.

Lemma held_back_extend {A} (m : M A) (a : A) w ps ls rs :
  (forall w0, m w0 = (Ok a, extend w0 ps ls rs)) ->
  held_back m w = (Ok (a, ls), extend w ps [] rs).
Proof.
  intros H. unfold held_back. rewrite H. unfold with_log, extend. simpl.
  rewrite ?app_nil_r. reflexivity.
Qed.

(** ** The record normaliser *)

Lemma get_dict d k dflt : get (PDict d) k dflt = Ok (field d k dflt).
Proof. unfold get, field. destruct (lookup (str k) d); reflexivity. Qed.

(** A raw record that is a dictionary always yields a [Package]. *)
Lemma make_package_dict d : make_package (PDict d) = Ok (package_of d).
Proof. unfold make_package. rewrite !get_dict. reflexivity. Qed.

(** Any other raw record has no [get]. *)
Lemma make_package_other v :
  is_dict v = false -> make_package v = Raise AttributeError.
Proof. destruct v; simpl; intros H; try reflexivity; discriminate H. Qed.

Lemma process_row_run r w :
  process_row r w = (Ok tt, extend w (retained [r]) (dropped [r]) []).
Proof.
  unfold process_row, retained, dropped. simpl. rewrite !app_nil_r.
  destruct r; try (rewrite make_package_other by reflexivity; apply logger_run).
  rewrite make_package_dict. apply append_package_run.
Qed.

Lemma retained_cons r rows : retained (r :: rows) = retained [r] ++ retained rows.
Proof. unfold retained. simpl. rewrite app_nil_r. reflexivity. Qed.

Lemma dropped_cons r rows : dropped (r :: rows) = dropped [r] ++ dropped rows.
Proof. unfold dropped. simpl. rewrite app_nil_r. reflexivity. Qed.

Lemma process_rows_run rows w :
  for_each rows process_row w = (Ok tt, extend w (retained rows) (dropped rows) []).
Proof.
  revert w; induction rows as [|r rows IH]; intros w.
  - simpl. unfold ret. rewrite extend_nil. reflexivity.
  - cbn [for_each]. unfold bind. rewrite process_row_run, IH, extend_extend.
    rewrite <- retained_cons, <- dropped_cons. reflexivity.
Qed.

Lemma retained_length_le rows : (List.length (retained rows) <= List.length rows)%nat.
Proof.
  induction rows as [|r rows IH]; [simpl; lia|].
  rewrite retained_cons, length_app. destruct r; simpl; lia.
Qed.

Lemma retained_all_dicts rows :
  forallb is_dict rows = true -> List.length (retained rows) = List.length rows.
Proof.
  induction rows as [|r rows IH]; [reflexivity|].
  cbn [forallb]. rewrite andb_true_iff. intros [Hr Hrows].
  rewrite retained_cons, length_app, IH by exact Hrows.
  destruct r; try discriminate Hr. reflexivity.
Qed.

Lemma dropped_count rows :
  (List.length (retained rows) + List.length (dropped rows) = List.length rows)%nat.
Proof.
  induction rows as [|r rows IH]; [reflexivity|].
  rewrite retained_cons, dropped_cons, !length_app. destruct r; simpl; lia.
Qed.

(** [_process_page_data] on a page body whose [rows] is a list. *)
Lemma process_page_data_rows d rows w :
  lookup (str "rows") d = Some (PList rows) ->
  _process_page_data (PDict d) w =
  (Ok tt, extend w (retained rows) (dropped rows) []).
Proof.
  intros Hrows. unfold _process_page_data, bind, lift, falsy_or_lacks.
  destruct d as [|kv d']; [discriminate Hrows|].
  cbn [truthy List.length Nat.eqb negb contains_key rbind getitem].
  rewrite Hrows. cbn [negb iter]. apply process_rows_run.
Qed.

(** C1, as the code has it.  The normaliser retains every raw record that
    is a dictionary, whatever its name: a missing name becomes the empty
    string and the record is kept.  A raw record that is not a dictionary
    is dropped with one warning, and processing continues with the next
    record. *)
Theorem normalizer_retains_every_dictionary
        (d : list (pystr * pyval)) (rows : list pyval) (w : world) :
  lookup (str "rows") d = Some (PList rows) ->
  _process_page_data (PDict d) w =
  (Ok tt, extend w (retained rows) (dropped rows) []) /\
  (forall rd, In (PDict rd) rows ->
              In (package_of rd) (retained rows) /\
              name (package_of rd) = field rd "name" (PStr [])) /\
  (forall r, In r rows -> is_dict r = false ->
             In (WarningPackageData AttributeError) (dropped rows)) /\
  (List.length (retained rows) + List.length (dropped rows) = List.length rows)%nat.
Proof.
  intros Hrows. split; [apply process_page_data_rows, Hrows|].
  split; [|split; [|apply dropped_count]].
  - intros rd Hin. split; [|reflexivity].
    unfold retained. apply in_flat_map. exists (PDict rd). simpl. auto.
  - intros r Hin Hr. unfold dropped. apply in_flat_map. exists r.
    split; [exact Hin|]. destruct r; try discriminate Hr; simpl; auto.
Qed.

(** C1 as stated fails: a record whose name is empty is retained. *)
Lemma empty_name_is_retained :
  ~ (forall page_data p,
       In p (packages (snd (_process_page_data page_data fresh))) ->
       name p <> PStr []).
Proof.
  intros H.
  apply (H (PDict [(str "rows", PList [PDict [(str "name", PStr [])]])])
           (package_of [(str "name", PStr [])])).
  - vm_compute. left. reflexivity.
  - reflexivity.
Qed.

(** One page with a named record, a record without a name, and a stray
    string. *)
Lemma normalizer_on_three_rows :
  _process_page_data
    (PDict [(str "rows",
             PList [PDict [(str "name", PStr (str "@ohos/axios"))];
                    PDict [];
                    PStr (str "oops")])]) fresh =
  (Ok tt,
   {| packages := [package_of [(str "name", PStr (str "@ohos/axios"))];
                   package_of []];
      log := [WarningPackageData AttributeError];
      requests := [] |}).
Proof.
  exact (proj1 (normalizer_retains_every_dictionary
                  [(str "rows",
                    PList [PDict [(str "name", PStr (str "@ohos/axios"))];
                           PDict [];
                           PStr (str "oops")])]
                  [PDict [(str "name", PStr (str "@ohos/axios"))];
                   PDict [];
                   PStr (str "oops")]
                  fresh eq_refl)).
Defined.

(** ** The fetch client *)

Local Ltac inspect_cases data :=
  let d := fresh "d" in
  let b := fresh "b" in
  let Hb := fresh "Hb" in
  let Hr := fresh "Hr" in
  unfold inspectable, inspect_structure, inspect_summary, get;
  destruct data as [| | | | | |d]; try discriminate;
  try (intros _; eexists; reflexivity);
  destruct (lookup (str "body") d) as [[| | | | | |b]|] eqn:Hb;
  try discriminate; try (intros _; reflexivity);
  try (intros _; eexists; reflexivity);
  destruct (lookup (str "rows") b) as [[| | | |[|? ?]|[|[] ?]|[|? ?]]|] eqn:Hr;
  try discriminate;
  intros _; cbn -[str]; rewrite ?Hr; cbn -[str];
  destruct (lookup (str "pages") b); cbn -[str]; rewrite ?Hr; cbn -[str].

Lemma inspect_inspectable data :
  inspectable data = true ->
  (_ <- inspect_structure data ;; inspect_summary data)%res = Ok tt.
Proof. inspect_cases data; reflexivity. Qed.

Lemma inspect_not_inspectable data :
  inspectable data = false ->
  exists e, (_ <- inspect_structure data ;; inspect_summary data)%res = Raise e.
Proof. inspect_cases data; eexists; reflexivity. Qed.

Section Registry.

Variable registry : Z -> Z -> http_outcome.
Variable completion : list Z -> list Z.

Local Abbreviation fetch_page := (fetch_page registry).
Local Abbreviation page_value := (page_value registry).
Local Abbreviation page_failure := (page_failure registry).

(** A failed page has the empty dictionary as its value; a page that did
    not fail has the payload of the response. *)
Lemma page_value_failure p : page_failure p -> page_value p = empty_dict.
Proof.
  unfold Crawler.page_value.
  intros [e H | status loads H Hs | e H | data H Hi]; rewrite H; try reflexivity.
  - destruct loads; [|reflexivity].
    destruct (Z.eqb_spec status 200); [contradiction | reflexivity].
  - simpl. rewrite Hi. reflexivity.
Qed.

Lemma page_value_success p :
  ~ page_failure p ->
  exists data, registry p 50 = Response 200 (Ok data) /\
               inspectable data = true /\ page_value p = data.
Proof.
  intros Hn. unfold Crawler.page_value.
  destruct (registry p 50) as [e | status loads] eqn:H.
  - exfalso. apply Hn. eapply transport_failure; eauto.
  - destruct (Z.eqb_spec status 200) as [->|Hs].
    + destruct loads as [data|e].
      * destruct (inspectable data) eqn:Hi.
        -- exists data. auto.
        -- exfalso. apply Hn. eapply payload_failure; eauto.
      * exfalso. apply Hn. eapply json_failure; eauto.
    + exfalso. apply Hn. eapply status_failure; eauto.
Qed.

(** [fetch_page] never raises, requests the page once, leaves
    [self.packages] alone and logs at most one error. *)
Lemma fetch_page_run p w :
  exists ls,
    fetch_page p w = (Ok (page_value p), extend w [] ls [p]) /\
    (List.length ls <= 1)%nat /\
    (page_failure p -> exists r, ls = [r]).
Proof.
  assert (Hone : forall r (v : pyval),
             (logger r ;; ret v)%crawl (extend w [] [] [p]) =
             (Ok v, extend w [] [r] [p]) /\
             (List.length [r] <= 1)%nat /\
             (page_failure p -> exists r', [r] = [r'])).
  { intros r v. unfold bind. rewrite logger_run, extend_extend.
    split; [reflexivity|]. split; [simpl; lia|]. intros _. eauto. }
  unfold Crawler.fetch_page, Crawler.page_value, bind at 1.
  rewrite sent_run.
  destruct (registry p 50) as [e | status loads] eqn:H.
  - exists [ErrorFetchingPage p e]. apply Hone.
  - destruct (Z.eqb_spec status 200) as [->|Hs]; cbn [negb andb].
    + destruct loads as [data|e].
      * destruct (inspectable data) eqn:Hi.
        -- rewrite (inspect_inspectable _ Hi). exists []. unfold ret.
           split; [reflexivity|]. split; [simpl; lia|].
           intros [e' H' | status' loads' H' Hs' | e' H' | data' H' Hi'];
             rewrite H in H'; try discriminate H'.
           ++ injection H' as <- _. contradiction.
           ++ injection H' as <-. rewrite Hi in Hi'. discriminate Hi'.
        -- destruct (inspect_not_inspectable _ Hi) as [e ->].
           exists [ErrorFetchingPage p e]. apply Hone.
      * destruct e; eexists; apply Hone.
    + destruct loads; exists [ErrorHttpStatus p status]; apply Hone.
Qed.


Lemma page_value_inspectable p : inspectable (page_value p) = true.
Proof.
  unfold Crawler.page_value.
  destruct (registry p 50) as [e | status [data|e]]; try reflexivity.
  destruct (status =? 200); [|reflexivity].
  cbn [andb]. destruct (inspectable data) eqn:Hi; [exact Hi | reflexivity].
Qed.

(** ** The collector *)

Lemma falsy_or_lacks_dict d k :
  falsy_or_lacks (PDict d) k =
  Ok (match d with
      | [] => true
      | _ :: _ => match lookup (str k) d with Some _ => false | None => true end
      end).
Proof.
  unfold falsy_or_lacks. destruct d as [|kv d]; [reflexivity|].
  cbn [truthy List.length Nat.eqb negb contains_key rbind].
  destruct (lookup (str k) (kv :: d)); reflexivity.
Qed.

(** [_process_page_data] on the body of a fetched page. *)
Lemma process_body_run d b w :
  inspectable (PDict d) = true ->
  lookup (str "body") d = Some (PDict b) ->
  _process_page_data (PDict b) w =
  (Ok tt, extend w (retained (rows_of (PDict d))) (dropped (rows_of (PDict d))) []).
Proof.
  unfold inspectable, rows_of. intros Hi Hb. rewrite Hb in *.
  destruct (lookup (str "rows") b) as [rows|] eqn:Hr.
  - destruct rows as [| | | |[|c s]|l|[|kv rd]]; try discriminate Hi.
    + unfold _process_page_data, bind, lift. rewrite falsy_or_lacks_dict.
      destruct b as [|kv b]; [discriminate Hr|]. rewrite Hr.
      unfold getitem. rewrite Hr. simpl. unfold ret.
      rewrite extend_nil. reflexivity.
    + apply process_page_data_rows. exact Hr.
    + unfold _process_page_data, bind, lift. rewrite falsy_or_lacks_dict.
      destruct b as [|kv b]; [discriminate Hr|]. rewrite Hr.
      unfold getitem. rewrite Hr. simpl. unfold ret.
      rewrite extend_nil. reflexivity.
  - unfold _process_page_data, bind, lift. rewrite falsy_or_lacks_dict.
    rewrite Hr. simpl. unfold ret. rewrite extend_nil.
    destruct b; reflexivity.
Qed.

(** One turn of the loop over the results of the tasks. *)
Lemma process_result_run v w :
  inspectable v = true ->
  process_result (Ok v) w =
  (Ok tt, extend w (retained (rows_of v)) (dropped (rows_of v)) []).
Proof.
  intros Hi. destruct v as [| | | | | |d]; try discriminate Hi.
  unfold process_result, bind, lift. rewrite falsy_or_lacks_dict.
  assert (Hnone : lookup (str "body") d = None ->
                  rows_of (PDict d) = []).
  { intros H. unfold rows_of. rewrite H. reflexivity. }
  destruct d as [|kv d'] eqn:Hd.
  - unfold ret. simpl. rewrite extend_nil. reflexivity.
  - rewrite <- Hd in *. clear Hd.
    destruct (lookup (str "body") d) as [body|] eqn:Hb.
    + unfold getitem. rewrite Hb.
      assert (exists b, body = PDict b) as [b ->].
      { unfold inspectable in Hi. rewrite Hb in Hi.
        destruct body; try discriminate Hi. eauto. }
      apply process_body_run; assumption.
    + rewrite Hnone by reflexivity. unfold ret. simpl.
      rewrite extend_nil. reflexivity.
Qed.

(** A task on its own: the request goes out, the records are held back. *)
Lemma held_back_task_run p w :
  exists ls,
    held_back (task registry p) w =
    (Ok (Ok (page_value p), ls), extend w [] [] [p]).
Proof.
  unfold held_back, task.
  destruct (fetch_page_run p (with_log w [])) as [ls [E _]]. rewrite E.
  exists ls. unfold with_log, extend. simpl. rewrite !app_nil_r. reflexivity.
Qed.

Lemma started_run pages w :
  exists held,
    map fst held = map (fun p => Ok (page_value p)) pages /\
    map_M (fun p => held_back (task registry p)) pages w =
    (Ok held, extend w [] [] pages).
Proof.
  revert w; induction pages as [|p pages IH]; intros w.
  - exists []. simpl. unfold ret. rewrite extend_nil. split; reflexivity.
  - destruct (held_back_task_run p w) as [ls E1].
    destruct (IH (extend w [] [] [p])) as [held [Hm E2]].
    exists ((Ok (page_value p), ls) :: held). cbn [map_M map fst].
    split; [rewrite Hm; reflexivity|].
    unfold bind at 1. rewrite E1. unfold bind at 1. rewrite E2. unfold ret.
    rewrite extend_extend. reflexivity.
Qed.

(** The gathered tasks request their pages in page order, give their
    results in page order, and leave the packages alone. *)
Lemma gather_run pages w :
  exists ls,
    gather registry completion pages w =
    (Ok (map (fun p => Ok (page_value p)) pages), extend w [] ls pages).
Proof.
  destruct (started_run pages w) as [held [Hm E]].
  eexists. unfold gather, bind at 1. rewrite E.
  unfold bind at 1. rewrite write_held. unfold ret.
  rewrite extend_extend, Hm, !app_nil_r. cbn [app]. reflexivity.
Qed.

Lemma results_run pages w :
  exists ls,
    for_each (map (fun p => Ok (page_value p)) pages) (process_result) w =
    (Ok tt, extend w (flat_map (page_records registry) pages) ls []).
Proof.
  revert w; induction pages as [|p pages IH]; intros w.
  - exists []. simpl. unfold ret. rewrite extend_nil. reflexivity.
  - destruct (IH (extend w (retained (rows_of (page_value p)))
                         (dropped (rows_of (page_value p))) []))
      as [ls E].
    exists (dropped (rows_of (page_value p)) ++ ls).
    cbn [for_each map flat_map]. unfold bind at 1.
    rewrite process_result_run by apply page_value_inspectable.
    rewrite E, extend_extend. reflexivity.
Qed.

Local Abbreviation fetch_all_packages := (fetch_all_packages registry completion).
Local Abbreviation page_records := (page_records registry).

Lemma page_failure_no_metadata :
  page_failure 1 -> metadata (page_value 1) = None.
Proof. intros H. rewrite (page_value_failure 1 H). reflexivity. Qed.

(** C7.  When the fetch of page 1 fails, or its body lacks the pagination
    metadata, the collection stops there: it returns no records (the empty
    list, or a [KeyError] when only [total] is missing), [self.packages]
    is as it was, and no page other than page 1 has been requested. *)
Theorem first_page_failure_aborts (w : world) :
  page_failure 1 \/
  (exists first_page w1,
     fetch_page 1 w = (Ok first_page, w1) /\ metadata first_page = None) ->
  exists r w',
    fetch_all_packages w = (r, w') /\
    (r = Ok [] \/ r = Raise KeyError) /\
    packages w' = packages w /\
    requests w' = requests w ++ [1].
Proof.
  intros H.
  assert (Hm : metadata (page_value 1) = None).
  { destruct H as [H | [v [w1 [Ev Hv]]]]; [apply page_failure_no_metadata, H|].
    destruct (fetch_page_run 1 w) as [ls [E _]]. rewrite E in Ev.
    injection Ev as <- _. exact Hv. }
  clear H.
  destruct (fetch_page_run 1 w) as [ls [E _]].
  pose proof (page_value_inspectable 1) as Hi.
  unfold Crawler.fetch_all_packages, bind at 1. rewrite E.
  destruct (page_value 1) as [| | | | | |d]; try discriminate Hi.
  unfold bind at 1, lift at 1. rewrite falsy_or_lacks_dict.
  assert (Hstop : forall r0 : log_record,
             exists r w',
               (logger r0 ;; ret (@nil Package))%crawl (extend w [] ls [1]) = (r, w') /\
               (r = Ok [] \/ r = Raise KeyError) /\
               packages w' = packages w /\ requests w' = requests w ++ [1]).
  { intros r0. unfold bind. rewrite logger_run, extend_extend.
    eexists. eexists. split; [reflexivity|]. split; [left; reflexivity|].
    simpl. rewrite app_nil_r. auto. }
  destruct d as [|kv d'] eqn:Hd; [apply Hstop|].
  rewrite <- Hd in *. clear Hd.
  unfold metadata in Hm. unfold inspectable in Hi.
  destruct (lookup (str "body") d) as [body|] eqn:Hb; [|apply Hstop].
  destruct body as [| | | | | |b]; try discriminate Hi.
  unfold bind at 1, lift at 1, getitem at 1. rewrite Hb.
  unfold bind at 1, lift at 1. rewrite falsy_or_lacks_dict.
  destruct b as [|kv0 b'] eqn:Hbd; [apply Hstop|].
  rewrite <- Hbd in *. clear Hbd.
  destruct (lookup (str "pages") b) as [pages|] eqn:Hp; [|apply Hstop].
  destruct (lookup (str "total") b) as [total|] eqn:Ht; [discriminate Hm|].
  unfold bind at 1, lift at 1, getitem at 1. rewrite Hp.
  unfold bind at 1, lift at 1, getitem at 1. rewrite Ht.
  eexists. eexists. split; [reflexivity|]. split; [right; reflexivity|].
  simpl. rewrite app_nil_r. auto.
Qed.

Lemma flat_map_length {A B} (f : A -> list B) (l : list A) :
  List.length (flat_map f l) = list_sum (map (fun a => List.length (f a)) l).
Proof.
  induction l as [|a l IH]; [reflexivity|].
  cbn [flat_map map list_sum]. rewrite length_app, IH. reflexivity.
Qed.

(** A run of the collector whose first page has the metadata. *)
Lemma fetch_all_packages_run (w : world) (n : Z) (total : pyval) :
  metadata (page_value 1) = Some (PInt n, total) ->
  exists ls,
    fetch_all_packages w =
    (Ok (packages w ++ flat_map page_records (1 :: pages_from_2 n)),
     extend w (flat_map page_records (1 :: pages_from_2 n)) ls
            (1 :: pages_from_2 n)).
Proof.
  intros Hm.
  destruct (fetch_page_run 1 w) as [ls1 [E1 _]].
  pose proof (page_value_inspectable 1) as Hi.
  unfold Crawler.fetch_all_packages, bind at 1. rewrite E1.
  cbn [flat_map].
  change (page_records 1) with (retained (rows_of (page_value 1))).
  destruct (page_value 1) as [| | | | | |d]; try discriminate Hi.
  unfold metadata in Hm.
  destruct (lookup (str "body") d) as [body|] eqn:Hb; [|discriminate Hm].
  destruct body as [| | | | | |b]; try discriminate Hm.
  destruct (lookup (str "pages") b) as [pages|] eqn:Hp; [|discriminate Hm].
  destruct (lookup (str "total") b) as [total'|] eqn:Ht; [|discriminate Hm].
  injection Hm as -> ->.
  unfold bind at 1, lift at 1. rewrite falsy_or_lacks_dict.
  destruct d as [|kv d'] eqn:Hd; [discriminate Hb|].
  rewrite <- Hd in *. clear Hd. rewrite Hb.
  unfold bind at 1, lift at 1, getitem at 1. rewrite Hb.
  unfold bind at 1, lift at 1. rewrite falsy_or_lacks_dict.
  destruct b as [|kv0 b'] eqn:Hbd; [discriminate Hp|].
  rewrite <- Hbd in *. clear Hbd. rewrite Hp.
  unfold bind at 1, lift at 1, getitem at 1. rewrite Hp.
  unfold bind at 1, lift at 1, getitem at 1. rewrite Ht.
  unfold bind at 1. rewrite (process_body_run d b _ Hi Hb).
  unfold bind at 1, lift at 1. cbn [remaining_pages].
  set (ps := pages_from_2 n).
  destruct (gather_run ps
                       (extend (extend w [] ls1 [1]) (retained (rows_of (PDict d)))
                               (dropped (rows_of (PDict d))) []))
    as [ls2 E2].
  unfold bind at 1. rewrite E2.
  destruct (results_run ps
              (extend (extend (extend w [] ls1 [1]) (retained (rows_of (PDict d)))
                              (dropped (rows_of (PDict d))) []) [] ls2 ps))
    as [ls3 E3].
  unfold bind at 1. rewrite E3. unfold get_packages.
  rewrite !extend_extend. eexists.
  cbn [packages extend]. rewrite !app_nil_r. cbn [app]. reflexivity.
Qed.

(** C2, as the code has it.  When page 1 carries the pagination metadata,
    with [n] pages, the collector requests every page from 1 to [n],
    whatever fails on the way, and returns [self.packages]: the packages
    held before, followed by those of each page in page order.  Its size
    grows by the number of dictionary rows of the fetched pages; a failed
    page contributes nothing, and a page whose rows are all dictionaries
    contributes its row count.  The failures go to the log: the value
    returned is the list of packages alone. *)
Theorem collector_merges_fetched_pages
        (w w1 : world) (first_page : pyval) (n : Z) (total : pyval) :
  fetch_page 1 w = (Ok first_page, w1) ->
  metadata first_page = Some (PInt n, total) ->
  exists w',
    fetch_all_packages w = (Ok (packages w'), w') /\
    packages w' = packages w ++ flat_map page_records (1 :: pages_from_2 n) /\
    List.length (packages w') =
    (List.length (packages w) +
     list_sum (map (fun p => List.length (page_records p))
                   (1%Z :: pages_from_2 n)))%nat /\
    requests w' = requests w ++ 1 :: pages_from_2 n /\
    (forall p w0, fst (fetch_page p w0) = Ok (page_value p)) /\
    (forall p, page_failure p -> page_records p = []) /\
    (forall p, forallb is_dict (rows_of (page_value p)) = true ->
               List.length (page_records p) = List.length (rows_of (page_value p))).
Proof.
  intros Ev Hv.
  assert (Hm : metadata (page_value 1) = Some (PInt n, total)).
  { destruct (fetch_page_run 1 w) as [ls [E _]]. rewrite E in Ev.
    injection Ev as <- _. exact Hv. }
  destruct (fetch_all_packages_run w n total Hm) as [ls E].
  exists (extend w (flat_map page_records (1 :: pages_from_2 n)) ls
                 (1 :: pages_from_2 n)).
  split; [exact E|]. cbn [packages requests extend].
  split; [reflexivity|].
  split; [|split; [reflexivity|split; [|split]]].
  - rewrite length_app, flat_map_length. reflexivity.
  - intros p w0. destruct (fetch_page_run p w0) as [ls0 [E0 _]].
    rewrite E0. reflexivity.
  - intros p Hf. unfold Crawler.page_records.
    rewrite (page_value_failure p Hf). reflexivity.
  - intros p Hall. apply retained_all_dicts, Hall.
Qed.

End Registry.



(** C7 at a registry that is down: nothing is returned, nothing is kept,
    only page 1 was asked for. *)
Lemma first_page_timeout_aborts :
  exists r w',
    fetch_all_packages registry_down in_page_order fresh = (r, w') /\
    (r = Ok [] \/ r = Raise KeyError) /\
    packages w' = packages fresh /\
    requests w' = requests fresh ++ [1].
Proof.
  apply (first_page_failure_aborts registry_down in_page_order fresh).
  left. apply transport_failure with (e := TimeoutError). reflexivity.
Defined.

(** C2 at three pages of which the second times out: the two records of
    page 1 and the record of page 3 are returned, all three pages were
    requested. *)
Lemma three_pages_second_times_out :
  exists w',
    fetch_all_packages registry_page2_times_out last_first fresh =
    (Ok (packages w'), w') /\
    List.length (packages w') = 3%nat /\
    requests w' = [1; 2; 3].
Proof.
  destruct (collector_merges_fetched_pages registry_page2_times_out last_first
              fresh _ _ 3 (PInt 5) eq_refl eq_refl)
    as [w' [E [Hp [Hl [Hr _]]]]].
  exists w'. split; [exact E|]. split; [rewrite Hl|rewrite Hr]; reflexivity.
Defined.

(** C2 as stated fails: the collector returns the package list alone.  Two
    crawls return the same value although page 2 failed in one and not in
    the other, so no list of page failures can be read off the result. *)
Lemma returned_value_has_no_failure_list :
  ~ exists failures_of : res (list Package) -> list Z,
      forall registry completion w,
        In 2 (requests (snd (fetch_all_packages registry completion w))) ->
        (In 2 (failures_of (fst (fetch_all_packages registry completion w))) <->
         page_failure registry 2).
Proof.
  intros [failures_of H].
  pose proof (H (registry_empty (Transport TimeoutError)) in_page_order fresh)
    as Ha.
  pose proof (H (registry_empty (page [(str "rows", PList [])])) in_page_order
                fresh) as Hb.
  assert (Ea : fetch_all_packages (registry_empty (Transport TimeoutError))
                                  in_page_order fresh =
               (Ok [], {| packages := [];
                          log := [ErrorFetchingPage 2 TimeoutError];
                          requests := [1; 2] |})) by reflexivity.
  assert (Eb : fetch_all_packages
                 (registry_empty (page [(str "rows", PList [])]))
                 in_page_order fresh =
               (Ok [], {| packages := []; log := []; requests := [1; 2] |}))
    by reflexivity.
  rewrite Ea in Ha. rewrite Eb in Hb. simpl in Ha, Hb.
  assert (Hin : 1 = 2 \/ 2 = 2 \/ False) by (right; left; reflexivity).
  apply Ha in Hin as Hfa. apply Hb in Hin as Hfb.
  assert (Hfail : page_failure (registry_empty (Transport TimeoutError)) 2).
  { apply transport_failure with (e := TimeoutError). reflexivity. }
  apply Hfa in Hfail. apply Hfb in Hfail.
  destruct Hfail as [e He | status loads He Hs | e He | data He Hi].
  - discriminate He.
  - injection He as <- _. apply Hs. reflexivity.
  - discriminate He.
  - injection He as <-. discriminate Hi.
Qed.

End CrawlerFacts.

(* ===================================================================== *)
(** * More on the collector: logs, requests, the snapshot *)
(* ===================================================================== *)

Module CrawlerOutputFacts.
Import Py PyFacts Crawler CrawlerFacts CrawlerOutput.
Local Open Scope string_scope.
Local Open Scope list_scope.
Local Open Scope Z_scope.

Section Registry.

Variable registry : Z -> Z -> http_outcome.
Variable completion : list Z -> list Z.

Local Abbreviation fetch_page := (fetch_page registry).
Local Abbreviation fetch_all_packages := (fetch_all_packages registry completion).
Local Abbreviation page_value := (page_value registry).
Local Abbreviation page_records := (page_records registry).
Local Abbreviation page_failure := (page_failure registry).
Local Abbreviation page_errors := (page_errors registry).
Local Abbreviation page_warnings := (page_warnings registry).
Local Abbreviation remaining := (remaining registry completion).
Local Abbreviation gathered_errors := (gathered_errors registry completion).

(** What a call of [fetch_page] does, exactly. *)
Lemma fetch_page_exact p w :
  fetch_page p w = (Ok (page_value p), extend w [] (page_errors p) [p]).
Proof.
  assert (Hone : forall r (v : pyval),
             (logger r ;; ret v)%crawl (extend w [] [] [p]) =
             (Ok v, extend w [] [r] [p])).
  { intros r v. unfold bind. rewrite logger_run, extend_extend. reflexivity. }
  unfold Crawler.fetch_page, Crawler.page_value, CrawlerOutput.page_errors,
    bind at 1.
  rewrite sent_run.
  destruct (registry p 50) as [e | status loads]; [apply Hone|].
  destruct (Z.eqb_spec status 200) as [->|Hs]; cbn [negb andb].
  - destruct loads as [data|e].
    + destruct (inspectable data) eqn:Hi.
      * rewrite (inspect_inspectable _ Hi). reflexivity.
      * destruct (inspect_not_inspectable _ Hi) as [e ->]. apply Hone.
    + destruct e; apply Hone.
  - destruct loads; apply Hone.
Qed.

Lemma page_errors_failure p : page_failure p -> exists r, page_errors p = [r].
Proof.
  unfold CrawlerOutput.page_errors.
  intros [e H | status loads H Hs | e H | data H Hi]; rewrite H.
  - eauto.
  - destruct (Z.eqb_spec status 200); [contradiction|]. simpl. eauto.
  - simpl. destruct e; eauto.
  - simpl. destruct (inspect_not_inspectable _ Hi) as [e ->]. eauto.
Qed.

Lemma page_errors_success p : ~ page_failure p -> page_errors p = [].
Proof.
  intros Hn. destruct (page_value_success registry p Hn) as [data [H [Hi _]]].
  unfold CrawlerOutput.page_errors. rewrite H. simpl.
  rewrite (inspect_inspectable _ Hi). reflexivity.
Qed.

Lemma started_exact pages w :
  map_M (fun p => held_back (task registry p)) pages w =
  (Ok (map (fun p => (Ok (page_value p), page_errors p)) pages),
   extend w [] [] pages).
Proof.
  revert w; induction pages as [|p pages IH]; intros w.
  - simpl. unfold ret. rewrite extend_nil. reflexivity.
  - cbn [map_M map]. unfold bind at 1.
    rewrite (held_back_extend (task registry p) (Ok (page_value p)) w
                              [] (page_errors p) [p])
      by (intros w0; unfold task; rewrite fetch_page_exact; reflexivity).
    unfold bind at 1. rewrite IH. unfold ret.
    rewrite extend_extend. reflexivity.
Qed.

(** What the gathered tasks do, exactly. *)
Lemma gather_exact pages w :
  gather registry completion pages w =
  (Ok (map (fun p => Ok (page_value p)) pages),
   extend w [] (gathered_errors pages) pages).
Proof.
  unfold gather, bind at 1. rewrite started_exact.
  unfold bind at 1. rewrite write_held. unfold ret.
  rewrite extend_extend, !map_map, !app_nil_r. cbn [app fst snd].
  reflexivity.
Qed.

(** The records held back for a task are the error records of its page. *)
Lemma records_of_task (f : Z -> list log_record) (pages : list Z) (p : Z) :
  In p pages -> records_of p (combine pages (map f pages)) = f p.
Proof.
  induction pages as [|q pages IH]; [intros []|].
  intros Hin. cbn [map combine records_of].
  destruct (Z.eqb_spec p q) as [->|Hne]; [reflexivity|].
  destruct Hin as [->|Hin]; [contradiction|]. apply IH, Hin.
Qed.

(** When every task completes once, the gathered records are the error
    records of the pages, in completion order. *)
Lemma gathered_errors_completed pages :
  Permutation (completion pages) pages ->
  gathered_errors pages = flat_map page_errors (completion pages).
Proof.
  intros Hp. unfold CrawlerOutput.gathered_errors.
  assert (H : forall order, (forall p, In p order -> In p pages) ->
              flat_map (fun p => records_of p
                          (combine pages (map page_errors pages))) order =
              flat_map page_errors order).
  { induction order as [|p order IH]; [reflexivity|]. intros Hin.
    cbn [flat_map]. rewrite records_of_task by (apply Hin; left; reflexivity).
    rewrite IH by (intros q Hq; apply Hin; right; exact Hq). reflexivity. }
  apply H. intros p Hin. apply (Permutation_in _ Hp), Hin.
Qed.

Lemma results_exact pages w :
  for_each (map (fun p => Ok (page_value p)) pages) process_result w =
  (Ok tt, extend w (flat_map page_records pages)
                 (flat_map page_warnings pages) []).
Proof.
  revert w; induction pages as [|p pages IH]; intros w.
  - simpl. unfold ret. rewrite extend_nil. reflexivity.
  - cbn [for_each map flat_map]. unfold bind at 1.
    rewrite process_result_run by apply page_value_inspectable.
    rewrite IH, extend_extend. reflexivity.
Qed.

Lemma fetch_all_packages_first_page w pages total :
  metadata (page_value 1) = Some (pages, total) ->
  fetch_all_packages w =
  remaining pages (extend w (page_records 1)
                          (page_errors 1 ++ page_warnings 1) [1]).
Proof.
  intros Hm. pose proof (page_value_inspectable registry 1) as Hi.
  unfold Crawler.fetch_all_packages, bind at 1. rewrite fetch_page_exact.
  unfold CrawlerOutput.page_warnings, Crawler.page_records.
  destruct (page_value 1) as [| | | | | |d]; try discriminate Hi.
  unfold metadata in Hm.
  destruct (lookup (str "body") d) as [body|] eqn:Hb; [|discriminate Hm].
  destruct body as [| | | | | |b]; try discriminate Hm.
  destruct (lookup (str "pages") b) as [pages'|] eqn:Hp; [|discriminate Hm].
  destruct (lookup (str "total") b) as [total'|] eqn:Ht; [|discriminate Hm].
  injection Hm as -> ->.
  unfold bind at 1, lift at 1. rewrite falsy_or_lacks_dict.
  destruct d as [|kv d'] eqn:Hd; [discriminate Hb|].
  rewrite <- Hd in *. clear Hd. rewrite Hb.
  unfold bind at 1, lift at 1, getitem at 1. rewrite Hb.
  unfold bind at 1, lift at 1. rewrite falsy_or_lacks_dict.
  destruct b as [|kv0 b'] eqn:Hbd; [discriminate Hp|].
  rewrite <- Hbd in *. clear Hbd. rewrite Hp.
  unfold bind at 1, lift at 1, getitem at 1. rewrite Hp.
  unfold bind at 1, lift at 1, getitem at 1. rewrite Ht.
  unfold bind at 1. rewrite (process_body_run d b _ Hi Hb).
  rewrite extend_extend, !app_nil_r. cbn [app]. reflexivity.
Qed.

Lemma remaining_integer n w :
  remaining (PInt n) w =
  (Ok (packages w ++ flat_map page_records (pages_from_2 n)),
   extend w (flat_map page_records (pages_from_2 n))
          (gathered_errors (pages_from_2 n) ++
           flat_map page_warnings (pages_from_2 n))
          (pages_from_2 n)).
Proof.
  unfold CrawlerOutput.remaining, bind at 1, lift at 1. cbn [remaining_pages].
  unfold bind at 1. rewrite gather_exact.
  unfold bind at 1. rewrite results_exact. unfold get_packages.
  rewrite extend_extend, !app_nil_r. cbn [app packages extend]. reflexivity.
Qed.

Lemma fetch_page_value p w first_page w1 :
  fetch_page p w = (Ok first_page, w1) -> first_page = page_value p.
Proof. rewrite fetch_page_exact. intros [= <- _]. reflexivity. Qed.

(** ** The page numbers *)

Lemma pages_from_2_In n p : In p (pages_from_2 n) <-> 2 <= p <= n.
Proof.
  unfold pages_from_2. rewrite in_map_iff. split.
  - intros [i [<- Hi]]. apply in_seq in Hi. lia.
  - intros H. exists (Z.to_nat (p - 2)). split; [lia|].
    apply in_seq. lia.
Qed.

Lemma pages_from_2_sorted n : StronglySorted Z.lt (pages_from_2 n).
Proof.
  unfold pages_from_2. generalize (Z.to_nat (n - 1)) as len.
  generalize 0%nat as start.
  intros start len; revert start; induction len as [|len IH]; intros start.
  - constructor.
  - cbn [seq map]. constructor; [apply IH|].
    apply Forall_forall. intros q Hq. apply in_map_iff in Hq as [i [<- Hi]].
    apply in_seq in Hi. lia.
Qed.

(** X1.  On a 200 response whose payload is inspectable, [fetch_page]
    returns the payload as it is and logs no error. *)
Theorem fetch_page_passes_payload (p : Z) (w : world) (data : pyval) :
  registry p 50 = Response 200 (Ok data) ->
  inspectable data = true ->
  fetch_page p w = (Ok data, extend w [] [] [p]).
Proof.
  intros H Hi. rewrite fetch_page_exact.
  unfold Crawler.page_value, CrawlerOutput.page_errors. rewrite H. simpl.
  rewrite Hi, (inspect_inspectable _ Hi). reflexivity.
Qed.

(** X2.  The first row of a page decides the fate of the whole page.  When
    it is not a dictionary, the log message that reads its keys raises:
    the page counts as failed and none of its rows is kept.  When it is a
    dictionary the page goes through, and rows that are not dictionaries
    are dropped one by one. *)
Theorem first_row_decides_page
        (p : Z) (w : world) (d b : list (pystr * pyval))
        (r : pyval) (rest : list pyval) :
  registry p 50 = Response 200 (Ok (PDict d)) ->
  lookup (str "body") d = Some (PDict b) ->
  lookup (str "rows") b = Some (PList (r :: rest)) ->
  (is_dict r = false ->
   fetch_page p w =
   (Ok empty_dict, extend w [] [ErrorFetchingPage p AttributeError] [p]) /\
   page_records p = []) /\
  (is_dict r = true ->
   fetch_page p w = (Ok (PDict d), extend w [] [] [p]) /\
   page_records p = retained (r :: rest)).
Proof.
  intros H Hb Hr.
  assert (Hi : inspectable (PDict d) = is_dict r).
  { unfold inspectable. rewrite Hb, Hr. destruct r; reflexivity. }
  rewrite fetch_page_exact.
  unfold Crawler.page_records, Crawler.page_value, CrawlerOutput.page_errors.
  rewrite H. cbn [Z.eqb Pos.eqb negb andb]. rewrite Hi. split; intros Hd; rewrite Hd.
  - assert (E : (_ <- inspect_structure (PDict d) ;;
                 inspect_summary (PDict d))%res = Raise AttributeError).
    { unfold inspect_structure. rewrite Hb, Hr.
      destruct r; try discriminate Hd; reflexivity. }
    rewrite E. split; reflexivity.
  - rewrite (inspect_inspectable (PDict d)) by (rewrite Hi; exact Hd).
    split; [reflexivity|]. unfold rows_of. rewrite Hb, Hr. reflexivity.
Qed.

(** X3.  A page count that is neither an integer nor a boolean makes the
    collector raise [TypeError], after the records of page 1 have been
    appended to [self.packages] and before any other page is requested. *)
Theorem page_count_not_a_number_raises
        (w w1 : world) (first_page pages total : pyval) :
  fetch_page 1 w = (Ok first_page, w1) ->
  metadata first_page = Some (pages, total) ->
  (forall n, pages <> PInt n) ->
  (forall b, pages <> PBool b) ->
  exists w',
    fetch_all_packages w = (Raise TypeError, w') /\
    packages w' = packages w ++ page_records 1 /\
    requests w' = requests w ++ [1].
Proof.
  intros Ev Hm Hint Hbool. apply fetch_page_value in Ev. subst first_page.
  rewrite (fetch_all_packages_first_page w pages total Hm).
  exists (extend w (page_records 1) (page_errors 1 ++ page_warnings 1) [1]).
  split; [|split; reflexivity].
  unfold CrawlerOutput.remaining, bind, lift.
  destruct pages; try reflexivity; [destruct (Hbool b) | destruct (Hint z)];
    reflexivity.
Qed.

(** X4.  With an integer page count [n], the collector requests page 1 and
    then each page from 2 to [n] exactly once, in increasing order, and no
    other page; with [n <= 1] it requests page 1 only. *)
Theorem every_page_requested_once
        (w w1 : world) (first_page : pyval) (n : Z) (total : pyval) :
  fetch_page 1 w = (Ok first_page, w1) ->
  metadata first_page = Some (PInt n, total) ->
  exists w' later,
    snd (fetch_all_packages w) = w' /\
    requests w' = requests w ++ 1 :: later /\
    StronglySorted Z.lt (1 :: later) /\
    (forall p, In p later <-> 2 <= p <= n) /\
    (n <= 1 -> later = []).
Proof.
  intros Ev Hm. apply fetch_page_value in Ev. subst first_page.
  rewrite (fetch_all_packages_first_page w (PInt n) total Hm), remaining_integer.
  eexists. exists (pages_from_2 n). split; [reflexivity|].
  cbn [snd requests extend]. rewrite <- app_assoc.
  split; [reflexivity|]. split; [|split].
  - constructor; [apply pages_from_2_sorted|].
    apply Forall_forall. intros q Hq. apply pages_from_2_In in Hq. lia.
  - apply pages_from_2_In.
  - intros Hn. unfold pages_from_2.
    replace (Z.to_nat (n - 1)) with 0%nat by lia. reflexivity.
Qed.

(** X5.  What a crawl adds to the log, the tasks of the pages 2 to [n]
    completing once each in some order: the error record of page 1 if it
    has one and the warnings of its rows; then one error record for each
    failed page from 2 to [n], in the order in which the tasks complete,
    which need not be page order; then, in page order, one warning per row
    that is not a dictionary.  A page that did not fail logs no error.
    Nothing else tells a failed page from a page without rows. *)
Theorem crawl_log_accounts_for_failures
        (w w1 : world) (first_page : pyval) (n : Z) (total : pyval) :
  fetch_page 1 w = (Ok first_page, w1) ->
  metadata first_page = Some (PInt n, total) ->
  Permutation (completion (pages_from_2 n)) (pages_from_2 n) ->
  log (snd (fetch_all_packages w)) =
  log w ++ page_errors 1 ++ page_warnings 1 ++
  flat_map page_errors (completion (pages_from_2 n)) ++
  flat_map page_warnings (pages_from_2 n) /\
  Permutation (flat_map page_errors (completion (pages_from_2 n)))
              (flat_map page_errors (pages_from_2 n)) /\
  (forall p, page_failure p ->
             (exists r, page_errors p = [r]) /\
             page_warnings p = [] /\ page_records p = []) /\
  (forall p, ~ page_failure p ->
             page_errors p = [] /\
             (List.length (page_records p) + List.length (page_warnings p) =
              List.length (rows_of (page_value p)))%nat).
Proof.
  intros Ev Hm Hc. apply fetch_page_value in Ev. subst first_page.
  rewrite (fetch_all_packages_first_page w (PInt n) total Hm), remaining_integer.
  rewrite (gathered_errors_completed _ Hc).
  cbn [snd log extend]. rewrite <- !app_assoc. split; [reflexivity|].
  split; [apply Permutation_flat_map, Hc|]. split.
  - intros p Hf. split; [apply page_errors_failure, Hf|].
    unfold CrawlerOutput.page_warnings, Crawler.page_records.
    rewrite (page_value_failure registry p Hf). split; reflexivity.
  - intros p Hn. split; [apply page_errors_success, Hn|].
    apply dropped_count.
Qed.

(** ** The snapshot *)

Lemma fetch_all_packages_first_page_failed w :
  page_failure 1 ->
  fetch_all_packages w =
  (Ok [], extend w [] (page_errors 1 ++ [ErrorInitialPage]) [1]).
Proof.
  intros Hf. unfold Crawler.fetch_all_packages, bind at 1.
  rewrite fetch_page_exact, (page_value_failure registry 1 Hf).
  unfold bind, lift, empty_dict. rewrite falsy_or_lacks_dict.
  rewrite logger_run, extend_extend. unfold ret. reflexivity.
Qed.

(** X7.  When the first page fails, [main] does not stop: the crawl
    returns, and the snapshot handed to [json.dump] is an empty one, with
    [total_packages] 0 and no package. *)
Theorem main_dumps_empty_snapshot_after_failure (now : pystr) :
  page_failure 1 ->
  exists w',
    main registry completion now =
    (Ok (PDict [(str "crawled_at", PStr now);
                (str "total_packages", PInt 0);
                (str "packages", PList [])]), w') /\
    packages w' = [] /\
    requests w' = [1].
Proof.
  intros Hf. unfold main, bind.
  rewrite (fetch_all_packages_first_page_failed fresh Hf).
  eexists. split; [reflexivity|]. split; reflexivity.
Qed.

(** X8.  When the first page carries an integer page count [n], [main]
    hands [json.dump] a snapshot whose [packages] are the records of the
    pages 1 to [n] in page order, a failed page adding none, and whose
    [total_packages] is their number. *)
Theorem main_dumps_all_fetched_records
        (now : pystr) (w1 : world) (first_page : pyval) (n : Z) (total : pyval) :
  fetch_page 1 fresh = (Ok first_page, w1) ->
  metadata first_page = Some (PInt n, total) ->
  exists pkgs w',
    main registry completion now =
    (Ok (PDict [(str "crawled_at", PStr now);
                (str "total_packages", PInt (Z.of_nat (List.length pkgs)));
                (str "packages", PList (map asdict pkgs))]), w') /\
    pkgs = flat_map page_records (1 :: pages_from_2 n) /\
    (forall p, page_failure p -> page_records p = []).
Proof.
  intros Ev Hm. apply fetch_page_value in Ev. subst first_page.
  unfold main, bind.
  rewrite (fetch_all_packages_first_page fresh (PInt n) total Hm),
    remaining_integer.
  eexists. eexists. split; [reflexivity|]. split; [reflexivity|].
  intros p Hf. unfold Crawler.page_records.
  rewrite (page_value_failure registry p Hf). reflexivity.
Qed.

End Registry.

(** X6.  A saved record has exactly the fourteen fields of [Package]: each
    holds the value of the raw record under that key, or the default (the
    empty string, 0 for the four numbers) when the raw record lacks the
    key; every other key of the raw record is gone. *)
Theorem saved_record_fields (d : list (pystr * pyval)) :
  exists items,
    asdict (package_of d) = PDict items /\
    Forall (fun k => lookup (str k) items = Some (field d k (PStr [])))
           text_fields /\
    Forall (fun k => lookup (str k) items = Some (field d k (PInt 0)))
           number_fields /\
    (forall key, lookup key items <> None ->
                 In key (map str (text_fields ++ number_fields))).
Proof.
  eexists. split; [reflexivity|]. split; [|split].
  - repeat constructor.
  - repeat constructor.
  - intros key.
    unfold text_fields, number_fields. cbn [app map lookup package_of
      name description org packageType latestVersion latestPublishTime
      license authorName publisherId publisherName authorPicUrl likes
      points popularity].
    repeat match goal with
           | |- context [str_eqb key ?k] =>
               let E := fresh "E" in
               destruct (str_eqb key k) eqn:E;
               [apply str_eqb_eq in E; subst key; intros _;
                cbn [In]; tauto|]
           end.
    intros H. congruence.
Qed.

(** X1 at the first page of the three-page registry. *)
Lemma fetch_page_passes_first_page :
  exists data,
    registry_page2_times_out 1 50 = Response 200 (Ok data) /\
    fetch_page registry_page2_times_out 1 fresh = (Ok data, extend fresh [] [] [1]).
Proof.
  eexists. split; [reflexivity|].
  apply fetch_page_passes_payload; reflexivity.
Defined.

(** X2 at a page whose first row is a stray string: the record after it
    is lost with the page. *)
Lemma stray_first_row_loses_the_page :
  fetch_page registry_stray_first_row 1 fresh =
  (Ok empty_dict, extend fresh [] [ErrorFetchingPage 1 AttributeError] [1]) /\
  page_records registry_stray_first_row 1 = [].
Proof.
  refine (proj1 (first_row_decides_page registry_stray_first_row 1 fresh
                   _ _ (PStr (str "oops")) [record "a"] eq_refl eq_refl eq_refl)
                eq_refl).
Defined.

(** X3 at a registry that sends the page count as a string. *)
Lemma string_page_count_raises :
  exists w',
    fetch_all_packages registry_bad_page_count in_page_order fresh =
    (Raise TypeError, w') /\
    packages w' = packages fresh ++ page_records registry_bad_page_count 1 /\
    requests w' = requests fresh ++ [1].
Proof.
  eapply (page_count_not_a_number_raises registry_bad_page_count in_page_order
                                         fresh);
    [reflexivity | reflexivity | discriminate | discriminate].
Defined.

(** X4 at the three-page registry. *)
Lemma three_pages_requested_once :
  exists w' later,
    snd (fetch_all_packages registry_page2_times_out last_first fresh) = w' /\
    requests w' = requests fresh ++ 1 :: later /\
    StronglySorted Z.lt (1 :: later) /\
    (forall p, In p later <-> 2 <= p <= 3) /\
    (3 <= 1 -> later = []).
Proof.
  eapply (every_page_requested_once registry_page2_times_out last_first fresh);
    reflexivity.
Defined.

(** X5 at three pages of which the second answers 500 and the third 404,
    the third answer coming first: the warning of page 1, then the error
    of page 3, then the error of page 2. *)
Lemma three_pages_log :
  log (snd (fetch_all_packages registry_two_failures last_first fresh)) =
  [WarningPackageData AttributeError; ErrorHttpStatus 3 404;
   ErrorHttpStatus 2 500].
Proof.
  rewrite (proj1 (crawl_log_accounts_for_failures registry_two_failures
                    last_first fresh _ _ 3 (PInt 5) eq_refl eq_refl
                    (Permutation_sym (Permutation_rev (pages_from_2 3))))).
  reflexivity.
Defined.

(** X7 at a registry that is down. *)
Lemma main_when_registry_is_down :
  exists w',
    main registry_down in_page_order (str "2025-01-01T00:00:00") =
    (Ok (PDict [(str "crawled_at", PStr (str "2025-01-01T00:00:00"));
                (str "total_packages", PInt 0);
                (str "packages", PList [])]), w') /\
    packages w' = [] /\
    requests w' = [1].
Proof.
  apply (main_dumps_empty_snapshot_after_failure registry_down in_page_order).
  apply transport_failure with (e := TimeoutError). reflexivity.
Defined.

(** X8 at the three-page registry: three records in the snapshot. *)
Lemma main_on_three_pages :
  exists pkgs w',
    main registry_page2_times_out last_first (str "2025-01-01T00:00:00") =
    (Ok (PDict [(str "crawled_at", PStr (str "2025-01-01T00:00:00"));
                (str "total_packages", PInt (Z.of_nat (List.length pkgs)));
                (str "packages", PList (map asdict pkgs))]), w') /\
    pkgs = flat_map (page_records registry_page2_times_out)
                    (1 :: pages_from_2 3) /\
    (forall p, page_failure registry_page2_times_out p ->
               page_records registry_page2_times_out p = []).
Proof.
  eapply (main_dumps_all_fetched_records registry_page2_times_out last_first);
    reflexivity.
Defined.

End CrawlerOutputFacts.

(* ===================================================================== *)
(** * More on the classifier: what it accepts, what it leaves out *)
(* ===================================================================== *)

Module AnalyzerInputFacts.
Import Py PyFacts Analyzer AnalyzerFacts AnalyzerInput.
Local Open Scope string_scope.
Local Open Scope list_scope.

Lemma get_item d k dflt : get (PDict d) k dflt = Ok (item d k dflt).
Proof. unfold get, item. destruct (lookup (str k) d); reflexivity. Qed.

Section Unicode.

Variable unicode_alnum : N -> bool.
Variable unicode_lower : pystr -> pystr.

Local Abbreviation is_word := (is_word unicode_alnum).
Local Abbreviation search_word := (search_word unicode_alnum).
Local Abbreviation keyword_points := (keyword_points unicode_alnum).
Local Abbreviation category_score := (category_score unicode_alnum).
Local Abbreviation best_of := (best_of unicode_alnum).
Local Abbreviation lower := (lower unicode_lower).
Local Abbreviation lower_method := (lower_method unicode_lower).
Local Abbreviation keyword_parts := (keyword_parts unicode_lower).
Local Abbreviation _extract_text_features := (_extract_text_features unicode_lower).
Local Abbreviation categorize_one := (categorize_one unicode_alnum unicode_lower).
Local Abbreviation categorize_loop := (categorize_loop unicode_alnum unicode_lower).
Local Abbreviation categorize_packages := (categorize_packages unicode_alnum unicode_lower).

(** ** Extraction *)

Lemma lower_method_str v :
  is_str v = true -> exists s, v = PStr s /\ lower_method v = Ok (lower s).
Proof. destruct v; try discriminate. intros _. eauto. Qed.

Lemma lower_method_other v :
  is_str v = false -> lower_method v = Raise AttributeError.
Proof. destruct v; try reflexivity. discriminate. Qed.

Lemma rmap_lower_all ks :
  forallb is_str ks = true -> exists parts, rmap lower_method ks = Ok parts.
Proof.
  induction ks as [|k ks IH]; simpl; [eauto|].
  rewrite andb_true_iff. intros [Hk Hks].
  destruct (lower_method_str k Hk) as [s [-> _]].
  destruct (IH Hks) as [parts ->]. simpl. eauto.
Qed.

Lemma rmap_lower_some ks :
  forallb is_str ks = false -> rmap lower_method ks = Raise AttributeError.
Proof.
  induction ks as [|k ks IH]; simpl; [discriminate|].
  destruct (is_str k) eqn:Hk; simpl.
  - intros Hks. destruct (lower_method_str k Hk) as [s [-> _]].
    simpl. rewrite (IH Hks). reflexivity.
  - intros _. rewrite (lower_method_other k Hk). reflexivity.
Qed.

(** [_extract_text_features] on a dictionary, step by step. *)
Lemma extract_dict d :
  _extract_text_features (PDict d) =
  (name <- lower_method (item d "name" (PStr [])) ;;
   description <- lower_method (item d "description" (PStr [])) ;;
   rest <- keyword_parts (item d "keywords" (PList [])) ;;
   Ok (join (str " ") (sub_org_prefix name :: description :: rest)))%res.
Proof.
  unfold Analyzer._extract_text_features, get, item.
  destruct (lookup (str "name") d); cbn [rbind];
    (destruct (lower_method _); cbn [rbind]; [|reflexivity]);
    (destruct (lookup (str "description") d); cbn [rbind];
     (destruct (lower_method _); cbn [rbind]; [|reflexivity]);
     destruct (lookup (str "keywords") d); reflexivity).
Qed.

Lemma keyword_parts_cases kws :
  match kws with
  | PList ks => forallb is_str ks
  | _ => true
  end = true ->
  exists parts, keyword_parts kws = Ok parts.
Proof.
  unfold Analyzer.keyword_parts.
  destruct kws as [| | | |s|ks|kd]; try (intros _; eexists; reflexivity).
  - intros _. destruct s; eexists; reflexivity.
  - apply rmap_lower_all.
Qed.

Lemma extract_extractable package :
  extractable package = true ->
  exists text, _extract_text_features package = Ok text.
Proof.
  destruct package as [| | | | | |d]; try discriminate.
  unfold extractable. rewrite !andb_true_iff, extract_dict.
  intros [[Hn Hd] Hk].
  destruct (lower_method_str _ Hn) as [n [_ ->]].
  destruct (lower_method_str _ Hd) as [desc [_ ->]].
  destruct (keyword_parts_cases _ Hk) as [parts ->].
  cbn [rbind]. eauto.
Qed.

Lemma extract_not_extractable package :
  extractable package = false ->
  _extract_text_features package = Raise AttributeError.
Proof.
  destruct package as [| | | | | |d]; try reflexivity.
  unfold extractable. rewrite extract_dict.
  destruct (is_str (item d "name" (PStr []))) eqn:Hn;
    [|intros _; rewrite (lower_method_other _ Hn); reflexivity].
  destruct (lower_method_str _ Hn) as [n [_ ->]]. cbn [rbind].
  destruct (is_str (item d "description" (PStr []))) eqn:Hd;
    [|intros _; rewrite (lower_method_other _ Hd); reflexivity].
  destruct (lower_method_str _ Hd) as [desc [_ ->]]. cbn [rbind andb].
  unfold Analyzer.keyword_parts.
  destruct (item d "keywords" (PList [])) as [| | | |s|ks|kd];
    try discriminate.
  intros Hk. rewrite (rmap_lower_some ks Hk). reflexivity.
Qed.

(** X9.  Text extraction fails in one way only, with [AttributeError], and
    exactly on the packages that are not extractable: those that are not
    dictionaries, whose name or description is present and not a string,
    or whose keyword list holds something that is not a string. *)
Theorem extraction_fails_only_on_malformed_packages (package : pyval) :
  (extractable package = true <->
   exists text, _extract_text_features package = Ok text) /\
  (extractable package = false <->
   _extract_text_features package = Raise AttributeError).
Proof.
  split; split.
  - apply extract_extractable.
  - intros [text E]. destruct (extractable package) eqn:Hx; [reflexivity|].
    rewrite (extract_not_extractable package Hx) in E. discriminate E.
  - apply extract_not_extractable.
  - intros E. destruct (extractable package) eqn:Hx; [|reflexivity].
    destruct (extract_extractable package Hx) as [text E'].
    rewrite E in E'. discriminate E'.
Qed.

(** ** One malformed package stops the categorization *)

Lemma categorize_one_extractable (cats : catalog) uncategorized n package :
  extractable package = true ->
  exists st', categorize_one (cats, uncategorized, n) package = Ok st'.
Proof.
  intros Hx. destruct (extract_extractable package Hx) as [text Ht].
  destruct (categorize_one_exclusive unicode_alnum unicode_lower
              cats uncategorized n package text Ht)
    as [[pre [cid [c [post [_ E]]]]] | E]; eauto.
Qed.

Lemma categorize_loop_raises pkgs :
  forallb extractable pkgs = false ->
  forall st, categorize_loop pkgs st = Raise AttributeError.
Proof.
  induction pkgs as [|package pkgs IH]; [discriminate|].
  change (forallb extractable (package :: pkgs))
    with (extractable package && forallb extractable pkgs).
  intros H [[cats unc] n]. cbn [Analyzer.categorize_loop].
  destruct (extractable package) eqn:Hx.
  - destruct (categorize_one_extractable cats unc n package Hx) as [st' ->].
    cbn [rbind]. apply IH. exact H.
  - unfold Analyzer.categorize_one.
    rewrite (extract_not_extractable package Hx). reflexivity.
Qed.

Lemma categorize_loop_completes pkgs :
  forallb extractable pkgs = true ->
  forall st, exists st', categorize_loop pkgs st = Ok st'.
Proof.
  induction pkgs as [|package pkgs IH];
    [intros _ st; exists st; reflexivity|].
  change (forallb extractable (package :: pkgs))
    with (extractable package && forallb extractable pkgs).
  rewrite andb_true_iff. intros [Hx H] [[cats unc] n].
  cbn [Analyzer.categorize_loop].
  destruct (categorize_one_extractable cats unc n package Hx) as [st' ->].
  cbn [rbind]. apply IH. exact H.
Qed.

(** X10.  [categorize_packages] raises [AttributeError] exactly when some
    package of the list is not extractable, wherever it stands in the
    list: one malformed package stops the categorization of all of them.
    Otherwise it completes. *)
Theorem one_malformed_package_stops_categorization (pkgs : list pyval) :
  (forallb extractable pkgs = false <->
   categorize_packages (loaded pkgs) = Raise AttributeError) /\
  (forallb extractable pkgs = true <->
   exists r, categorize_packages (loaded pkgs) = Ok r).
Proof.
  assert (Hbad : forallb extractable pkgs = false ->
                 categorize_packages (loaded pkgs) = Raise AttributeError).
  { intros H. unfold Analyzer.categorize_packages. cbn [self_packages loaded].
    rewrite (categorize_loop_raises pkgs H). reflexivity. }
  assert (Hgood : forallb extractable pkgs = true ->
                  exists r, categorize_packages (loaded pkgs) = Ok r).
  { intros H. unfold Analyzer.categorize_packages. cbn [self_packages loaded].
    destruct (categorize_loop_completes pkgs H
                (self_categories (loaded pkgs),
                 self_uncategorized (loaded pkgs), 0))
      as [[[cats unc] n] ->].
    cbn [rbind]. eauto. }
  split; split; auto.
  - intros E. destruct (forallb extractable pkgs); [|reflexivity].
    destruct (Hgood eq_refl) as [r E']. rewrite E in E'. discriminate E'.
  - intros [r E]. destruct (forallb extractable pkgs); [reflexivity|].
    rewrite (Hbad eq_refl) in E. discriminate E.
Qed.

(** ** Which packages stay uncategorized *)

Lemma search_word_contains k text :
  search_word k text = true -> contains k text = true.
Proof.
  unfold Py.search_word. rewrite search_word_from_spec, contains_spec.
  intros [pre [post [E _]]]. exists pre, post. exact E.
Qed.

Lemma keyword_points_zero text k :
  keyword_points text k = 0 <-> ~ spec_occurs k text.
Proof.
  unfold Analyzer.keyword_points. rewrite <- contains_spec.
  pose proof (search_word_contains k text) as H.
  destruct (search_word k text).
  - rewrite (H eq_refl). split; [discriminate | intros C; destruct C; reflexivity].
  - destruct (contains k text).
    + split; [discriminate | intros C; destruct C; reflexivity].
    + split; [intros _; discriminate | reflexivity].
Qed.

Lemma list_sum_zero (l : list nat) :
  list_sum l = 0 <-> Forall (fun x => x = 0) l.
Proof.
  induction l as [|x l IH]; simpl.
  - split; [constructor | reflexivity].
  - split.
    + intros H. constructor; [lia|]. apply IH. lia.
    + intros H. inversion H; subst. apply IH in H3. lia.
Qed.

Lemma category_score_zero text c :
  category_score text c = 0 <->
  forall k, In k (keywords c) -> ~ spec_occurs k text.
Proof.
  rewrite category_score_sum, list_sum_zero, Forall_map, Forall_forall.
  split; intros H k Hk; apply keyword_points_zero, H, Hk.
Qed.

Lemma list_max_zero (l : list nat) :
  list_max l = 0 <-> Forall (fun x => x = 0) l.
Proof.
  rewrite <- Nat.le_0_r, list_max_le. split; apply Forall_impl; intros; lia.
Qed.

(** X11.  A package ends up uncategorized exactly when no keyword of any
    category occurs in its text blob, not even inside a longer word. *)
Theorem uncategorized_iff_no_keyword_occurs
        (cats : catalog) (package : pyval) (text : pystr)
        (uncategorized : list pyval) (n : nat) :
  _extract_text_features package = Ok text ->
  (categorize_one (cats, uncategorized, n) package =
   Ok (cats, uncategorized ++ [package], n) <->
   forall cid c k, In (cid, c) cats -> In k (keywords c) ->
                   ~ spec_occurs k text).
Proof.
  intros Ht.
  assert (Hzero : snd (best_of text cats) = 0 <->
                  forall cid c k, In (cid, c) cats -> In k (keywords c) ->
                                  ~ spec_occurs k text).
  { rewrite best_of_score, list_max_zero, Forall_map, Forall_forall. split.
    - intros H cid c k Hc. apply category_score_zero. exact (H (cid, c) Hc).
    - intros H [cid c] Hc. apply category_score_zero. intros k. apply (H cid c k Hc). }
  rewrite <- Hzero. unfold Analyzer.categorize_one. rewrite Ht. cbn [rbind].
  destruct (best_of text cats) as [b sc]. cbn [snd].
  destruct (Nat.leb_spec 1 sc) as [Hpos|Hlt].
  - split; [|lia]. destruct b as [cid|]; [|discriminate].
    destruct (append_to cid package cats); [|discriminate].
    cbn [rbind]. intros [= _ _ Hn]. lia.
  - split; [lia | reflexivity].
Qed.

End Unicode.

(** X11 at the package of the logging scenario and a catalog of one
    category that has no keyword for it. *)
Lemma hilog_uncategorized_without_a_matching_keyword :
  categorize_one ascii_only_alnum ascii_only_lower
    ([("testing", CategoryInfo_init "" "" "" ["test"; "mock"])], [], 0)
    hilog_package =
  Ok ([("testing", CategoryInfo_init "" "" "" ["test"; "mock"])],
      [] ++ [hilog_package], 0) <->
  forall cid c k,
    In (cid, c) [("testing", CategoryInfo_init "" "" "" ["test"; "mock"])] ->
    In k (keywords c) ->
    ~ spec_occurs k (str "hilog logging utility for apps").
Proof.
  apply (uncategorized_iff_no_keyword_occurs ascii_only_alnum ascii_only_lower).
  reflexivity.
Defined.

End AnalyzerInputFacts.

(* ===================================================================== *)
(** * From the crawler's snapshot to the classifier *)
(* ===================================================================== *)

Module PipelineFacts.
Import Py PyFacts.
Local Open Scope string_scope.
Local Open Scope list_scope.

Section Unicode.

Variable unicode_alnum : N -> bool.
Variable unicode_lower : pystr -> pystr.

Local Abbreviation lower := (lower unicode_lower).
Local Abbreviation _extract_text_features :=
  (Analyzer._extract_text_features unicode_lower).
Local Abbreviation categorize_loop :=
  (Analyzer.categorize_loop unicode_alnum unicode_lower).
Local Abbreviation categorize_packages :=
  (Analyzer.categorize_packages unicode_alnum unicode_lower).

(** X12.  The text blob of a package the crawler saved is its lowercased
    name without the organization prefix, one space, and its lowercased
    description: a saved record has no keywords, whatever the raw record
    had, and the space is there even when the description is empty. *)
Theorem crawled_package_blob (d : list (pystr * pyval)) (n desc : pystr) :
  Crawler.field d "name" (PStr []) = PStr n ->
  Crawler.field d "description" (PStr []) = PStr desc ->
  _extract_text_features (CrawlerOutput.asdict (Crawler.package_of d)) =
  Ok (sub_org_prefix (lower n) ++ str " " ++ lower desc).
Proof.
  intros Hn Hd. unfold CrawlerOutput.asdict.
  rewrite AnalyzerInputFacts.extract_dict.
  unfold AnalyzerInput.item.
  cbn [lookup str_eqb N.eqb Pos.eqb andb str map list_ascii_of_string
       N_of_ascii N_of_digits N.add N.mul Pos.add Pos.mul Pos.succ
       Crawler.package_of Crawler.name Crawler.description].
  rewrite Hn, Hd. reflexivity.
Qed.

Lemma saved_package_extractable (p : Crawler.Package) :
  AnalyzerInput.extractable (CrawlerOutput.asdict p) =
  AnalyzerInput.is_str (Crawler.name p) &&
  AnalyzerInput.is_str (Crawler.description p).
Proof.
  unfold AnalyzerInput.extractable, CrawlerOutput.asdict, AnalyzerInput.item.
  cbn [lookup str_eqb N.eqb Pos.eqb andb str map list_ascii_of_string
       N_of_ascii N_of_digits N.add N.mul Pos.add Pos.mul Pos.succ forallb].
  apply andb_true_r.
Qed.

Lemma categorize_packages_counts (pkgs : list pyval) :
  forallb AnalyzerInput.extractable pkgs = true ->
  exists self' count,
    categorize_packages (Analyzer.loaded pkgs) = Ok (self', count) /\
    count + List.length (Analyzer.self_uncategorized self') = List.length pkgs.
Proof.
  intros Hx.
  assert (Hp : Forall (fun p => exists text, _extract_text_features p = Ok text)
                      pkgs).
  { apply Forall_forall. intros p Hin.
    apply AnalyzerInputFacts.extract_extractable.
    rewrite forallb_forall in Hx. apply Hx, Hin. }
  destruct (AnalyzerFacts.categorize_loop_partitions
              unicode_alnum unicode_lower pkgs Hp
              Analyzer._define_categories [] 0)
    as [cats' [unc' [n' [Hr [Hperm [Hn Hk]]]]]].
  unfold Analyzer.categorize_packages. cbn [Analyzer.self_packages
    Analyzer.self_categories Analyzer.self_uncategorized Analyzer.loaded].
  rewrite Hr. cbn [rbind]. eexists. eexists. split; [reflexivity|].
  cbn [Analyzer.self_uncategorized].
  assert (E0 : Analyzer.categorized Analyzer._define_categories = [])
    by reflexivity.
  rewrite E0 in Hperm, Hn. simpl in Hperm, Hn.
  apply Permutation_length in Hperm. rewrite length_app in Hperm. lia.
Qed.

(** X13.  The analyzer reads back what the crawler dumped: [load_packages]
    on the snapshot gives one record per crawled package, in order; and
    when every crawled package has a string for its name and for its
    description, [categorize_packages] completes on them and accounts for
    each one. *)
Theorem analyzer_accepts_crawler_snapshot
        (now : pystr) (w : Crawler.world) (snapshot : pyval) :
  fst (CrawlerOutput.save_to_json now w) = Ok snapshot ->
  forallb (fun p => AnalyzerInput.is_str (Crawler.name p) &&
                    AnalyzerInput.is_str (Crawler.description p))
          (Crawler.packages w) = true ->
  exists pkgs self' count,
    AnalyzerInput.load_packages snapshot = Ok (PList pkgs) /\
    pkgs = map CrawlerOutput.asdict (Crawler.packages w) /\
    categorize_packages (Analyzer.loaded pkgs) = Ok (self', count) /\
    count + List.length (Analyzer.self_uncategorized self') =
    List.length (Crawler.packages w).
Proof.
  intros Es Hw. injection Es as <-.
  assert (Hx : forallb AnalyzerInput.extractable
                       (map CrawlerOutput.asdict (Crawler.packages w)) = true).
  { rewrite forallb_forall in *. intros p Hin.
    apply in_map_iff in Hin as [q [<- Hq]].
    rewrite saved_package_extractable. apply Hw, Hq. }
  destruct (categorize_packages_counts _ Hx) as [self' [count [E Hc]]].
  exists (map CrawlerOutput.asdict (Crawler.packages w)), self', count.
  split; [reflexivity|]. split; [reflexivity|]. split; [exact E|].
  rewrite length_map in Hc. exact Hc.
Qed.

End Unicode.

(** X12 at a raw record with an upper-case name, no description and a
    keyword list. *)
Lemma crawled_blob_ignores_keywords :
  Analyzer._extract_text_features ascii_only_lower
    (CrawlerOutput.asdict
       (Crawler.package_of
          [(str "name", PStr (str "@Ohos/Axios"));
           (str "keywords", PList [PStr (str "http")])])) =
  Ok (sub_org_prefix (lower ascii_only_lower (str "@Ohos/Axios")) ++
      str " " ++ lower ascii_only_lower []).
Proof.
  apply (crawled_package_blob ascii_only_lower); reflexivity.
Defined.

(** X13 at a crawler holding one package. *)
Lemma analyzer_on_one_saved_package :
  exists pkgs self' count,
    AnalyzerInput.load_packages
      (PDict [(str "crawled_at", PStr (str "t"));
              (str "total_packages", PInt 1);
              (str "packages",
               PList [CrawlerOutput.asdict
                        (Crawler.package_of [(str "name", PStr (str "hilog"))])])]) =
    Ok (PList pkgs) /\
    pkgs = map CrawlerOutput.asdict
               [Crawler.package_of [(str "name", PStr (str "hilog"))]] /\
    Analyzer.categorize_packages ascii_only_alnum ascii_only_lower
      (Analyzer.loaded pkgs) = Ok (self', count) /\
    count + List.length (Analyzer.self_uncategorized self') = 1.
Proof.
  apply (analyzer_accepts_crawler_snapshot ascii_only_alnum ascii_only_lower
           (str "t")
           {| Crawler.packages :=
                [Crawler.package_of [(str "name", PStr (str "hilog"))]];
              Crawler.log := []; Crawler.requests := [] |});
    reflexivity.
Defined.

End PipelineFacts.

(* ===================================================================== *)
(** * Sorting and slicing *)
(* ===================================================================== *)

Module BuiltinsFacts.
Import Py Builtins.
Local Open Scope list_scope.
Local Open Scope Z_scope.

Section Sorting.

Context {A : Type}.

Local Abbreviation desc := (fun a b : Z * A => fst b <= fst a).

Lemma insert_desc_perm (x : Z * A) l : Permutation (insert_desc x l) (x :: l).
Proof.
  induction l as [|y l IH]; simpl; [reflexivity|].
  destruct (fst x <? fst y); [|reflexivity].
  rewrite IH. apply perm_swap.
Qed.

Lemma sort_desc_perm (l : list (Z * A)) : Permutation (sort_desc l) l.
Proof.
  induction l as [|x l IH]; simpl; [reflexivity|].
  rewrite insert_desc_perm, IH. reflexivity.
Qed.

Lemma insert_desc_sorted (x : Z * A) l :
  StronglySorted desc l -> StronglySorted desc (insert_desc x l).
Proof.
  induction 1 as [|y l Hl IH Hy]; simpl.
  - constructor; constructor.
  - destruct (Z.ltb_spec (fst x) (fst y)).
    + constructor; [exact IH|].
      rewrite insert_desc_perm. constructor; [simpl; lia | exact Hy].
    + constructor; [constructor; assumption|].
      constructor; [simpl; lia|].
      eapply Forall_impl; [|exact Hy]. simpl. intros; lia.
Qed.

Lemma sort_desc_sorted (l : list (Z * A)) : StronglySorted desc (sort_desc l).
Proof.
  induction l as [|x l IH]; simpl; [constructor|].
  apply insert_desc_sorted, IH.
Qed.

Lemma insert_desc_stable (x : Z * A) l k :
  filter (fun y => fst y =? k) (insert_desc x l) =
  filter (fun y => fst y =? k) (x :: l).
Proof.
  induction l as [|y l IH]; [reflexivity|].
  cbn [insert_desc]. destruct (Z.ltb_spec (fst x) (fst y)); [|reflexivity].
  cbn [filter] in *. rewrite IH.
  destruct (Z.eqb_spec (fst x) k), (Z.eqb_spec (fst y) k); try reflexivity.
  lia.
Qed.

Lemma sort_desc_stable (l : list (Z * A)) k :
  filter (fun y => fst y =? k) (sort_desc l) = filter (fun y => fst y =? k) l.
Proof.
  induction l as [|x l IH]; [reflexivity|].
  cbn [sort_desc fold_right]. fold (sort_desc l).
  rewrite insert_desc_stable. cbn [filter]. rewrite IH. reflexivity.
Qed.

Variable f : A -> Z.

Lemma keyed_fst (l : list A) (y : Z * A) :
  In y (map (fun a => (f a, a)) l) -> fst y = f (snd y).
Proof. rewrite in_map_iff. intros [a [<- _]]. reflexivity. Qed.

Lemma sort_by_perm (l : list A) : Permutation (sort_by f l) l.
Proof.
  unfold sort_by. rewrite sort_desc_perm, map_map. simpl.
  rewrite map_id. reflexivity.
Qed.

Lemma sort_by_sorted (l : list A) :
  StronglySorted (fun a b => f b <= f a) (sort_by f l).
Proof.
  unfold sort_by.
  assert (Hk : Forall (fun y => fst y = f (snd y))
                      (sort_desc (map (fun a => (f a, a)) l))).
  { apply Forall_forall. intros y Hy. apply (keyed_fst l).
    eapply Permutation_in; [apply sort_desc_perm | exact Hy]. }
  pose proof (sort_desc_sorted (map (fun a => (f a, a)) l)) as Hs.
  induction Hs as [|y ys Hys IH Hy]; simpl; [constructor|].
  inversion Hk as [|? ? Ey Hk']; subst.
  constructor; [apply IH, Hk'|].
  apply Forall_map. rewrite Forall_forall in *. intros z Hz.
  specialize (Hy z Hz). specialize (Hk' z Hz). simpl in Hy. lia.
Qed.

Lemma filter_keyed (l : list (Z * A)) k :
  Forall (fun y => fst y = f (snd y)) l ->
  filter (fun a => f a =? k) (map snd l) =
  map snd (filter (fun y => fst y =? k) l).
Proof.
  induction 1 as [|y l Hy _ IH]; [reflexivity|].
  cbn [map filter]. rewrite IH, Hy. destruct (f (snd y) =? k); reflexivity.
Qed.

Lemma sort_by_stable (l : list A) k :
  filter (fun a => f a =? k) (sort_by f l) = filter (fun a => f a =? k) l.
Proof.
  unfold sort_by. rewrite filter_keyed, sort_desc_stable.
  - rewrite <- filter_keyed.
    + rewrite map_map. simpl. rewrite map_id. reflexivity.
    + apply Forall_forall. intros y. apply keyed_fst.
  - apply Forall_forall. intros y Hy. apply (keyed_fst l).
    eapply Permutation_in; [apply sort_desc_perm | exact Hy].
Qed.

End Sorting.

(** ** Slices *)

Lemma slice_to_prefix {A} (limit : Z) (l : list A) :
  exists rest, l = slice_to limit l ++ rest.
Proof.
  unfold slice_to. destruct (0 <=? limit).
  - exists (skipn (Z.to_nat limit) l). symmetry. apply firstn_skipn.
  - exists (skipn (List.length l - Z.to_nat (- limit)) l). symmetry.
    apply firstn_skipn.
Qed.

Lemma slice_to_length {A} (limit : Z) (l : list A) :
  Z.of_nat (List.length (slice_to limit l)) =
  if 0 <=? limit then Z.min limit (Z.of_nat (List.length l))
  else Z.max 0 (Z.of_nat (List.length l) + limit).
Proof.
  unfold slice_to. destruct (Z.leb_spec 0 limit); rewrite length_firstn; lia.
Qed.

(** ** Keys *)

Lemma rmap_ok {X Y} (key : X -> res Y) (g : X -> Y) (l : list X) :
  Forall (fun x => key x = Ok (g x)) l -> rmap key l = Ok (map g l).
Proof.
  induction 1 as [|x l Hx _ IH]; [reflexivity|].
  simpl. rewrite Hx, IH. reflexivity.
Qed.

Lemma int_values_map (g : pyval -> pyval) (f : pyval -> Z) (l : list pyval) :
  Forall (fun x => int_value (g x) = Some (f x)) l ->
  int_values (map g l) = Some (map f l).
Proof.
  induction 1 as [|x l Hx _ IH]; [reflexivity|].
  simpl. rewrite Hx, IH. reflexivity.
Qed.

Lemma combine_keyed {X} (f : X -> Z) (l : list X) :
  combine (map f l) l = map (fun a => (f a, a)) l.
Proof. induction l as [|a l IH]; simpl; [|rewrite IH]; reflexivity. Qed.

(** With integer keys, [sorted(..., reverse=True)] is the stable sort by
    decreasing key. *)
Lemma sorted_reverse_integers sorted_other key (f : pyval -> Z) items :
  Forall (fun p => exists v, key p = Ok v /\ int_value v = Some (f p)) items ->
  sorted_reverse sorted_other key items = Ok (sort_by f items).
Proof.
  intros H.
  assert (Hg : exists g, Forall (fun p => key p = Ok (g p) /\
                                          int_value (g p) = Some (f p)) items).
  { exists (fun p => match key p with Ok v => v | Raise _ => PNone end).
    eapply Forall_impl; [|exact H]. simpl. intros p [v [-> Hv]]. auto. }
  destruct Hg as [g Hg]. unfold sorted_reverse.
  rewrite (rmap_ok key g) by (eapply Forall_impl; [|exact Hg]; simpl; tauto).
  cbn [rbind].
  rewrite (int_values_map g f) by (eapply Forall_impl; [|exact Hg]; simpl; tauto).
  rewrite combine_keyed. reflexivity.
Qed.

End BuiltinsFacts.

(* ===================================================================== *)
(** * Rankings *)
(* ===================================================================== *)

Module AnalyzerReportsFacts.
Import Py Builtins BuiltinsFacts Analyzer AnalyzerReports.
Local Open Scope string_scope.
Local Open Scope list_scope.
Local Open Scope Z_scope.

Lemma has_int_key k p :
  has_int k p = true ->
  exists v, get p k (PInt 0) = Ok v /\ int_value v = Some (int_of k p).
Proof.
  unfold has_int, int_of, int_field.
  destruct (get p k (PInt 0)) as [v|e]; cbn beta iota; [|discriminate].
  destruct (int_value v) as [z|] eqn:E; [|discriminate]. intros _. eauto.
Qed.

Section Interpreter.

Variable sorted_other : list (pyval * pyval) -> res (list pyval).

(** The first [limit] items of a ranking by decreasing [f]. *)
Lemma ranking (f : pyval -> Z) (packages : list pyval) (limit : Z) :
  exists rest,
    Permutation (slice_to limit (sort_by f packages) ++ rest) packages /\
    StronglySorted (fun a b => f b <= f a)
                   (slice_to limit (sort_by f packages) ++ rest) /\
    (forall z, filter (fun p => f p =? z)
                      (slice_to limit (sort_by f packages) ++ rest) =
               filter (fun p => f p =? z) packages) /\
    Z.of_nat (List.length (slice_to limit (sort_by f packages))) =
    (if 0 <=? limit then Z.min limit (Z.of_nat (List.length packages))
     else Z.max 0 (Z.of_nat (List.length packages) + limit)).
Proof.
  destruct (slice_to_prefix limit (sort_by f packages)) as [rest E].
  exists rest. rewrite <- E.
  split; [apply sort_by_perm|]. split; [apply sort_by_sorted|].
  split; [apply sort_by_stable|].
  rewrite slice_to_length, (Permutation_length (sort_by_perm _ packages)).
  reflexivity.
Qed.

Lemma keys_are_integers k (packages : list pyval) :
  forallb (has_int k) packages = true ->
  Forall (fun p => exists v, get p k (PInt 0) = Ok v /\
                             int_value v = Some (int_of k p)) packages.
Proof.
  intros H. apply Forall_forall. intros p Hp. apply has_int_key.
  rewrite forallb_forall in H. apply H, Hp.
Qed.

(** X14.  When every package has an integer popularity (or none),
    [analyze_popular_packages(limit)] returns the first [limit] packages
    of the ranking of [self.packages] by decreasing popularity, packages
    of equal popularity keeping the order they have in [self.packages].
    A negative [limit] does not return everything: it cuts that many
    packages off the end of the ranking. *)
Theorem popular_packages_ranking (self : PackageAnalyzer) (limit : Z) :
  forallb (has_int "popularity") (self_packages self) = true ->
  exists top rest,
    analyze_popular_packages sorted_other self limit = Ok top /\
    Permutation (top ++ rest) (self_packages self) /\
    StronglySorted (fun a b => int_of "popularity" b <= int_of "popularity" a)
                   (top ++ rest) /\
    (forall z, filter (fun p => int_of "popularity" p =? z) (top ++ rest) =
               filter (fun p => int_of "popularity" p =? z) (self_packages self)) /\
    Z.of_nat (List.length top) =
    (if 0 <=? limit
     then Z.min limit (Z.of_nat (List.length (self_packages self)))
     else Z.max 0 (Z.of_nat (List.length (self_packages self)) + limit)).
Proof.
  intros H. unfold analyze_popular_packages, by_popularity.
  rewrite (sorted_reverse_integers sorted_other _ (int_of "popularity"))
    by (apply keys_are_integers, H).
  cbn [rbind].
  destruct (ranking (int_of "popularity") (self_packages self) limit)
    as [rest Hr].
  exists (slice_to limit (sort_by (int_of "popularity") (self_packages self))).
  exists rest. split; [reflexivity | exact Hr].
Qed.

(** X15.  The same for [analyze_recent_packages(limit)] and the publish
    time: the first [limit] packages by decreasing [latestPublishTime],
    ties in the order of [self.packages]; a package without a publish
    time counts as time 0. *)
Theorem recent_packages_ranking (self : PackageAnalyzer) (limit : Z) :
  forallb (has_int "latestPublishTime") (self_packages self) = true ->
  exists top rest,
    analyze_recent_packages sorted_other self limit = Ok top /\
    Permutation (top ++ rest) (self_packages self) /\
    StronglySorted
      (fun a b => int_of "latestPublishTime" b <= int_of "latestPublishTime" a)
      (top ++ rest) /\
    (forall z, filter (fun p => int_of "latestPublishTime" p =? z) (top ++ rest) =
               filter (fun p => int_of "latestPublishTime" p =? z)
                      (self_packages self)) /\
    Z.of_nat (List.length top) =
    (if 0 <=? limit
     then Z.min limit (Z.of_nat (List.length (self_packages self)))
     else Z.max 0 (Z.of_nat (List.length (self_packages self)) + limit)).
Proof.
  intros H. unfold analyze_recent_packages, by_publish_time.
  rewrite (sorted_reverse_integers sorted_other _ (int_of "latestPublishTime"))
    by (apply keys_are_integers, H).
  cbn [rbind].
  destruct (ranking (int_of "latestPublishTime") (self_packages self) limit)
    as [rest Hr].
  exists (slice_to limit
            (sort_by (int_of "latestPublishTime") (self_packages self))).
  exists rest. split; [reflexivity | exact Hr].
Qed.

End Interpreter.

(** X14 at three packages of popularity 5, 9 and 5: the top two are the
    one with 9 and the first of the two with 5. *)
Lemma popular_two_of_three :
  analyze_popular_packages sorted_unordered (loaded three_ranked) 2 =
  Ok [ranked_package "b" 9; ranked_package "a" 5] /\
  exists top rest,
    analyze_popular_packages sorted_unordered (loaded three_ranked) 2 = Ok top /\
    Permutation (top ++ rest) three_ranked.
Proof.
  split; [reflexivity|].
  destruct (popular_packages_ranking sorted_unordered (loaded three_ranked) 2
              eq_refl) as [top [rest [E [Hp _]]]].
  exists top, rest. split; [exact E | exact Hp].
Defined.

(** X15 at the same packages, none of which has a publish time: all tie
    at 0 and keep their order; a limit of -1 cuts the last one off. *)
Lemma recent_all_but_last :
  analyze_recent_packages sorted_unordered (loaded three_ranked) (-1) =
  Ok [ranked_package "a" 5; ranked_package "b" 9] /\
  exists top rest,
    analyze_recent_packages sorted_unordered (loaded three_ranked) (-1) = Ok top /\
    Permutation (top ++ rest) three_ranked.
Proof.
  split; [reflexivity|].
  destruct (recent_packages_ranking sorted_unordered (loaded three_ranked) (-1)
              eq_refl) as [top [rest [E [Hp _]]]].
  exists top, rest. split; [exact E | exact Hp].
Defined.

End AnalyzerReportsFacts.

(* ===================================================================== *)
(** * Search *)
(* ===================================================================== *)

Module SearchFacts.
Import Py PyFacts Builtins BuiltinsFacts AnalyzerReports AnalyzerReportsFacts.
Import Search.
Local Open Scope string_scope.
Local Open Scope list_scope.
Local Open Scope Z_scope.

Lemma rfilter_ok {A} (f : A -> res bool) (l : list A) :
  Forall (fun a => exists b, f a = Ok b) l ->
  exists r,
    rfilter f l = Ok r /\
    (forall a, In a r <-> In a l /\ f a = Ok true) /\
    (forall P : A -> Prop, Forall P l -> Forall P r).
Proof.
  induction 1 as [|a l [b Hb] _ [r [Hr [Hin Hall]]]].
  - exists []. split; [reflexivity|]. split; [simpl; tauto | auto].
  - cbn [rfilter]. rewrite Hb, Hr. cbn [rbind]. destruct b.
    + exists (a :: r). split; [reflexivity|]. split.
      * intros x. simpl. rewrite Hin. split.
        -- intros [<- | [H1 H2]]; auto.
        -- intros [[<- | H1] H2]; auto.
      * intros P HP. inversion HP; subst. constructor; auto.
    + exists r. split; [reflexivity|]. split.
      * intros x. simpl. rewrite Hin. split.
        -- intros [H1 H2]; auto.
        -- intros [[<- | H1] H2]; [congruence | auto].
      * intros P HP. inversion HP; subst. auto.
Qed.

Lemma rfilter_all {A} (f : A -> res bool) (l : list A) :
  Forall (fun a => f a = Ok true) l -> rfilter f l = Ok l.
Proof.
  induction 1 as [|a l Ha _ IH]; [reflexivity|].
  cbn [rfilter]. rewrite Ha, IH. reflexivity.
Qed.

Lemma rfilter_raises {A} (f : A -> res bool) (l : list A) e :
  Forall (fun a => (exists b, f a = Ok b) \/ f a = Raise e) l ->
  Exists (fun a => f a = Raise e) l ->
  rfilter f l = Raise e.
Proof.
  induction 1 as [|a l Ha Hl IH]; intros Hex; [inversion Hex|].
  cbn [rfilter]. destruct Ha as [[b Hb] | Hr]; [|rewrite Hr; reflexivity].
  rewrite Hb. cbn [rbind]. inversion Hex as [? ? Hx | ? ? Hx]; subst.
  - congruence.
  - rewrite (IH Hx). reflexivity.
Qed.

Section Interpreter.

Variable unicode_lower : pystr -> pystr.
Variable lt_other : pyval -> pyval -> res bool.
Variable sorted_other : list (pyval * pyval) -> res (list pyval).

Local Abbreviation lower := (lower unicode_lower).
Local Abbreviation lower_method := (lower_method unicode_lower).
Local Abbreviation text_match := (text_match unicode_lower).
Local Abbreviation differs := (differs unicode_lower).
Local Abbreviation below := (below lt_other).
Local Abbreviation passes := (passes unicode_lower lt_other).
Local Abbreviation search := (search unicode_lower lt_other sorted_other).
Local Abbreviation meets := (meets lower).

Lemma has_text_get k p :
  has_text k p = true -> get p k (PStr []) = Ok (PStr (text_field k p)).
Proof.
  unfold has_text, text_field.
  destruct (get p k (PStr [])) as [v|e]; [|discriminate].
  destruct v; try discriminate. reflexivity.
Qed.

Lemma text_match_text ql p :
  has_text "name" p = true -> has_text "description" p = true ->
  text_match ql p =
  Ok (contains ql (lower (text_field "name" p)) ||
      contains ql (lower (text_field "description" p))).
Proof.
  intros Hn Hd. unfold Search.text_match.
  rewrite (has_text_get _ _ Hn). cbn [rbind Py.lower_method].
  rewrite (has_text_get _ _ Hd). reflexivity.
Qed.

Lemma differs_text k wanted p :
  has_text k p = true ->
  differs k wanted p =
  Ok (negb (str_eqb (lower (text_field k p)) (lower wanted))).
Proof.
  intros Hk. unfold Search.differs. rewrite (has_text_get _ _ Hk). reflexivity.
Qed.

Lemma below_integer k minimum p :
  has_int k p = true -> below k minimum p = Ok (int_of k p <? minimum).
Proof.
  intros Hk. destruct (has_int_key k p Hk) as [v [Hv Hz]].
  unfold Search.below. rewrite Hv. cbn [rbind]. unfold lt.
  rewrite Hz. reflexivity.
Qed.

Lemma searchable_fields p :
  searchable p = true ->
  has_text "name" p = true /\ has_text "description" p = true /\
  has_text "org" p = true /\ has_text "license" p = true /\
  has_int "likes" p = true /\ has_int "popularity" p = true.
Proof.
  unfold searchable. rewrite !andb_true_iff. tauto.
Qed.

(** On a searchable package the loop body raises nothing and keeps the
    package exactly when it meets the criteria. *)
Lemma passes_searchable query org license_filter min_likes min_popularity p :
  searchable p = true ->
  exists b,
    passes query org license_filter min_likes min_popularity p = Ok b /\
    (b = true <-> meets query org license_filter min_likes min_popularity p).
Proof.
  intros Hs.
  destruct (searchable_fields p Hs) as [Hn [Hd [Ho [Hl [Hk Hp]]]]].
  unfold Search.passes, Search.meets. cbv zeta.
  rewrite (below_integer _ min_likes p Hk), (below_integer _ min_popularity p Hp).
  assert (Hq : exists tq,
             (if given query
              then text_match (if given query then lower (text_of query)
                               else []) p
              else Ok true) = Ok tq /\
             (tq = true <->
              (given query = true ->
               spec_occurs (lower (text_of query)) (lower (text_field "name" p)) \/
               spec_occurs (lower (text_of query))
                           (lower (text_field "description" p))))).
  { destruct (given query).
    - rewrite (text_match_text _ p Hn Hd). eexists. split; [reflexivity|].
      rewrite orb_true_iff, !contains_spec. tauto.
    - exists true. split; [reflexivity|]. split; [discriminate | reflexivity]. }
  assert (Hf : forall k wanted, has_text k p = true ->
             exists d,
               (if given wanted then differs k (text_of wanted) p else Ok false)
               = Ok d /\
               (d = false <->
                (given wanted = true ->
                 lower (text_field k p) = lower (text_of wanted)))).
  { intros k wanted Hk'. destruct (given wanted).
    - rewrite (differs_text k _ p Hk'). eexists. split; [reflexivity|].
      rewrite negb_false_iff, str_eqb_eq. tauto.
    - exists false. split; [reflexivity|]. split; [discriminate | reflexivity]. }
  destruct Hq as [tq [-> Htq]].
  destruct (Hf "org" org Ho) as [od [-> Hod]].
  destruct (Hf "license" license_filter Hl) as [ld [-> Hld]].
  cbn [rbind].
  exists (tq && negb od && negb ld &&
          negb (int_of "likes" p <? min_likes) &&
          negb (int_of "popularity" p <? min_popularity)).
  split.
  - destruct tq, od, ld, (int_of "likes" p <? min_likes),
      (int_of "popularity" p <? min_popularity); reflexivity.
  - rewrite !andb_true_iff, !negb_true_iff, !Z.ltb_ge, Htq, Hod, Hld. tauto.
Qed.

(** X16.  On searchable packages [search] raises nothing.  It returns the
    first [limit] packages of a list that holds exactly the packages that
    meet the criteria, in decreasing popularity; a negative [limit] cuts
    that many matches off the end instead. *)
Theorem search_returns_ranked_matches
        (packages : list pyval) (query org license_filter : option pystr)
        (min_likes min_popularity limit : Z) :
  forallb searchable packages = true ->
  exists top rest,
    search packages query org license_filter min_likes min_popularity limit
    = Ok top /\
    (forall p, In p (top ++ rest) <->
               In p packages /\
               meets query org license_filter min_likes min_popularity p) /\
    StronglySorted (fun a b => int_of "popularity" b <= int_of "popularity" a)
                   (top ++ rest) /\
    Z.of_nat (List.length top) =
    (if 0 <=? limit then Z.min limit (Z.of_nat (List.length (top ++ rest)))
     else Z.max 0 (Z.of_nat (List.length (top ++ rest)) + limit)).
Proof.
  intros Hs. rewrite forallb_forall in Hs.
  assert (Hok : Forall (fun p => exists b,
                          passes query org license_filter min_likes
                                 min_popularity p = Ok b) packages).
  { apply Forall_forall. intros p Hp.
    destruct (passes_searchable query org license_filter min_likes
                                min_popularity p (Hs p Hp)) as [b [E _]].
    eauto. }
  destruct (rfilter_ok _ packages Hok) as [results [Er [Hin Hall]]].
  assert (Hint : forallb (has_int "popularity") results = true).
  { apply forallb_forall. intros p Hp. apply Hin in Hp as [Hp _].
    apply searchable_fields, Hs, Hp. }
  unfold Search.search. rewrite Er. cbn [rbind]. unfold by_popularity.
  rewrite (sorted_reverse_integers sorted_other _ (int_of "popularity"))
    by (apply keys_are_integers, Hint).
  cbn [rbind].
  destruct (ranking (int_of "popularity") results limit)
    as [rest [Hperm [Hsorted [_ Hlen]]]].
  exists (slice_to limit (sort_by (int_of "popularity") results)), rest.
  split; [reflexivity|]. split; [|split; [exact Hsorted|]].
  - intros p. split.
    + intros Hp. apply (Permutation_in _ Hperm) in Hp.
      apply Hin in Hp as [Hp Hpass]. split; [exact Hp|].
      destruct (passes_searchable query org license_filter min_likes
                                  min_popularity p (Hs p Hp)) as [b [E Hb]].
      apply Hb. congruence.
    + intros [Hp Hm]. apply (Permutation_in _ (Permutation_sym Hperm)).
      apply Hin. split; [exact Hp|].
      destruct (passes_searchable query org license_filter min_likes
                                  min_popularity p (Hs p Hp)) as [b [E Hb]].
      rewrite E. f_equal. apply Hb, Hm.
  - rewrite (Permutation_length Hperm). exact Hlen.
Qed.

(** X17.  Without a query, an organization or a license, and with both
    minimums at 0, [search] is [analyze_popular_packages] of the analyzer:
    on packages whose likes and popularity are integers not below 0 the
    two return the same list, and the name and the description of a
    package are not even looked at. *)
Theorem search_without_criteria_is_the_popular_ranking
        (packages : list pyval) (query org license_filter : option pystr)
        (limit : Z) :
  given query = false -> given org = false -> given license_filter = false ->
  forallb (fun p => has_int "likes" p && has_int "popularity" p &&
                    (0 <=? int_of "likes" p) && (0 <=? int_of "popularity" p))
          packages = true ->
  search packages query org license_filter 0 0 limit =
  analyze_popular_packages sorted_other (Analyzer.loaded packages) limit.
Proof.
  intros Gq Go Gl Hs. rewrite forallb_forall in Hs.
  unfold Search.search, analyze_popular_packages.
  rewrite rfilter_all; [reflexivity|].
  apply Forall_forall. intros p Hp. specialize (Hs p Hp).
  rewrite !andb_true_iff, !Z.leb_le in Hs. destruct Hs as [[[Hl Hpop] Hl0] Hp0].
  unfold Search.passes. cbv zeta. rewrite Gq, Go, Gl. cbn [rbind negb].
  rewrite (below_integer _ 0 p Hl), (below_integer _ 0 p Hpop).
  cbn [rbind].
  destruct (Z.ltb_spec (int_of "likes" p) 0); [lia|].
  destruct (Z.ltb_spec (int_of "popularity" p) 0); [lia|]. reflexivity.
Qed.

Lemma lower_method_cases v :
  (exists s, lower_method v = Ok s) \/ lower_method v = Raise AttributeError.
Proof. destruct v; simpl; eauto. Qed.

Lemma has_int_dict k p : has_int k p = true -> exists d, p = PDict d.
Proof.
  unfold has_int, int_field. destruct p; try discriminate. eauto.
Qed.

Lemma text_match_cases ql d :
  (has_text "name" (PDict d) && has_text "description" (PDict d) = true /\
   exists b, text_match ql (PDict d) = Ok b) \/
  (has_text "name" (PDict d) && has_text "description" (PDict d) = false /\
   text_match ql (PDict d) = Raise AttributeError).
Proof.
  unfold Search.text_match, has_text.
  destruct (get (PDict d) "name" (PStr [])) as [n|e] eqn:En;
    [|unfold get in En; destruct (lookup (str "name") d); discriminate En].
  destruct (get (PDict d) "description" (PStr [])) as [ds|e] eqn:Ed;
    [|unfold get in Ed; destruct (lookup (str "description") d); discriminate Ed].
  cbn [rbind].
  destruct n; try (right; split; reflexivity).
  cbn [rbind Py.lower_method].
  destruct ds; try (right; split; reflexivity).
  left. split; [reflexivity|]. cbn [rbind Py.lower_method]. eauto.
Qed.

Lemma differs_cases k wanted d :
  (exists b, differs k wanted (PDict d) = Ok b) \/
  differs k wanted (PDict d) = Raise AttributeError.
Proof.
  unfold Search.differs.
  destruct (get (PDict d) k (PStr [])) as [v|e] eqn:Ev;
    [|unfold get in Ev; destruct (lookup (str k) d); discriminate Ev].
  cbn [rbind]. destruct (lower_method_cases v) as [[s ->] | ->];
    cbn [rbind]; eauto.
Qed.

(** X18.  With a query, one package whose name or description is present
    and not a string makes the whole search raise [AttributeError]: no
    result is returned, whether or not the other packages match.  (All
    packages here are dictionaries with integer likes and popularity.) *)
Theorem search_with_query_raises_on_missing_text
        (packages : list pyval) (query org license_filter : option pystr)
        (min_likes min_popularity limit : Z) :
  given query = true ->
  forallb (fun p => has_int "likes" p && has_int "popularity" p) packages = true ->
  existsb (fun p => negb (has_text "name" p && has_text "description" p))
          packages = true ->
  search packages query org license_filter min_likes min_popularity limit
  = Raise AttributeError.
Proof.
  intros Gq Hs Hbad. rewrite forallb_forall in Hs.
  unfold Search.search. rewrite (rfilter_raises _ packages AttributeError);
    [reflexivity| |].
  - apply Forall_forall. intros p Hp. specialize (Hs p Hp).
    apply andb_true_iff in Hs as [Hl Hpop].
    destruct (has_int_dict _ _ Hl) as [d ->].
    unfold Search.passes. cbv zeta. rewrite Gq.
    rewrite (below_integer _ min_likes _ Hl),
      (below_integer _ min_popularity _ Hpop).
    destruct (text_match_cases (lower (text_of query)) d)
      as [[_ [tq ->]] | [_ ->]]; [|right; reflexivity].
    cbn [rbind]. destruct tq; cbn [negb]; [|left; eauto].
    destruct (given org).
    + destruct (differs_cases "org" (text_of org) d) as [[od ->] | ->];
        [|right; reflexivity].
      cbn [rbind]. destruct od; [left; eauto|].
      destruct (given license_filter).
      * destruct (differs_cases "license" (text_of license_filter) d)
          as [[ld ->] | ->]; [|right; reflexivity].
        cbn [rbind]. destruct ld; [left; eauto|].
        destruct (int_of "likes" (PDict d) <? min_likes); left; eauto.
      * cbn [rbind].
        destruct (int_of "likes" (PDict d) <? min_likes); left; eauto.
    + cbn [rbind]. destruct (given license_filter).
      * destruct (differs_cases "license" (text_of license_filter) d)
          as [[ld ->] | ->]; [|right; reflexivity].
        cbn [rbind]. destruct ld; [left; eauto|].
        destruct (int_of "likes" (PDict d) <? min_likes); left; eauto.
      * cbn [rbind].
        destruct (int_of "likes" (PDict d) <? min_likes); left; eauto.
  - apply existsb_exists in Hbad as [p [Hp Hb]]. apply Exists_exists.
    exists p. split; [exact Hp|]. specialize (Hs p Hp).
    apply andb_true_iff in Hs as [Hl _].
    destruct (has_int_dict _ _ Hl) as [d ->].
    apply negb_true_iff in Hb.
    unfold Search.passes. cbv zeta. rewrite Gq.
    destruct (text_match_cases (lower (text_of query)) d)
      as [[Ht _] | [_ ->]]; [congruence | reflexivity].
Qed.

End Interpreter.

(** X16 at four packages and the query [AXIOS]: the two packages with
    [axios] in their name, whatever the case, in the order of the list
    since their popularity is the same. *)
Lemma search_axios :
  search ascii_only_lower lt_unordered sorted_unordered four_listed
         (Some (str "AXIOS")) None None 0 0 20 =
  Ok [listed "@ohos/axios" "ohos" 3 50; listed "@acme/Axios-Kit" "acme" 0 50] /\
  exists top rest,
    search ascii_only_lower lt_unordered sorted_unordered four_listed
           (Some (str "AXIOS")) None None 0 0 20 = Ok top /\
    (forall p, In p (top ++ rest) <->
               In p four_listed /\
               meets (lower ascii_only_lower) (Some (str "AXIOS")) None None 0 0 p).
Proof.
  split; [reflexivity|].
  destruct (search_returns_ranked_matches ascii_only_lower lt_unordered
              sorted_unordered four_listed (Some (str "AXIOS")) None None
              0 0 20 eq_refl) as [top [rest [E [Hin _]]]].
  exists top, rest. split; [exact E | exact Hin].
Defined.

(** X17 at the same packages, with a package whose description is null
    in front: it is ranked like the others. *)
Lemma search_nothing_is_the_ranking :
  search ascii_only_lower lt_unordered sorted_unordered
         (PDict [(str "description", PNone)] :: four_listed)
         None None None 0 0 3 =
  analyze_popular_packages sorted_unordered
    (Analyzer.loaded (PDict [(str "description", PNone)] :: four_listed)) 3.
Proof.
  apply (search_without_criteria_is_the_popular_ranking
           ascii_only_lower lt_unordered sorted_unordered); reflexivity.
Defined.

(** X18 at the same packages with the null description last: the query
    [zip] matches the fourth package, and the search still raises. *)
Lemma search_zip_raises :
  search ascii_only_lower lt_unordered sorted_unordered
         (four_listed ++ [PDict [(str "description", PNone)]])
         (Some (str "zip")) None None 0 0 20 =
  Raise AttributeError.
Proof.
  apply (search_with_query_raises_on_missing_text
           ascii_only_lower lt_unordered sorted_unordered); reflexivity.
Defined.

End SearchFacts.

(* ===================================================================== *)
(** * Statistics *)
(* ===================================================================== *)

Module AnalyzerStatsFacts.
Import Py Builtins BuiltinsFacts Analyzer AnalyzerReports AnalyzerReportsFacts.
Import AnalyzerStats.
Local Open Scope string_scope.
Local Open Scope list_scope.
Local Open Scope Z_scope.

(** ** [max] *)

Lemma first_max_cons {A} (best x : Z * A) (l : list (Z * A)) :
  first_max best (x :: l) = first_max (if fst best <? fst x then x else best) l.
Proof. reflexivity. Qed.

Lemma first_max_spec {A} (l : list (Z * A)) :
  forall pre best post,
    Forall (fun x => fst x < fst best) pre ->
    Forall (fun x => fst x <= fst best) post ->
    exists pre' post',
      pre ++ best :: post ++ l = pre' ++ first_max best l :: post' /\
      Forall (fun x => fst x < fst (first_max best l)) pre' /\
      Forall (fun x => fst x <= fst (first_max best l)) post'.
Proof.
  induction l as [|x l IH]; intros pre best post Hpre Hpost.
  - exists pre, post. rewrite app_nil_r. auto.
  - rewrite first_max_cons.
    destruct (Z.ltb_spec (fst best) (fst x)) as [Hlt|Hge].
    + destruct (IH (pre ++ best :: post) x []) as [pre' [post' [E H]]].
      * apply Forall_app. split.
        -- eapply Forall_impl; [|exact Hpre]. simpl. intros; lia.
        -- constructor; [exact Hlt|].
           eapply Forall_impl; [|exact Hpost]. simpl. intros; lia.
      * constructor.
      * exists pre', post'. split; [|exact H].
        rewrite <- E. cbn [app]. rewrite <- !app_assoc. reflexivity.
    + destruct (IH pre best (post ++ [x])) as [pre' [post' [E H]]].
      * exact Hpre.
      * apply Forall_app. split; [exact Hpost|]. constructor; [lia|constructor].
      * exists pre', post'. split; [|exact H].
        rewrite <- E, <- !app_assoc. reflexivity.
Qed.

Section Interpreter.

Variable average : list pyval -> option pyval.
Variable max_other : list (pyval * pyval) -> option pyval.

Local Abbreviation max_by := (max_by max_other).
Local Abbreviation stat_of := (stat_of average max_other).
Local Abbreviation collect_stats := (collect_stats average max_other).
Local Abbreviation get_category_stats := (get_category_stats average max_other).
Local Abbreviation popularity := (int_of "popularity").

(** With integer popularities [max] picks the first of the most popular
    packages. *)
Lemma max_by_popularity first rest top :
  forallb (has_int "popularity") (first :: rest) = true ->
  max_by by_popularity first rest = Some top ->
  exists pre post,
    first :: rest = pre ++ top :: post /\
    Forall (fun p => popularity p < popularity top) pre /\
    Forall (fun p => popularity p <= popularity top) post.
Proof.
  intros Hint. pose proof (keys_are_integers _ _ Hint) as Hk.
  assert (Hg : exists g, Forall (fun p => by_popularity p = Ok (g p) /\
                                          int_value (g p) = Some (popularity p))
                                (first :: rest)).
  { exists (fun p => match by_popularity p with Ok v => v | Raise _ => PNone end).
    eapply Forall_impl; [|exact Hk]. unfold by_popularity. simpl.
    intros p [v [-> Hv]]. auto. }
  destruct Hg as [g Hg]. unfold AnalyzerStats.max_by.
  rewrite (rmap_ok by_popularity g)
    by (eapply Forall_impl; [|exact Hg]; simpl; tauto).
  rewrite (int_values_map g popularity)
    by (eapply Forall_impl; [|exact Hg]; simpl; tauto).
  cbn [map]. rewrite combine_keyed. intros [= <-].
  destruct (first_max_spec (map (fun a => (popularity a, a)) rest)
                           [] (popularity first, first) [])
    as [pre' [post' [E [Hpre Hpost]]]]; [constructor | constructor |].
  cbn [app] in E.
  set (r := first_max (popularity first, first)
                      (map (fun a => (popularity a, a)) rest)) in *.
  assert (Hr : fst r = popularity (snd r)).
  { assert (Hin : In r (map (fun a => (popularity a, a)) (first :: rest))).
    { cbn [map]. rewrite E. apply in_or_app. right. left. reflexivity. }
    apply in_map_iff in Hin as [a [<- _]]. reflexivity. }
  assert (Hall : Forall (fun y => fst y = popularity (snd y)) (pre' ++ r :: post')).
  { rewrite <- E. change ((popularity first, first)
                           :: map (fun a => (popularity a, a)) rest)
      with (map (fun a => (popularity a, a)) (first :: rest)).
    apply Forall_forall. intros y Hy. apply in_map_iff in Hy as [a [<- _]].
    reflexivity. }
  apply Forall_app in Hall as [Hall1 Hall2]. inversion Hall2 as [|? ? _ Hall3]; subst.
  exists (map snd pre'), (map snd post'). split; [|split].
  - pose proof (f_equal (map snd) E) as E'.
    cbn [map snd] in E'. rewrite map_map in E'. cbn [snd] in E'.
    rewrite map_id, map_app in E'. exact E'.
  - apply Forall_map. rewrite Forall_forall in *. intros y Hy.
    specialize (Hpre y Hy). specialize (Hall1 y Hy). lia.
  - apply Forall_map. rewrite Forall_forall in *. intros y Hy.
    specialize (Hpost y Hy). specialize (Hall3 y Hy). lia.
Qed.

(** ** The entries *)

Lemma stat_of_describes cid c first rest st :
  packages c = first :: rest ->
  stat_of c first rest = Some st ->
  describes (cid, st) (cid, c).
Proof.
  intros Hp. unfold AnalyzerStats.stat_of.
  destruct (avg_of average (first :: rest)) as [avg|]; [|discriminate].
  destruct (max_by by_popularity first rest) as [top|] eqn:Hmax; [|discriminate].
  intros [= <-]. unfold describes. cbn [fst snd stat_name count top_package].
  rewrite Hp. repeat split.
  intros Hint. destruct (max_by_popularity first rest top Hint Hmax)
    as [pre [post H]].
  exists pre, post. exact H.
Qed.

Lemma collect_stats_describes (cats : catalog) stats :
  collect_stats cats = Some stats ->
  Forall2 describes stats (filter populated cats).
Proof.
  revert stats; induction cats as [|[cid c] cats IH]; intros stats.
  - intros [= <-]. constructor.
  - cbn [AnalyzerStats.collect_stats filter]. unfold populated at 1. cbn [snd].
    destruct (packages c) as [|first rest] eqn:Hp; [apply IH|].
    destruct (stat_of c first rest) as [st|] eqn:Hst; [|discriminate].
    destruct (collect_stats cats) as [stats'|]; [|discriminate].
    intros [= <-]. constructor; [|apply IH; reflexivity].
    eapply stat_of_describes; eassumption.
Qed.

Lemma describes_In stats cats :
  Forall2 describes stats cats ->
  (forall item, In item stats -> exists cat, In cat cats /\ describes item cat) /\
  (forall cat, In cat cats -> exists item, In item stats /\ describes item cat).
Proof.
  induction 1 as [|item cat stats cats Hd _ [IH1 IH2]];
    [split; intros ? [] | split].
  - intros x [<- | Hx]; [exists cat; simpl; auto|].
    destruct (IH1 x Hx) as [y [Hy Hxy]]. exists y. simpl. auto.
  - intros y [<- | Hy]; [exists item; simpl; auto|].
    destruct (IH2 y Hy) as [x [Hx Hxy]]. exists x. simpl. auto.
Qed.

Lemma describes_filter stats cats k :
  Forall2 describes stats cats ->
  map fst (filter (fun item => counted item =? k) stats) =
  map fst (filter (fun cat => Z.of_nat (List.length (packages (snd cat))) =? k)
                  cats).
Proof.
  induction 1 as [|item cat stats cats [Hf [_ [Hc _]]] _ IH]; [reflexivity|].
  cbn [filter]. unfold counted at 1. rewrite Hc.
  destruct (Z.of_nat (List.length (packages (snd cat))) =? k);
    cbn [map]; rewrite IH; [rewrite Hf|]; reflexivity.
Qed.

Lemma describes_total stats cats :
  Forall2 describes stats cats ->
  list_sum (map (fun item => count (snd item)) stats) =
  List.length (categorized cats).
Proof.
  induction 1 as [|item cat stats cats [_ [_ [Hc _]]] _ IH]; [reflexivity|].
  assert (Hcons : forall a l, list_sum (a :: l) = (a + list_sum l)%nat)
    by reflexivity.
  cbn [map]. rewrite Hcons, IH, Hc. unfold categorized. cbn [flat_map].
  rewrite length_app. reflexivity.
Qed.

Lemma categorized_populated (cats : catalog) :
  categorized (filter populated cats) = categorized cats.
Proof.
  unfold categorized. induction cats as [|[cid c] cats IH]; [reflexivity|].
  cbn [filter flat_map]. unfold populated at 1. cbn [snd].
  destruct (packages c) eqn:Hp; cbn [flat_map snd]; rewrite IH, ?Hp; reflexivity.
Qed.

Lemma filter_populated (cats : catalog) k :
  0 < k ->
  filter (fun cat => Z.of_nat (List.length (packages (snd cat))) =? k)
         (filter populated cats) =
  filter (fun cat => Z.of_nat (List.length (packages (snd cat))) =? k) cats.
Proof.
  intros Hk. induction cats as [|[cid c] cats IH]; [reflexivity|].
  cbn [filter]. unfold populated at 1. cbn [snd].
  destruct (packages c) as [|p ps] eqn:Hp.
  - rewrite IH. cbn [List.length].
    destruct (Z.eqb_spec (Z.of_nat 0) k); [lia | reflexivity].
  - cbn [filter snd]. rewrite Hp, IH. reflexivity.
Qed.

(** X19.  The statistics have one entry per category that holds packages
    and none for the others.  The entry carries the category's display
    name and the number of its packages, and, when the popularity of each
    of them is an integer, its [top_package] is the first of the most
    popular ones. *)
Theorem category_stats_entries
        (self : PackageAnalyzer) (stats : list (string * stat)) :
  get_category_stats self = Some stats ->
  (forall cid st, In (cid, st) stats ->
     exists c, In (cid, c) (self_categories self) /\
               packages c <> [] /\
               describes (cid, st) (cid, c)) /\
  (forall cid c, In (cid, c) (self_categories self) -> packages c <> [] ->
     exists st, In (cid, st) stats /\ describes (cid, st) (cid, c)).
Proof.
  unfold AnalyzerStats.get_category_stats.
  destruct (collect_stats (self_categories self)) as [collected|] eqn:Hc;
    [|discriminate].
  intros [= <-]. apply collect_stats_describes in Hc.
  destruct (describes_In _ _ Hc) as [H1 H2]. split.
  - intros cid st Hin.
    apply (Permutation_in _ (sort_by_perm _ collected)) in Hin.
    destruct (H1 _ Hin) as [[cid' c] [Hcat Hd]].
    apply filter_In in Hcat as [Hcat Hpop].
    assert (cid' = cid) by (destruct Hd as [Hf _]; simpl in Hf; congruence).
    subst cid'. exists c. split; [exact Hcat|]. split; [|exact Hd].
    unfold populated in Hpop. simpl in Hpop. intros E. rewrite E in Hpop.
    discriminate Hpop.
  - intros cid c Hin Hne.
    assert (Hcat : In (cid, c) (filter populated (self_categories self))).
    { apply filter_In. split; [exact Hin|]. unfold populated. simpl.
      destruct (packages c); [congruence | reflexivity]. }
    destruct (H2 _ Hcat) as [[cid' st] [Hst Hd]].
    assert (cid' = cid) by (destruct Hd as [Hf _]; simpl in Hf; congruence).
    subst cid'. exists st. split; [|exact Hd].
    apply (Permutation_in _ (Permutation_sym (sort_by_perm _ collected))).
    exact Hst.
Qed.

(** X20.  The statistics come in decreasing order of package count,
    categories with the same count in catalog order, and the counts add up
    to the number of categorized packages. *)
Theorem category_stats_order
        (self : PackageAnalyzer) (stats : list (string * stat)) :
  get_category_stats self = Some stats ->
  StronglySorted (fun a b => counted b <= counted a) stats /\
  (forall k, 0 < k ->
     map fst (filter (fun item => counted item =? k) stats) =
     map fst (filter (fun cat => Z.of_nat (List.length (packages (snd cat))) =? k)
                     (self_categories self))) /\
  list_sum (map (fun item => count (snd item)) stats) =
  List.length (categorized (self_categories self)).
Proof.
  unfold AnalyzerStats.get_category_stats.
  destruct (collect_stats (self_categories self)) as [collected|] eqn:Hc;
    [|discriminate].
  intros [= <-]. apply collect_stats_describes in Hc.
  split; [apply (sort_by_sorted counted)|]. split.
  - intros k Hk. rewrite (sort_by_stable counted), (describes_filter _ _ k Hc).
    rewrite (filter_populated _ k Hk). reflexivity.
  - rewrite (AnalyzerFacts.list_sum_perm _ _
               (Permutation_map _ (sort_by_perm counted collected))).
    rewrite (describes_total _ _ Hc). f_equal. apply categorized_populated.
Qed.

(** The statistics can be built when the popularities are integers and
    the averages can be computed. *)
Lemma get_category_stats_completes (self : PackageAnalyzer) :
  Forall (fun cat => forallb (has_int "popularity") (packages (snd cat)) = true)
         (self_categories self) ->
  (forall values, values <> [] -> int_values values <> None ->
                  average values <> None) ->
  exists stats, get_category_stats self = Some stats.
Proof.
  intros Hall Havg. unfold AnalyzerStats.get_category_stats.
  assert (H : exists collected,
             collect_stats (self_categories self) = Some collected).
  { induction Hall as [|[cid c] cats Hc _ IH]; [eexists; reflexivity|].
    cbn [AnalyzerStats.collect_stats]. cbn [snd] in Hc.
    destruct (packages c) as [|first rest]; [exact IH|].
    destruct IH as [collected ->].
    pose proof (keys_are_integers _ _ Hc) as Hk.
    assert (Hg : exists g, Forall (fun p => by_popularity p = Ok (g p) /\
                                            int_value (g p) = Some (popularity p))
                                  (first :: rest)).
    { exists (fun p => match by_popularity p with Ok v => v | Raise _ => PNone end).
      eapply Forall_impl; [|exact Hk]. unfold by_popularity. simpl.
      intros p [v [-> Hv]]. auto. }
    destruct Hg as [g Hg].
    unfold AnalyzerStats.stat_of, avg_of, AnalyzerStats.max_by.
    rewrite (rmap_ok by_popularity g)
      by (eapply Forall_impl; [|exact Hg]; simpl; tauto).
    rewrite (int_values_map g popularity)
      by (eapply Forall_impl; [|exact Hg]; simpl; tauto).
    destruct (average (map g (first :: rest))) as [avg|] eqn:Ea.
    - cbn [map]. eexists. reflexivity.
    - exfalso. apply (Havg (map g (first :: rest))); [discriminate| |exact Ea].
      rewrite (int_values_map g popularity)
        by (eapply Forall_impl; [|exact Hg]; simpl; tauto).
      discriminate. }
  destruct H as [collected ->]. eauto.
Qed.

End Interpreter.

(** ** After the categorization *)

Section Unicode.

Variable unicode_alnum : N -> bool.
Variable unicode_lower : pystr -> pystr.
Variable average : list pyval -> option pyval.
Variable max_other : list (pyval * pyval) -> option pyval.

Lemma categorize_packages_accounts pkgs self' n :
  categorize_packages unicode_alnum unicode_lower (loaded pkgs) = Ok (self', n) ->
  Z.of_nat n = Z.of_nat (List.length (categorized (self_categories self'))) /\
  (List.length (categorized (self_categories self')) +
   List.length (self_uncategorized self') = List.length pkgs)%nat.
Proof.
  intros E.
  assert (Hx : forallb AnalyzerInput.extractable pkgs = true).
  { destruct (forallb AnalyzerInput.extractable pkgs) eqn:Hx; [reflexivity|].
    unfold Analyzer.categorize_packages in E. cbn [self_packages loaded] in E.
    rewrite (AnalyzerInputFacts.categorize_loop_raises
               unicode_alnum unicode_lower pkgs Hx) in E.
    discriminate E. }
  assert (Hp : Forall (fun p => exists text,
                         _extract_text_features unicode_lower p = Ok text) pkgs).
  { apply Forall_forall. intros p Hin.
    apply AnalyzerInputFacts.extract_extractable.
    rewrite forallb_forall in Hx. apply Hx, Hin. }
  destruct (AnalyzerFacts.categorize_loop_partitions
              unicode_alnum unicode_lower pkgs Hp _define_categories [] 0)
    as [cats' [unc' [n' [Hr [Hperm [Hn Hk]]]]]].
  unfold Analyzer.categorize_packages in E.
  cbn [self_packages self_categories self_uncategorized loaded] in E.
  rewrite Hr in E. cbn [rbind] in E. injection E as <- <-.
  cbn [self_categories self_uncategorized].
  assert (E0 : categorized _define_categories = []) by reflexivity.
  rewrite E0 in Hperm, Hn. simpl in Hperm, Hn.
  apply Permutation_length in Hperm. rewrite length_app in Hperm.
  split; [lia | exact Hperm].
Qed.

(** X21.  After [categorize_packages] on a freshly loaded analyzer, the
    counts of the statistics add up to [categorized_count], and together
    with the uncategorized packages they account for every loaded
    package. *)
Theorem stats_account_for_every_package
        (pkgs : list pyval) (self' : PackageAnalyzer) (n : nat)
        (stats : list (string * stat)) :
  categorize_packages unicode_alnum unicode_lower (loaded pkgs) = Ok (self', n) ->
  get_category_stats average max_other self' = Some stats ->
  list_sum (map (fun item => count (snd item)) stats) = n /\
  (list_sum (map (fun item => count (snd item)) stats) +
   List.length (self_uncategorized self') = List.length pkgs)%nat.
Proof.
  intros Ec Es.
  destruct (categorize_packages_accounts pkgs self' n Ec) as [Hn Hlen].
  unfold AnalyzerStats.get_category_stats in Es.
  destruct (collect_stats average max_other (self_categories self'))
    as [collected|] eqn:Hc; [|discriminate].
  injection Es as <-. apply collect_stats_describes in Hc.
  rewrite (AnalyzerFacts.list_sum_perm _ _
             (Permutation_map _ (sort_by_perm counted collected))).
  rewrite (describes_total _ _ Hc), categorized_populated. lia.
Qed.

End Unicode.

(** The analyzer after the categorization of the four sample packages. *)
Lemma sample_categorized :
  exists self',
    categorize_packages ascii_only_alnum ascii_only_lower
      (loaded sample_packages) = Ok (self', 3%nat) /\
    exists st1 st2,
      get_category_stats average_unknown max_unordered self' =
      Some [("testing", st1); ("utilities", st2)] /\
      count st1 = 2%nat /\ count st2 = 1%nat /\
      top_package st1 = ranked_package "mock" 9.
Proof.
  eexists. split; [vm_compute; reflexivity|].
  eexists. eexists. split; [vm_compute; reflexivity|].
  repeat split.
Defined.

(** X19 at the sample: the entry of the testing category. *)
Lemma sample_stats_entries :
  exists self' stats,
    get_category_stats average_unknown max_unordered self' = Some stats /\
    (forall cid st, In (cid, st) stats ->
       exists c, In (cid, c) (self_categories self') /\
                 packages c <> [] /\ describes (cid, st) (cid, c)).
Proof.
  destruct sample_categorized as [self' [_ [st1 [st2 [E _]]]]].
  exists self'. eexists. split; [exact E|].
  exact (proj1 (category_stats_entries average_unknown max_unordered
                  self' _ E)).
Defined.

(** X20 at the sample: testing, with two packages, comes first. *)
Lemma sample_stats_order :
  exists self' stats,
    get_category_stats average_unknown max_unordered self' = Some stats /\
    StronglySorted (fun a b => counted b <= counted a) stats /\
    list_sum (map (fun item => count (snd item)) stats) =
    List.length (categorized (self_categories self')).
Proof.
  destruct sample_categorized as [self' [_ [st1 [st2 [E _]]]]].
  exists self'. eexists. split; [exact E|].
  destruct (category_stats_order average_unknown max_unordered self' _ E)
    as [Hs [_ Ht]].
  split; [exact Hs | exact Ht].
Defined.

(** X21 at the sample: three categorized packages and one without a
    category make four. *)
Lemma sample_stats_account :
  exists self' stats,
    get_category_stats average_unknown max_unordered self' = Some stats /\
    list_sum (map (fun item => count (snd item)) stats) = 3%nat /\
    (list_sum (map (fun item => count (snd item)) stats) +
     List.length (self_uncategorized self') = List.length sample_packages)%nat.
Proof.
  destruct sample_categorized as [self' [Ec [st1 [st2 [E _]]]]].
  exists self'. eexists. split; [exact E|].
  exact (stats_account_for_every_package ascii_only_alnum ascii_only_lower
           average_unknown max_unordered sample_packages self' 3 _ Ec E).
Defined.

End AnalyzerStatsFacts.

(* ===================================================================== *)
(** * Facts about the package URL *)
(* ===================================================================== *)

Module PackageUrlFacts.
Import Py PackageUrl.
Local Open Scope list_scope.
Local Open Scope N_scope.

Lemma some_eq {A : Type} (x y : A) : Some x = Some y -> x = y.
Proof. congruence. Qed.

Local Ltac some_inv :=
  let E := fresh "E" in
  intros E; apply some_eq in E; match type of E with _ = ?b => subst b end.


Lemma utf8_bytes (c : N) (bytes : list N) :
  utf8 c = Some bytes -> Forall byte bytes.
Proof.
  unfold utf8, byte.
  destruct (c <? 128) eqn:E1; [apply N.ltb_lt in E1|apply N.ltb_ge in E1].
  { some_inv. repeat (apply Forall_cons; [lia|]). apply Forall_nil. }
  destruct (c <? 2048) eqn:E2; [apply N.ltb_lt in E2|apply N.ltb_ge in E2].
  { some_inv.
    assert (c / 64 < 32) by (apply N.Div0.div_lt_upper_bound; lia).
    assert (c mod 64 < 64) by (apply N.mod_lt; lia).
    repeat (apply Forall_cons; [lia|]). apply Forall_nil. }
  destruct (c <? 65536) eqn:E3; [apply N.ltb_lt in E3|apply N.ltb_ge in E3].
  { destruct ((55296 <=? c) && (c <=? 57343)); [discriminate|].
    some_inv.
    assert (c / 4096 < 16) by (apply N.Div0.div_lt_upper_bound; lia).
    assert ((c / 64) mod 64 < 64) by (apply N.mod_lt; lia).
    assert (c mod 64 < 64) by (apply N.mod_lt; lia).
    repeat (apply Forall_cons; [lia|]). apply Forall_nil. }
  destruct (c <? 1114112) eqn:E4; [apply N.ltb_lt in E4|discriminate].
  some_inv.
  assert (c / 262144 < 5) by (apply N.Div0.div_lt_upper_bound; lia).
  assert ((c / 4096) mod 64 < 64) by (apply N.mod_lt; lia).
  assert ((c / 64) mod 64 < 64) by (apply N.mod_lt; lia).
  assert (c mod 64 < 64) by (apply N.mod_lt; lia).
  repeat (apply Forall_cons; [lia|]). apply Forall_nil.
Qed.

Lemma encode_cons (c : N) (s : pystr) :
  encode (c :: s) =
  match utf8 c, encode s with
  | Some bytes, Some rest => Some (bytes ++ rest)
  | _, _ => None
  end.
Proof. reflexivity. Qed.

Lemma encode_bytes (s : pystr) :
  forall bytes, encode s = Some bytes -> Forall byte bytes.
Proof.
  induction s as [|c s IH]; intros bytes.
  - some_inv. constructor.
  - rewrite encode_cons.
    destruct (utf8 c) as [b|] eqn:Ec; [|discriminate].
    destruct (encode s) as [r|]; [|discriminate].
    some_inv. apply Forall_app. split; [eapply utf8_bytes; eauto|auto].
Qed.

Lemma hex_digit_unreserved (n : N) : n < 16 -> unreserved (hex_digit n) = true.
Proof.
  intros H. unfold hex_digit, unreserved, ascii_alnum.
  destruct (n <? 10) eqn:E; [apply N.ltb_lt in E|apply N.ltb_ge in E].
  - replace ((48 <=? 48 + n) && (48 + n <=? 57)) with true; [reflexivity|].
    symmetry. apply andb_true_iff. split; apply N.leb_le; lia.
  - replace ((65 <=? 55 + n) && (55 + n <=? 90)) with true;
      [rewrite !orb_true_r; reflexivity|].
    symmetry. apply andb_true_iff. split; apply N.leb_le; lia.
Qed.

Lemma quote_byte_safe (b : N) :
  byte b -> Forall (fun c => url_safe c = true) (quote_byte b).
Proof.
  intros H. unfold byte in H. unfold quote_byte, url_safe.
  destruct (unreserved b) eqn:E.
  - apply Forall_cons; [now rewrite E|apply Forall_nil].
  - assert (b / 16 < 16) by (apply N.Div0.div_lt_upper_bound; lia).
    assert (b mod 16 < 16) by (apply N.mod_lt; lia).
    apply Forall_cons; [apply orb_true_r|].
    apply Forall_cons; [now rewrite hex_digit_unreserved|].
    apply Forall_cons; [now rewrite hex_digit_unreserved|].
    apply Forall_nil.
Qed.

Lemma quote_safe (bytes : list N) :
  Forall byte bytes ->
  Forall (fun c => url_safe c = true) (flat_map quote_byte bytes).
Proof.
  induction 1 as [|b bs Hb _ IH]; [constructor|].
  cbn [flat_map]. apply Forall_app. split; [now apply quote_byte_safe|exact IH].
Qed.

(** X22.  The URL of a package is the detail prefix followed by a
    segment made of unreserved characters and percent escapes only: no
    character of the name that delimits a part of a URL ([/], [@], [#],
    [?], [&], [=], space, [+], [:]) reaches the URL unescaped. *)
Theorem package_url_is_escaped (package_name url : pystr) :
  _get_package_url package_name = Some url ->
  exists encoded_name,
    url = detail_prefix ++ encoded_name /\
    Forall (fun c => url_safe c = true) encoded_name /\
    (forall c, In c delimiters -> ~ In c encoded_name).
Proof.
  unfold _get_package_url, quote.
  destruct (encode package_name) as [bytes|] eqn:E; [|discriminate].
  some_inv. eexists. split; [reflexivity|].
  pose proof (quote_safe bytes (encode_bytes _ _ E)) as Hs.
  split; [exact Hs|].
  intros c Hc Hin. rewrite Forall_forall in Hs. specialize (Hs c Hin).
  cbn in Hc.
  repeat (destruct Hc as [<-|Hc]; [discriminate Hs|]). destruct Hc.
Qed.

Lemma hex_value_digit (n : N) : n < 16 -> hex_value (hex_digit n) = n.
Proof.
  intros H. unfold hex_value, hex_digit.
  destruct (n <? 10) eqn:E; [apply N.ltb_lt in E|apply N.ltb_ge in E].
  - replace (48 + n <? 58) with true by (symmetry; apply N.ltb_lt; lia). lia.
  - replace (55 + n <? 58) with false by (symmetry; apply N.ltb_ge; lia). lia.
Qed.

Lemma unreserved_not_percent (b : N) : unreserved b = true -> (b =? c_percent) = false.
Proof.
  intros H. destruct (b =? c_percent) eqn:E; [|reflexivity].
  apply N.eqb_eq in E. subst b. discriminate H.
Qed.

Lemma unquote_plain (c : N) (t : pystr) :
  (c =? c_percent) = false -> unquote (c :: t) = c :: unquote t.
Proof. intros H. cbn [unquote]. now rewrite H. Qed.

Lemma unquote_escape (h l : N) (t : pystr) :
  unquote (c_percent :: h :: l :: t) =
  (16 * hex_value h + hex_value l) :: unquote t.
Proof. reflexivity. Qed.

Lemma unquote_quote (bytes : list N) :
  Forall byte bytes -> unquote (flat_map quote_byte bytes) = bytes.
Proof.
  induction 1 as [|b bs Hb _ IH]; [reflexivity|].
  unfold byte in Hb. cbn [flat_map]. unfold quote_byte at 1.
  destruct (unreserved b) eqn:E.
  - cbn [app]. rewrite (unquote_plain _ _ (unreserved_not_percent _ E)).
    now rewrite IH.
  - cbn [app]. rewrite unquote_escape.
    assert (b / 16 < 16) by (apply N.Div0.div_lt_upper_bound; lia).
    assert (b mod 16 < 16) by (apply N.mod_lt; lia).
    rewrite !hex_value_digit by assumption. rewrite IH. f_equal.
    pose proof (N.Div0.div_mod b 16). lia.
Qed.

Lemma decode_encode (s : pystr) :
  forall bytes, encode s = Some bytes -> decode bytes = s.
Proof.
  induction s as [|c s IH]; intros bytes.
  - some_inv. reflexivity.
  - rewrite encode_cons.
    destruct (utf8 c) as [b|] eqn:Ec; [|discriminate].
    destruct (encode s) as [r|]; [|discriminate].
    some_inv. specialize (IH r eq_refl).
    revert Ec. unfold utf8.
    destruct (c <? 128) eqn:E1; [apply N.ltb_lt in E1|apply N.ltb_ge in E1].
    { some_inv. cbn [app decode].
      replace (c <? 128) with true by (symmetry; apply N.ltb_lt; lia).
      now rewrite IH. }
    destruct (c <? 2048) eqn:E2; [apply N.ltb_lt in E2|apply N.ltb_ge in E2].
    { some_inv. cbn [app decode].
      assert (c / 64 < 32) by (apply N.Div0.div_lt_upper_bound; lia).
      assert (c mod 64 < 64) by (apply N.mod_lt; lia).
      pose proof (N.Div0.div_mod c 64).
      replace (192 + c / 64 <? 128) with false by (symmetry; apply N.ltb_ge; lia).
      replace (192 + c / 64 <? 224) with true by (symmetry; apply N.ltb_lt; lia).
      rewrite IH. f_equal.
      generalize dependent (c / 64). generalize dependent (c mod 64).
      intros; lia. }
    destruct (c <? 65536) eqn:E3; [apply N.ltb_lt in E3|apply N.ltb_ge in E3].
    { destruct ((55296 <=? c) && (c <=? 57343)); [discriminate|].
      some_inv. cbn [app decode].
      assert (c / 4096 < 16) by (apply N.Div0.div_lt_upper_bound; lia).
      assert ((c / 64) mod 64 < 64) by (apply N.mod_lt; lia).
      assert (c mod 64 < 64) by (apply N.mod_lt; lia).
      pose proof (N.Div0.div_mod c 64) as D1.
      pose proof (N.Div0.div_mod (c / 64) 64) as D2.
      rewrite N.Div0.div_div in D2. change (64 * 64) with 4096 in D2.
      replace (224 + c / 4096 <? 128) with false by (symmetry; apply N.ltb_ge; lia).
      replace (224 + c / 4096 <? 224) with false by (symmetry; apply N.ltb_ge; lia).
      replace (224 + c / 4096 <? 240) with true by (symmetry; apply N.ltb_lt; lia).
      rewrite IH. f_equal.
      generalize dependent ((c / 64) mod 64). generalize dependent (c mod 64).
      generalize dependent (c / 4096). generalize dependent (c / 64).
      intros; lia. }
    destruct (c <? 1114112) eqn:E4; [apply N.ltb_lt in E4|discriminate].
    some_inv. cbn [app decode].
    assert (c / 262144 < 5) by (apply N.Div0.div_lt_upper_bound; lia).
    assert ((c / 4096) mod 64 < 64) by (apply N.mod_lt; lia).
    assert ((c / 64) mod 64 < 64) by (apply N.mod_lt; lia).
    assert (c mod 64 < 64) by (apply N.mod_lt; lia).
    pose proof (N.Div0.div_mod c 64) as D1.
    pose proof (N.Div0.div_mod (c / 64) 64) as D2.
    pose proof (N.Div0.div_mod (c / 4096) 64) as D3.
    rewrite N.Div0.div_div in D2, D3.
    change (64 * 64) with 4096 in D2. change (4096 * 64) with 262144 in D3.
    replace (240 + c / 262144 <? 128) with false by (symmetry; apply N.ltb_ge; lia).
    replace (240 + c / 262144 <? 224) with false by (symmetry; apply N.ltb_ge; lia).
    replace (240 + c / 262144 <? 240) with false by (symmetry; apply N.ltb_ge; lia).
    rewrite IH. f_equal.
    generalize dependent ((c / 4096) mod 64).
    generalize dependent ((c / 64) mod 64). generalize dependent (c mod 64).
    generalize dependent (c / 262144).
    generalize dependent (c / 4096). generalize dependent (c / 64).
    intros; lia.
Qed.

(** The name can be read back from the URL. *)
Lemma package_url_round_trip (package_name url : pystr) :
  _get_package_url package_name = Some url ->
  exists encoded_name,
    url = detail_prefix ++ encoded_name /\
    decode (unquote encoded_name) = package_name.
Proof.
  unfold _get_package_url, quote.
  destruct (encode package_name) as [bytes|] eqn:E; [|discriminate].
  some_inv. eexists. split; [reflexivity|].
  rewrite unquote_quote by (eapply encode_bytes; eauto).
  now apply decode_encode.
Qed.

Lemma quote_injective (name1 name2 : pystr) (bytes1 bytes2 : list N) :
  encode name1 = Some bytes1 -> encode name2 = Some bytes2 ->
  flat_map quote_byte bytes1 = flat_map quote_byte bytes2 ->
  name1 = name2.
Proof.
  intros E1 E2 H.
  rewrite <- (decode_encode _ _ E1), <- (decode_encode _ _ E2).
  rewrite <- (unquote_quote bytes1) by (eapply encode_bytes; eauto).
  rewrite <- (unquote_quote bytes2) by (eapply encode_bytes; eauto).
  now rewrite H.
Qed.

(** X23.  Two different package names never get the same URL. *)
Theorem package_urls_are_distinct (name1 name2 url1 url2 : pystr) :
  name1 <> name2 ->
  _get_package_url name1 = Some url1 ->
  _get_package_url name2 = Some url2 ->
  url1 <> url2.
Proof.
  intros Hne H1 H2 Heq. apply Hne.
  unfold _get_package_url, quote in H1, H2.
  destruct (encode name1) as [b1|] eqn:E1; [|discriminate].
  destruct (encode name2) as [b2|] eqn:E2; [|discriminate].
  apply some_eq in H1, H2. subst url1 url2.
  apply app_inv_head in Heq.
  exact (quote_injective _ _ _ _ E1 E2 Heq).
Qed.

Lemma utf8_none (c : N) :
  code_point c = true -> (utf8 c = None <-> is_surrogate c = true).
Proof.
  unfold code_point, utf8, is_surrogate. intros H.
  destruct (c <? 128) eqn:E1; [apply N.ltb_lt in E1|apply N.ltb_ge in E1].
  { split; [discriminate|]. intros Hs. apply andb_true_iff in Hs.
    destruct Hs as [Hs _]. apply N.leb_le in Hs. lia. }
  destruct (c <? 2048) eqn:E2; [apply N.ltb_lt in E2|apply N.ltb_ge in E2].
  { split; [discriminate|]. intros Hs. apply andb_true_iff in Hs.
    destruct Hs as [Hs _]. apply N.leb_le in Hs. lia. }
  destruct (c <? 65536) eqn:E3; [apply N.ltb_lt in E3|apply N.ltb_ge in E3].
  { destruct ((55296 <=? c) && (c <=? 57343)); split; congruence. }
  rewrite H. split; [discriminate|]. intros Hs. apply andb_true_iff in Hs.
  destruct Hs as [_ Hs]. apply N.leb_le in Hs. lia.
Qed.

(** X24.  The URL builder fails exactly on a name that holds a surrogate
    code point (which [json.load] produces from a lone [\ud800]-style
    escape): the UTF-8 encoding inside [quote] refuses it. *)
Theorem package_url_fails_on_surrogates (package_name : pystr) :
  Forall (fun c => code_point c = true) package_name ->
  (_get_package_url package_name = None <->
   Exists (fun c => is_surrogate c = true) package_name).
Proof.
  intros H. unfold _get_package_url, quote.
  assert (Hen : encode package_name = None <->
                Exists (fun c => is_surrogate c = true) package_name).
  { induction H as [|c s Hc _ IH].
    - split; [discriminate|]. intros Hx. inversion Hx.
    - rewrite encode_cons, Exists_cons, <- IH, <- (utf8_none c Hc).
      destruct (utf8 c), (encode s); split; try tauto; try discriminate;
        intros [?|?]; discriminate. }
  rewrite <- Hen. destruct (encode package_name); split; congruence.
Qed.

(** X22 at a scoped name: the at sign and the slash are escaped. *)
Lemma scoped_name_is_escaped :
  _get_package_url (str "@ohos/axios") =
    Some (str "https://ohpm.openharmony.cn/#/cn/detail/%40ohos%2Faxios") /\
  exists encoded_name,
    str "https://ohpm.openharmony.cn/#/cn/detail/%40ohos%2Faxios" =
      detail_prefix ++ encoded_name /\
    Forall (fun c => url_safe c = true) encoded_name /\
    (forall c, In c delimiters -> ~ In c encoded_name).
Proof.
  split; [reflexivity|].
  exact (package_url_is_escaped (str "@ohos/axios") _ eq_refl).
Defined.

(** X23 at a scoped name and the name its escape would spell. *)
Lemma escape_lookalike_is_distinct :
  str "https://ohpm.openharmony.cn/#/cn/detail/%40ohos%2Faxios" <>
  str "https://ohpm.openharmony.cn/#/cn/detail/%2540ohos%252Faxios".
Proof.
  apply (package_urls_are_distinct (str "@ohos/axios") (str "%40ohos%2Faxios")).
  - discriminate.
  - reflexivity.
  - reflexivity.
Defined.

(** X24 at a name that ends in a lone high surrogate. *)
Lemma lone_surrogate_has_no_url :
  _get_package_url (str "pkg" ++ [55357]) = None.
Proof.
  apply (proj2 (package_url_fails_on_surrogates (str "pkg" ++ [55357])
                  ltac:(repeat constructor))).
  apply Exists_exists. exists 55357. split; [|reflexivity].
  apply in_or_app. right. left. reflexivity.
Defined.

End PackageUrlFacts.
